(** * goini: a shallow embedding of the INI loader and its typed accessors

    The Go package [goini] (file [goini.go]) keeps a two-level map
    (section name -> key -> value) that [LoadFromBytes] fills from a text
    buffer, and reads it back through typed getters.  Go strings are byte
    sequences: they are modelled by [string], one [ascii] per byte.  Go maps
    are references that may be [nil]: reading a nil map yields the zero
    value, writing to it is a run-time panic.  Panics are modelled by [None]
    in the option monad. *)

From Stdlib Require Import ZArith Ascii String List Bool Lia.
From Stdlib Require Import Floats.SpecFloat.
From stdpp Require Import base option list gmap strings fin_maps.

Open Scope string_scope.
Open Scope Z_scope.

(** ** Go strings as byte sequences *)

Module gostr.

(** The numeric value of a byte. *)
Definition byte (c : ascii) : Z := Z.of_N (N_of_ascii c).

(** [len(s)]. *)
Definition len (s : string) : Z := Z.of_nat (String.length s).

(** [s[i]]; out of range is a run-time panic. *)
Definition at_ (s : string) (i : Z) : option ascii :=
  if (i <? 0) then None else String.get (Z.to_nat i) s.

(** [s[lo:hi]]; panics unless [0 <= lo <= hi <= len(s)]. *)
Definition slice (s : string) (lo hi : Z) : option string :=
  if (0 <=? lo) && (lo <=? hi) && (hi <=? len s)
  then Some (String.substring (Z.to_nat lo) (Z.to_nat (hi - lo)) s)
  else None.

(** A string made of [n] copies of the byte [c]. *)
Fixpoint replicate (n : nat) (c : ascii) : string :=
  match n with
  | O => ""
  | S n' => String c (replicate n' c)
  end.

(** The line feed byte and the one-byte string holding it. *)
Definition LF : ascii := ascii_of_nat 10.
Definition CR : ascii := ascii_of_nat 13.
Definition nl : string := String LF "".

End gostr.

(** ** Go maps *)

Module gomap.

(** A map value is [nil] ([None]) or an allocated table. *)
Definition t (V : Type) : Type := option (gmap string V).

Definition nil {V} : t V := None.

(** [make(map[string]V)]. *)
Definition make {V} : t V := Some ∅.

(** [v, ok := m[k]]: the comma-ok read; total, also on a nil map. *)
Definition get {V} (m : t V) (k : string) : option V :=
  match m with
  | None => None
  | Some g => g !! k
  end.

(** [m[k] = v]: panics on a nil map. *)
Definition set {V} (m : t V) (k : string) (v : V) : option (t V) :=
  match m with
  | None => None
  | Some g => Some (Some (<[k:=v]> g))
  end.

(** The keys of the map; none for a nil map. *)
Definition keys {V} (m : t V) : gset string :=
  match m with
  | None => ∅
  | Some g => dom g
  end.

End gomap.

(** ** Package [unicode/utf8] (Go standard library) *)

Module utf8.

Definition RuneError : Z := 0xFFFD.
Definition RuneSelf : Z := 0x80.
Definition UTFMax : Z := 4.

(** Continuation bytes lie in [locb .. hicb]. *)
Definition locb : Z := 0x80.
Definition hicb : Z := 0xBF.

(** The table [first] joined with [acceptRanges], for a leading byte
    [>= RuneSelf]: the length of the sequence and the range accepted for
    its second byte.  [None] is the table's [xx] (invalid leading byte). *)
Definition first (b : Z) : option (Z * (Z * Z)) :=
  if b <? 0xC2 then None
  else if b <=? 0xDF then Some (2, (locb, hicb))
  else if b =? 0xE0 then Some (3, (0xA0, hicb))
  else if b <=? 0xEC then Some (3, (locb, hicb))
  else if b =? 0xED then Some (3, (locb, 0x9F))
  else if b <=? 0xEF then Some (3, (locb, hicb))
  else if b =? 0xF0 then Some (4, (0x90, hicb))
  else if b <=? 0xF3 then Some (4, (locb, hicb))
  else if b =? 0xF4 then Some (4, (locb, 0x8F))
  else None.

(** The byte [s[i]] as a number; only used below a length check. *)
Definition byteAt (s : string) (i : nat) : Z :=
  match String.get i s with
  | Some c => gostr.byte c
  | None => 0
  end.

(** [utf8.DecodeRuneInString]: the first rune of [s] and its width. *)
Definition DecodeRuneInString (s : string) : Z * Z :=
  let n := gostr.len s in
  if n <? 1 then (RuneError, 0)
  else
    let s0 := byteAt s 0 in
    if s0 <? RuneSelf then (s0, 1)
    else
      match first s0 with
      | None => (RuneError, 1)
      | Some (sz, (lo, hi)) =>
          if n <? sz then (RuneError, 1)
          else
            let s1 := byteAt s 1 in
            if (s1 <? lo) || (hi <? s1) then (RuneError, 1)
            else if sz <=? 2
            then (Z.lor (Z.shiftl (Z.land s0 0x1F) 6) (Z.land s1 0x3F), 2)
            else
              let s2 := byteAt s 2 in
              if (s2 <? locb) || (hicb <? s2) then (RuneError, 1)
              else if sz <=? 3
              then (Z.lor (Z.lor (Z.shiftl (Z.land s0 0x0F) 12)
                                 (Z.shiftl (Z.land s1 0x3F) 6))
                          (Z.land s2 0x3F), 3)
              else
                let s3 := byteAt s 3 in
                if (s3 <? locb) || (hicb <? s3) then (RuneError, 1)
                else (Z.lor (Z.lor (Z.lor (Z.shiftl (Z.land s0 0x07) 18)
                                          (Z.shiftl (Z.land s1 0x3F) 12))
                                   (Z.shiftl (Z.land s2 0x3F) 6))
                            (Z.land s3 0x3F), 4)
      end.

(** [utf8.RuneStart]: the byte is not a continuation byte. *)
Definition RuneStart (b : Z) : bool := negb (Z.land b 0xC0 =? 0x80).

(** The backwards search of [DecodeLastRuneInString] for the start of the
    last rune: [for start--; start >= lim; start-- { if RuneStart(..) break }],
    entered with [start] already decremented. *)
Fixpoint backtrack (fuel : nat) (s : string) (start lim : Z) : Z :=
  match fuel with
  | O => start
  | S fuel' =>
      if start <? lim then start
      else if RuneStart (byteAt s (Z.to_nat start)) then start
      else backtrack fuel' s (start - 1) lim
  end.

(** [utf8.DecodeLastRuneInString]: the last rune of [s] and its width. *)
Definition DecodeLastRuneInString (s : string) : Z * Z :=
  let end_ := gostr.len s in
  if end_ =? 0 then (RuneError, 0)
  else
    let start := end_ - 1 in
    let r := byteAt s (Z.to_nat start) in
    if r <? RuneSelf then (r, 1)
    else
      let lim := Z.max 0 (end_ - UTFMax) in
      let start := backtrack 4 s (start - 1) lim in
      let start := Z.max 0 start in
      let '(r, size) :=
        DecodeRuneInString
          (String.substring (Z.to_nat start) (Z.to_nat (end_ - start)) s) in
      if negb (start + size =? end_) then (RuneError, 1) else (r, size).

(** The widths of the runes of [s] in order, as [for range s] meets them;
    an invalid byte is a rune of width 1. *)
Fixpoint widths (fuel : nat) (s : string) : list Z :=
  match fuel with
  | O => []
  | S fuel' =>
      if String.eqb s "" then []
      else
        let '(_, size) := DecodeRuneInString s in
        size :: widths fuel' (String.substring (Z.to_nat size)
                                (String.length s - Z.to_nat size) s)
  end.

(** [utf8.RuneCountInString]. *)
Definition RuneCountInString (s : string) : Z :=
  Z.of_nat (length (widths (String.length s) s)).

End utf8.

(** ** Package [unicode] (Go standard library) *)

Module unicode.

(** [unicode.IsSpace]: the Latin-1 cases of the source, then the
    [White_Space] range table. *)
Definition IsSpace (r : Z) : bool :=
  if (0 <=? r) && (r <=? 0xFF)
  then (r =? 9) || (r =? 10) || (r =? 11) || (r =? 12) || (r =? 13)
       || (r =? 0x20) || (r =? 0x85) || (r =? 0xA0)
  else (r =? 0x1680) || ((0x2000 <=? r) && (r <=? 0x200A))
       || (r =? 0x2028) || (r =? 0x2029) || (r =? 0x202F)
       || (r =? 0x205F) || (r =? 0x3000).

End unicode.

(** ** Package [strings] (Go standard library) *)

Module gostrings.

Import gostr.

(** The table [asciiSpace]. *)
Definition asciiSpace (c : ascii) : bool :=
  let b := byte c in
  (b =? 9) || (b =? 10) || (b =? 11) || (b =? 12) || (b =? 13) || (b =? 32).

(** [indexFunc(s, f, truth)], as an offset from the start of [s]: the
    [for i, r := range s] loop, [off] being the bytes already passed. *)
Fixpoint indexFunc_go (fuel : nat) (s : string) (f : Z -> bool)
         (truth : bool) (off : Z) : Z :=
  match fuel with
  | O => -1
  | S fuel' =>
      if String.eqb s "" then -1
      else
        let '(r, size) := utf8.DecodeRuneInString s in
        if Bool.eqb (f r) truth then off
        else indexFunc_go fuel'
               (String.substring (Z.to_nat size)
                  (String.length s - Z.to_nat size) s)
               f truth (off + size)
  end.

Definition indexFunc (s : string) (f : Z -> bool) (truth : bool) : Z :=
  indexFunc_go (String.length s) s f truth 0.

(** [lastIndexFunc(s, f, truth)]:
    [for i := len(s); i > 0; { r, size := DecodeLastRuneInString(s[0:i]); ... }]. *)
Fixpoint lastIndexFunc_go (fuel : nat) (s : string) (f : Z -> bool)
         (truth : bool) (i : Z) : Z :=
  match fuel with
  | O => -1
  | S fuel' =>
      if i >? 0 then
        let '(r, size) :=
          utf8.DecodeLastRuneInString (String.substring 0 (Z.to_nat i) s) in
        let i := i - size in
        if Bool.eqb (f r) truth then i
        else lastIndexFunc_go fuel' s f truth i
      else -1
  end.

Definition lastIndexFunc (s : string) (f : Z -> bool) (truth : bool) : Z :=
  lastIndexFunc_go (S (String.length s)) s f truth (len s).

(** [strings.TrimLeftFunc]. *)
Definition TrimLeftFunc (s : string) (f : Z -> bool) : string :=
  let i := indexFunc s f false in
  if i =? -1 then ""
  else String.substring (Z.to_nat i) (String.length s - Z.to_nat i) s.

(** [strings.TrimRightFunc]. *)
Definition TrimRightFunc (s : string) (f : Z -> bool) : string :=
  let i := lastIndexFunc s f false in
  let i :=
    if (i >=? 0) && (utf8.byteAt s (Z.to_nat i) >=? utf8.RuneSelf)
    then
      let '(_, wid) :=
        utf8.DecodeRuneInString
          (String.substring (Z.to_nat i) (String.length s - Z.to_nat i) s) in
      i + wid
    else i + 1 in
  String.substring 0 (Z.to_nat i) s.

(** [strings.TrimFunc]. *)
Definition TrimFunc (s : string) (f : Z -> bool) : string :=
  TrimRightFunc (TrimLeftFunc s f) f.

(** The second loop of [TrimSpace], over [t = s[start:]]:
    [for ; stop > start; stop-- { ... }]. *)
Fixpoint TrimSpace_stop (t : string) (stop : nat) : string :=
  match stop with
  | O => ""
  | S stop' =>
      match String.get stop' t with
      | None => ""
      | Some c =>
          if byte c >=? utf8.RuneSelf
          then TrimRightFunc (String.substring 0 stop t) unicode.IsSpace
          else if asciiSpace c then TrimSpace_stop t stop'
          else String.substring 0 stop t
      end
  end.

(** [strings.TrimSpace]: the ASCII fast path from the left, which falls
    back on [TrimFunc] at the first non-ASCII byte, then the loop from the
    right. *)
Fixpoint TrimSpace (s : string) : string :=
  match s with
  | "" => ""
  | String c s' =>
      if byte c >=? utf8.RuneSelf then TrimFunc s unicode.IsSpace
      else if asciiSpace c then TrimSpace s'
      else TrimSpace_stop s (String.length s)
  end.

(** [strings.HasPrefix]. *)
Definition HasPrefix (s prefix : string) : bool := String.prefix prefix s.

(** [strings.Index]: the offset of the first occurrence of [substr] in
    [s]; [None] stands for -1. *)
Fixpoint Index (s substr : string) : option Z :=
  if HasPrefix s substr then Some 0
  else
    match s with
    | "" => None
    | String _ s' => Z.succ <$> Index s' substr
    end.

(** [bytealg.CountString]: the occurrences of one byte. *)
Fixpoint CountString (s : string) (c : ascii) : Z :=
  match s with
  | "" => 0
  | String d s' => (if Ascii.eqb d c then 1 else 0) + CountString s' c
  end.

(** The general loop of [strings.Count] for a separator of two bytes or
    more: non-overlapping occurrences, leftmost first. *)
Fixpoint Count_go (fuel : nat) (s substr : string) : Z :=
  match fuel with
  | O => 0
  | S fuel' =>
      match Index s substr with
      | None => 0
      | Some i =>
          let k := Z.to_nat (i + len substr) in
          1 + Count_go fuel' (String.substring k (String.length s - k) s) substr
      end
  end.

(** [strings.Count]. *)
Definition Count (s substr : string) : Z :=
  match substr with
  | "" => utf8.RuneCountInString s + 1
  | String c "" => CountString s c
  | _ => Count_go (String.length s) s substr
  end.

(** [explode(s, n)] for [n = l] runes: one element per rune, the last
    element taking what is left. *)
Fixpoint explode_go (n : nat) (s : string) : list string :=
  match n with
  | O => []
  | S O => [s]
  | S n' =>
      let '(_, size) := utf8.DecodeRuneInString s in
      String.substring 0 (Z.to_nat size) s
        :: explode_go n' (String.substring (Z.to_nat size)
                            (String.length s - Z.to_nat size) s)
  end.

Definition explode (s : string) : list string :=
  explode_go (Z.to_nat (utf8.RuneCountInString s)) s.

(** The loop of [genSplit], run at most [n - 1] times:
    [for i < n { m := Index(s, sep); if m < 0 { break }; a[i] = s[:m];
    s = s[m+len(sep):]; i++ }; a[i] = s]. *)
Fixpoint genSplit_go (n : nat) (s sep : string) : list string :=
  match n with
  | O => [s]
  | S n' =>
      match Index s sep with
      | None => [s]
      | Some m =>
          let k := Z.to_nat (m + len sep) in
          String.substring 0 (Z.to_nat m) s
            :: genSplit_go n' (String.substring k (String.length s - k) s) sep
      end
  end.

(** [strings.Split(s, sep)], that is [genSplit(s, sep, 0, -1)]:
    [if sep == "" { return explode(s, n) }],
    [if n < 0 { n = Count(s, sep) + 1 }],
    [if n > len(s)+1 { n = len(s) + 1 }], then the loop. *)
Definition Split (s sep : string) : list string :=
  if String.eqb sep "" then explode s
  else
    let n := Count s sep + 1 in
    let n := if n >? len s + 1 then len s + 1 else n in
    genSplit_go (Z.to_nat (n - 1)) s sep.

End gostrings.

(** ** Package [bufio] (Go standard library): the line scanner *)

Module bufio.

Import gostr.

(** [bufio.MaxScanTokenSize]: the largest buffer a [Scanner] made by
    [NewScanner] allocates. *)
Definition MaxScanTokenSize : Z := 64 * 1024.

(** [bytes.IndexByte]. *)
Fixpoint IndexByte (data : string) (c : ascii) : option Z :=
  match data with
  | "" => None
  | String d data' =>
      if Ascii.eqb d c then Some 0 else Z.succ <$> IndexByte data' c
  end.

(** [dropCR]: drops one terminal carriage return. *)
Definition dropCR (data : string) : string :=
  let n := String.length data in
  match n with
  | O => data
  | S n' =>
      match String.get n' data with
      | Some c => if Ascii.eqb c CR then String.substring 0 n' data else data
      | None => data
      end
  end.

(** [bufio.ScanLines]: the split function; returns [advance] and the token
    ([None] is the nil token, a request for more data). *)
Definition ScanLines (data : string) (atEOF : bool) : Z * option string :=
  if atEOF && (len data =? 0) then (0, None)
  else
    match IndexByte data LF with
    | Some i => (i + 1, Some (dropCR (String.substring 0 (Z.to_nat i) data)))
    | None => if atEOF then (len data, Some (dropCR data)) else (0, None)
    end.

(** A scanner over an in-memory reader: the input not yet consumed. *)
Record Scanner := NewScanner { unread : string }.

(** [Scanner.Scan] with the split function [ScanLines].  The scanner
    fills its buffer until the split function finds a token; the buffer
    never holds more than [MaxScanTokenSize] bytes, and the end of the
    input is only seen when the buffer is not full.  A full buffer without
    a token is the error [ErrTooLong]: [Scan] returns false ([None]), as
    it does at the end of the input. *)
Definition Scan (s : Scanner) : option (string * Scanner) :=
  let data := unread s in
  let atEOF := len data <? MaxScanTokenSize in
  let window := String.substring 0 (Z.to_nat MaxScanTokenSize) data in
  match ScanLines window atEOF with
  | (advance, Some token) =>
      let a := Z.to_nat advance in
      Some (token, NewScanner (String.substring a (String.length data - a) data))
  | (_, None) => None
  end.

(** The tokens of successive calls of [Scan], until it returns false. *)
Fixpoint tokens_go (fuel : nat) (s : Scanner) : list string :=
  match fuel with
  | O => []
  | S fuel' =>
      match Scan s with
      | None => []
      | Some (token, s') => token :: tokens_go fuel' s'
      end
  end.

Definition tokens (buffer : string) : list string :=
  tokens_go (S (String.length buffer)) (NewScanner buffer).

End bufio.

(** ** Package [strconv] (Go standard library): integers and booleans *)

Module strconv.

Import gostr.

Inductive NumError := ErrSyntax | ErrRange | ErrBase | ErrBitSize.

(** [lower(c)]: [c | ('x' - 'X')]. *)
Definition lower (c : Z) : Z := Z.lor c 0x20.

Definition maxUint64 : Z := 2 ^ 64 - 1.

(** The platform's [int] size; the package is modelled on a 64-bit
    platform. *)
Definition IntSize : Z := 64.

Definition isDigit (c : Z) : bool := (48 <=? c) && (c <=? 57).

(** [underscoreOK]: the state [saw] is one of the bytes of the source,
    ['^'], ['0'], ['_'] and ['!']. *)
Inductive Saw := SawStart | SawDigit | SawUnderscore | SawOther.

Fixpoint underscoreOK_go (s : string) (hex : bool) (saw : Saw) : bool :=
  match s with
  | "" => match saw with SawUnderscore => false | _ => true end
  | String ch s' =>
      let c := byte ch in
      if isDigit c || (hex && (97 <=? lower c) && (lower c <=? 102))
      then underscoreOK_go s' hex SawDigit
      else if c =? 95 then
        match saw with
        | SawDigit => underscoreOK_go s' hex SawUnderscore
        | _ => false
        end
      else
        match saw with
        | SawUnderscore => false
        | _ => underscoreOK_go s' hex SawOther
        end
  end.

Definition underscoreOK (s : string) : bool :=
  let s :=
    match s with
    | String c s' => if (byte c =? 45) || (byte c =? 43) then s' else s
    | "" => s
    end in
  match s with
  | String c0 (String c1 s') =>
      if (byte c0 =? 48)
         && ((lower (byte c1) =? 98) || (lower (byte c1) =? 111)
             || (lower (byte c1) =? 120))
      then underscoreOK_go s' (lower (byte c1) =? 120) SawDigit
      else underscoreOK_go s false SawStart
  | _ => underscoreOK_go s false SawStart
  end.

(** The digit a byte stands for in the loop of [ParseUint]:
    [case '0' <= c && c <= '9': d = c - '0'],
    [case 'a' <= lower(c) && lower(c) <= 'z': d = lower(c) - 'a' + 10],
    [default: return 0, syntaxError]. *)
Definition digitOf (c : Z) : option Z :=
  if isDigit c then Some (c - 48)
  else if (97 <=? lower c) && (lower c <=? 122)
       then Some (lower c - 97 + 10)
       else None.

(** The digit loop of [ParseUint]; [uint64] arithmetic wraps around.
    The result is the number and whether an underscore was met, or the
    pair the source returns with its error. *)
Fixpoint ParseUint_go (s : string) (base : Z) (base0 : bool)
         (cutoff maxVal : Z) (n : Z) (underscores : bool)
  : (Z * bool) + (Z * NumError) :=
  match s with
  | "" => inl (n, underscores)
  | String ch s' =>
      let c := byte ch in
      if (c =? 95) && base0
      then ParseUint_go s' base base0 cutoff maxVal n true
      else
        match digitOf c with
        | None => inr (0, ErrSyntax)
        | Some d =>
            if d >=? base then inr (0, ErrSyntax)
            else if n >=? cutoff then inr (maxVal, ErrRange)
            else
              let n := (n * base) mod 2 ^ 64 in
              let n1 := (n + d) mod 2 ^ 64 in
              if (n1 <? n) || (n1 >? maxVal) then inr (maxVal, ErrRange)
              else ParseUint_go s' base base0 cutoff maxVal n1 underscores
        end
  end.

(** The base prefix of [ParseUint] for [base == 0]: the base and the rest
    of the string. *)
Definition basePrefix (s : string) : Z * string :=
  match s with
  | String c0 rest =>
      if byte c0 =? 48 then
        match rest with
        | String c1 rest' =>
            if (len s >=? 3) && (lower (byte c1) =? 98) then (2, rest')
            else if (len s >=? 3) && (lower (byte c1) =? 111) then (8, rest')
            else if (len s >=? 3) && (lower (byte c1) =? 120) then (16, rest')
            else (8, rest)
        | "" => (8, rest)
        end
      else (10, s)
  | "" => (10, s)
  end.

(** [strconv.ParseUint]: the value and the error, nil being [None]. *)
Definition ParseUint (s : string) (base bitSize : Z) : Z * option NumError :=
  if String.eqb s "" then (0, Some ErrSyntax)
  else
    let base0 := base =? 0 in
    let s0 := s in
    let prefixed :=
      if (2 <=? base) && (base <=? 36) then Some (base, s)
      else if base =? 0 then Some (basePrefix s)
      else None in
    match prefixed with
    | None => (0, Some ErrBase)
    | Some (base, s) =>
        if (bitSize <? 0) || (bitSize >? 64) then (0, Some ErrBitSize)
        else
          let bitSize := if bitSize =? 0 then IntSize else bitSize in
          let cutoff := maxUint64 / base + 1 in
          let maxVal := (Z.shiftl 1 bitSize) mod 2 ^ 64 - 1 in
          let maxVal := maxVal mod 2 ^ 64 in
          match ParseUint_go s base base0 cutoff maxVal 0 false with
          | inr (v, e) => (v, Some e)
          | inl (n, underscores) =>
              if underscores && negb (underscoreOK s0) then (0, Some ErrSyntax)
              else (n, None)
          end
    end.

(** [strconv.ParseInt]. *)
Definition ParseInt (s : string) (base bitSize : Z) : Z * option NumError :=
  match s with
  | "" => (0, Some ErrSyntax)
  | String c0 rest =>
      let s0 := s in
      let '(neg, s) :=
        if byte c0 =? 43 then (false, rest)
        else if byte c0 =? 45 then (true, rest)
        else (false, s) in
      let '(un, err) := ParseUint s base bitSize in
      match err with
      | Some ErrSyntax | Some ErrBase | Some ErrBitSize => (0, err)
      | _ =>
          let bitSize := if bitSize =? 0 then IntSize else bitSize in
          let cutoff := Z.shiftl 1 (bitSize - 1) in
          if negb neg && (un >=? cutoff) then (cutoff - 1, Some ErrRange)
          else if neg && (un >? cutoff) then (- cutoff, Some ErrRange)
          else (if neg then - un else un, None)
      end
  end.

(** [strconv.ParseBool]. *)
Definition ParseBool (str : string) : bool * option NumError :=
  if String.eqb str "1" || String.eqb str "t" || String.eqb str "T"
     || String.eqb str "true" || String.eqb str "TRUE" || String.eqb str "True"
  then (true, None)
  else if String.eqb str "0" || String.eqb str "f" || String.eqb str "F"
          || String.eqb str "false" || String.eqb str "FALSE"
          || String.eqb str "False"
  then (false, None)
  else (false, Some ErrSyntax).

(** *** Floating-point numbers

    [float64] and [float32] values are IEEE 754 numbers, modelled by
    [spec_float] with the precision and exponent bound of each format.  The
    syntax that [ParseFloat] accepts is modelled from [special] and
    [readFloat].  The conversion of the digits is modelled by its contract:
    the source (exact and Eisel-Lemire fast paths, decimal fallback,
    [atofHex]) returns the float nearest to the number written, ties to
    even, and [ErrRange] with an infinity when that overflows the format. *)

Definition float64 : Type := spec_float.
Definition float32 : Type := spec_float.

Definition prec64 : Z := 53.
Definition emax64 : Z := 1024.
Definition prec32 : Z := 24.
Definition emax32 : Z := 128.

(** The conversion [float32(x)] of a [float64]. *)
Definition toFloat32 (x : float64) : float32 :=
  match x with
  | S754_finite sx m e => binary_normalize prec32 emax32 (cond_Zopp sx (Zpos m)) e sx
  | _ => x
  end.

(** The conversion [float64(x)] of a [float32]; it is exact. *)
Definition toFloat64 (x : float32) : float64 :=
  match x with
  | S754_finite sx m e => binary_normalize prec64 emax64 (cond_Zopp sx (Zpos m)) e sx
  | _ => x
  end.

(** The float of a format nearest to [(-1)^neg * m * base^e], for [base] 10
    or 2. *)
Definition nearest (prec emax : Z) (neg : bool) (m : Z) (base e : Z) : spec_float :=
  match m with
  | Zpos p =>
      if base =? 2 then binary_normalize prec emax (cond_Zopp neg m) e neg
      else if 0 <=? e
      then binary_normalize prec emax (cond_Zopp neg (m * 10 ^ e)) 0 neg
      else SFdiv prec emax (S754_finite neg p 0)
             (S754_finite false (Z.to_pos (10 ^ (- e))) 0)
  | _ => S754_zero neg
  end.

(** [commonPrefixLenIgnoreCase]; [prefix] is in lower case. *)
Fixpoint commonPrefixLenIgnoreCase (s prefix : string) : Z :=
  match s, prefix with
  | String c s', String p prefix' =>
      let b := byte c in
      let b := if (65 <=? b) && (b <=? 90) then b + 32 else b in
      if b =? byte p then 1 + commonPrefixLenIgnoreCase s' prefix' else 0
  | _, _ => 0
  end.

(** [special]: the infinities and NaN, with the bytes consumed. *)
Definition special (s : string) : option (float64 * Z) :=
  match s with
  | "" => None
  | String c0 rest =>
      let b := byte c0 in
      let inf (s : string) (neg : bool) (nsign : Z) :=
        let n := commonPrefixLenIgnoreCase s "infinity" in
        let n := if (3 <? n) && (n <? 8) then 3 else n in
        if (n =? 3) || (n =? 8) then Some (S754_infinity neg, nsign + n) else None in
      if (b =? 43) || (b =? 45) then inf rest (b =? 45) 1
      else if (b =? 105) || (b =? 73) then inf s false 0
      else if (b =? 110) || (b =? 78) then
        if commonPrefixLenIgnoreCase s "nan" =? 3 then Some (S754_nan, 3) else None
      else None
  end.

(** What [readFloat] has read of the mantissa: [nd] digits after the zeros
    in front, whose number is [mant] (the source keeps its first 19 digits
    and a flag for the rest), and the position [dp] of the point. *)
Record Mantissa := mkMantissa {
  sawdot : bool; sawdigits : bool; nd : Z; dp : Z; mant : Z; underscores : bool
}.

(** The digit loop of [readFloat]; the result is the mantissa and the bytes
    not consumed. *)
Fixpoint readDigits (s : string) (base : Z) (m : Mantissa) : Mantissa * string :=
  match s with
  | "" => (m, s)
  | String ch s' =>
      let c := byte ch in
      if c =? 95
      then readDigits s' base
             (mkMantissa (sawdot m) (sawdigits m) (nd m) (dp m) (mant m) true)
      else if c =? 46 then
        if sawdot m then (m, s)
        else readDigits s' base
               (mkMantissa true (sawdigits m) (nd m) (nd m) (mant m) (underscores m))
      else if isDigit c then
        if (c =? 48) && (nd m =? 0)
        then readDigits s' base
               (mkMantissa (sawdot m) true (nd m) (dp m - 1) (mant m) (underscores m))
        else readDigits s' base
               (mkMantissa (sawdot m) true (nd m + 1) (dp m)
                  (mant m * base + (c - 48)) (underscores m))
      else if (base =? 16) && (97 <=? lower c) && (lower c <=? 102)
      then readDigits s' base
             (mkMantissa (sawdot m) true (nd m + 1) (dp m)
                (mant m * 16 + (lower c - 97 + 10)) (underscores m))
      else (m, s)
  end.

(** The digit loop of the exponent of [readFloat]:
    [if e < 10000 { e = e*10 + int(s[i]) - '0' }]. *)
Fixpoint readExponent (s : string) (e : Z) (us : bool) : Z * bool * string :=
  match s with
  | "" => (e, us, s)
  | String ch s' =>
      let c := byte ch in
      if c =? 95 then readExponent s' e true
      else if isDigit c
      then readExponent s' (if e <? 10000 then e * 10 + (c - 48) else e) us
      else (e, us, s)
  end.

(** What [readFloat] returns when [ok]: the sign, the base (16 for [hex]),
    the number [mant] and the exponent [exp] of the base 10, or of 2 when
    [hex], and the bytes consumed. *)
Record Read := mkRead { neg : bool; hex : bool; mantissa : Z; exp : Z; consumed : Z }.

(** [readFloat]; [None] is [ok == false]. *)
Definition readFloat (s : string) : option Read :=
  match s with
  | "" => None
  | String c0 rest =>
      let '(neg, s1) :=
        if byte c0 =? 43 then (false, rest)
        else if byte c0 =? 45 then (true, rest)
        else (false, s) in
      let '(hex, s2) :=
        match s1 with
        | String d0 (String d1 (String d2 ds)) =>
            if (byte d0 =? 48) && (lower (byte d1) =? 120)
            then (true, String d2 ds) else (false, s1)
        | _ => (false, s1)
        end in
      let base := if hex then 16 else 10 in
      let expChar := if hex then 112 else 101 in
      let '(m, s3) := readDigits s2 base (mkMantissa false false 0 0 0 false) in
      if negb (sawdigits m) then None
      else
        let dp := if sawdot m then dp m else nd m in
        let dp := if hex then dp * 4 else dp in
        let ndMant := if hex then nd m * 4 else nd m in
        let finish (dp : Z) (us : bool) (s4 : string) :=
          let i := len s - len s4 in
          if us && negb (underscoreOK (String.substring 0 (Z.to_nat i) s)) then None
          else Some (mkRead neg hex (mant m)
                       (if mant m =? 0 then 0 else dp - ndMant) i) in
        match s3 with
        | String e0 s4 =>
            if lower (byte e0) =? expChar then
              match s4 with
              | "" => None
              | String g0 s5 =>
                  let '(esign, s6) :=
                    if byte g0 =? 43 then (1, s5)
                    else if byte g0 =? 45 then (-1, s5)
                    else (1, s4) in
                  match s6 with
                  | "" => None
                  | String h0 _ =>
                      if negb (isDigit (byte h0)) then None
                      else
                        let '(e, us, s7) := readExponent s6 0 (underscores m) in
                        finish (dp + e * esign) us s7
                  end
              end
            else if hex then None
            else finish dp (underscores m) s3
        | "" => if hex then None else finish dp (underscores m) s3
        end
  end.

(** [atof64] and [atof32]: the value, the bytes consumed and the error. *)
Definition atof (prec emax : Z) (s : string) : spec_float * Z * option NumError :=
  match special s with
  | Some (val, n) => (val, n, None)
  | None =>
      match readFloat s with
      | None => (S754_zero false, 0, Some ErrSyntax)
      | Some r =>
          let f := nearest prec emax (neg r) (mantissa r)
                     (if hex r then 2 else 10) (exp r) in
          match f with
          | S754_infinity _ => (f, consumed r, Some ErrRange)
          | _ => (f, consumed r, None)
          end
      end
  end.

(** [parseFloatPrefix]: [bitSize == 32] selects [atof32], any other value
    [atof64]. *)
Definition parseFloatPrefix (s : string) (bitSize : Z) : float64 * Z * option NumError :=
  if bitSize =? 32 then
    let '(f, n, err) := atof prec32 emax32 s in (toFloat64 f, n, err)
  else atof prec64 emax64 s.

(** [strconv.ParseFloat]. *)
Definition ParseFloat (s : string) (bitSize : Z) : float64 * option NumError :=
  let '(f, n, err) := parseFloatPrefix s bitSize in
  if negb (n =? len s)
     && match err with Some ErrSyntax => false | _ => true end
  then (S754_zero false, Some ErrSyntax)
  else (f, err).

End strconv.

(** ** Package [goini] (file [goini.go]) *)

Module goini.

Import gostr.

(** [type KeyValue struct { Item map[string]string }] *)
Record KeyValue := mkKeyValue { Item : gomap.t string }.

(** [type Ini struct { fileName string; buffer []byte; sections map[string]KeyValue }] *)
Record Ini := mkIni {
  fileName : string;
  buffer : string;
  sections : gomap.t KeyValue
}.

(** The zero values [KeyValue{}] and [Ini{}]: nil maps, empty strings. *)
Definition zeroKeyValue : KeyValue := mkKeyValue gomap.nil.
Definition zeroIni : Ini := mkIni "" "" gomap.nil.

(** [func (i *Ini) clear()] *)
Definition clear (i : Ini) : Ini :=
  mkIni (fileName i) "" gomap.make.

(** [func NewIni() *Ini] *)
Definition NewIni : Ini := clear zeroIni.

(** [i.sections[section]]: the zero [KeyValue] when the section is
    missing. *)
Definition section_of (i : Ini) (section : string) : KeyValue :=
  default zeroKeyValue (gomap.get (sections i) section).

(** [i.sections[currentSection].Item[key] = value].  The element read from
    [sections] is a copy of the struct, whose field [Item] refers to the
    section's own table, made by one [make] and shared with nothing else:
    the assignment updates that table, seen from [sections] afterwards.
    A missing section gives a nil [Item], and the assignment panics. *)
Definition setItem (i : Ini) (currentSection key value : string) : option Ini :=
  item ← gomap.set (Item (section_of i currentSection)) key value;
  secs ← gomap.set (sections i) currentSection (mkKeyValue item);
  Some (mkIni (fileName i) (buffer i) secs).

(** The body of the loop of [parseLines] for one token of the scanner; the
    state is the instance and the local [currentSection].  [continue] is
    the unchanged state. *)
Definition parseLine (st : Ini * string) (text : string) : option (Ini * string) :=
  let '(i, currentSection) := st in
  let continue := Some (i, currentSection) in
  let line := gostrings.TrimSpace text in
  if String.eqb line "" then continue
  else
    c0 ← at_ line 0;
    if Ascii.eqb c0 "#" || Ascii.eqb c0 ";" then continue
    else if Ascii.eqb c0 "[" then
      cl ← at_ line (len line - 1);
      if negb (Ascii.eqb cl "]") then continue
      else
        currentSection ← slice line 1 (len line - 1);
        match gomap.get (sections i) currentSection with
        | Some _ => Some (i, currentSection)
        | None =>
            secs ← gomap.set (sections i) currentSection
                     (mkKeyValue gomap.make);
            Some (mkIni (fileName i) (buffer i) secs, currentSection)
        end
    else
      let pairs := gostrings.Split line "=" in
      if negb (Z.of_nat (length pairs) =? 2) then continue
      else
        p0 ← pairs !! 0%nat;
        p1 ← pairs !! 1%nat;
        let key := gostrings.TrimSpace p0 in
        let value := gostrings.TrimSpace p1 in
        i ← setItem i currentSection key value;
        Some (i, currentSection).

(** [for scanner.Scan() { ... }].  Every token consumes at least one byte
    of the input, so [fuel] above the length of the buffer is never used
    up; [None] is a panic of the body or the fuel used up. *)
Fixpoint scanLoop (fuel : nat) (scanner : bufio.Scanner) (st : Ini * string)
  : option (Ini * string) :=
  match fuel with
  | O => None
  | S fuel' =>
      match bufio.Scan scanner with
      | None => Some st
      | Some (text, scanner') =>
          st' ← parseLine st text;
          scanLoop fuel' scanner' st'
      end
  end.

(** [func (i *Ini) parseLines()] *)
Definition parseLines (i : Ini) : option Ini :=
  let scanner := bufio.NewScanner (buffer i) in
  let currentSection := "" in
  secs ← gomap.set (sections i) currentSection (mkKeyValue gomap.make);
  let i := mkIni (fileName i) (buffer i) secs in
  fst <$> scanLoop (S (String.length (buffer i))) scanner (i, currentSection).

(** [func (i *Ini) LoadFromBytes(buffer []byte)] *)
Definition LoadFromBytes (i : Ini) (buffer : string) : option Ini :=
  let i := clear i in
  let i := mkIni (fileName i) buffer (sections i) in
  parseLines i.

(** [func (i *Ini) LoadFromFile(path string) error].  [os.ReadFile] is the
    environment: it gives the bytes read and the error, nil being [None].
    The result is the instance afterwards and the error returned. *)
Definition LoadFromFile {error : Type}
           (ReadFile : string -> string * option error)
           (i : Ini) (path : string) : option (Ini * option error) :=
  let '(buffer, err) := ReadFile path in
  match err with
  | Some e => Some (i, Some e)
  | None =>
      i ← LoadFromBytes i buffer;
      Some (i, None)
  end.

(** [func (i *Ini) KeyExists(section string, key string) bool] *)
Definition KeyExists (i : Ini) (section key : string) : bool :=
  match gomap.get (Item (section_of i section)) key with
  | Some _ => true
  | None => false
  end.

(** [func (i *Ini) SectionExists(section string) bool] *)
Definition SectionExists (i : Ini) (section : string) : bool :=
  match gomap.get (sections i) section with
  | Some _ => true
  | None => false
  end.

(** One enumeration of the section names. *)
Definition sectionNames (i : Ini) : list string :=
  elements (gomap.keys (sections i)).

(** [func (i *Ini) GetSectionValues() []string].  [for sec := range
    i.sections] meets every key once, in an order Go leaves unspecified:
    [result] is any arrangement of the section names. *)
Definition GetSectionValues (i : Ini) (result : list string) : Prop :=
  result ≡ₚ sectionNames i.

(** [func (i *Ini) getString(section string, key string) string] *)
Definition getString (i : Ini) (section key : string) : string :=
  default "" (gomap.get (Item (section_of i section)) key).

(** [func (i *Ini) GetInt(section string, key string, def int) int] *)
Definition GetInt (i : Ini) (section key : string) (def : Z) : Z :=
  let strValue := getString i section key in
  let '(result, err) := strconv.ParseInt strValue 0 32 in
  match err with
  | Some _ => def
  | None => result
  end.

(** [func (i *Ini) GetUint(section string, key string, def uint) uint] *)
Definition GetUint (i : Ini) (section key : string) (def : Z) : Z :=
  let strValue := getString i section key in
  let '(result, err) := strconv.ParseUint strValue 0 32 in
  match err with
  | Some _ => def
  | None => result
  end.

(** [func (i *Ini) GetFloat(section string, key string, def float32) float32];
    the call in the source is [strconv.ParseFloat(strValue, 10)]. *)
Definition GetFloat (i : Ini) (section key : string) (def : strconv.float32)
  : strconv.float32 :=
  let strValue := getString i section key in
  let '(result, err) := strconv.ParseFloat strValue 10 in
  match err with
  | Some _ => def
  | None => strconv.toFloat32 result
  end.

(** [func (i *Ini) GetBool(section string, key string, def bool) bool] *)
Definition GetBool (i : Ini) (section key : string) (def : bool) : bool :=
  let strValue := getString i section key in
  let '(result, err) := strconv.ParseBool strValue in
  match err with
  | Some _ => def
  | None => result
  end.

(** [func (i *Ini) GetString(section string, key string, def string) string] *)
Definition GetString (i : Ini) (section key def : string) : string :=
  let result := getString i section key in
  if String.eqb result "" then def else result.

(** The loop of [GetStringSlice]:
    [for i := 0; i < len(result); i++ { if result[i] == "" { result[i] = def } }],
    [n] being the iterations left. *)
Fixpoint fillDefaults (n : nat) (i : nat) (result : list string) (def : string)
  : list string :=
  match n with
  | O => result
  | S n' =>
      match result !! i with
      | Some e =>
          if String.eqb e "" then fillDefaults n' (S i) (<[i:=def]> result) def
          else fillDefaults n' (S i) result def
      | None => result
      end
  end.

(** [func (i *Ini) GetStringSlice(section string, key string, def string, sep string) []string] *)
Definition GetStringSlice (i : Ini) (section key def sep : string) : list string :=
  let result := gostrings.Split (getString i section key) sep in
  if String.eqb sep "" || (Z.of_nat (length result) =? 0) then result
  else fillDefaults (length result) 0 result def.

End goini.

(** ** The test data of [main_test.go] *)

Definition content : string := "
# This is a common comment
; This is a not so common comment

info text=This is a key/value inside [] empty section

[gui settings]
width = 1920
height=720
scale factor=1.33
scale factor2=THIS IS NOT A FLOAT VALUE
valid themes=dark,light,awaita,classic,aqua

[theme]
# You can use 0/1, true/false
use system theme=0
accent color= 0xff00ff
".

(** An input that names the section [s] twice and assigns [a] in it twice. *)
Definition reopened : string := "[s]
a=1
b=2
[t]
[s]
a=3".

(** ** Integer literals, as the specification words them

    A sign, then [0x] and hexadecimal digits, or [0] and octal digits, or
    decimal digits that do not start with [0].  These definitions follow the
    specification, not the source; [strconv.ParseInt] is compared with
    them. *)

Module literal.

(** The value of a digit or letter. *)
Definition digitVal (c : ascii) : option Z :=
  let b := gostr.byte c in
  if (48 <=? b) && (b <=? 57) then Some (b - 48)
  else if (97 <=? b) && (b <=? 122) then Some (b - 97 + 10)
  else if (65 <=? b) && (b <=? 90) then Some (b - 65 + 10)
  else None.

(** The number that the digits [ds] continue from [n], in [base]. *)
Fixpoint digits (base : Z) (ds : string) (n : Z) : option Z :=
  match ds with
  | "" => Some n
  | String c ds' =>
      match digitVal c with
      | Some d => if d <? base then digits base ds' (n * base + d) else None
      | None => None
      end
  end.

(** An unsigned literal. *)
Definition unsigned (s : string) : option Z :=
  match s with
  | "" => None
  | String c0 rest =>
      if Ascii.eqb c0 "0" then
        match rest with
        | String c1 (String c2 ds) =>
            if Ascii.eqb c1 "x" || Ascii.eqb c1 "X"
            then digits 16 (String c2 ds) 0
            else digits 8 rest 0
        | _ => digits 8 rest 0
        end
      else digits 10 s 0
  end.

(** A signed literal. *)
Definition signed (s : string) : option Z :=
  match s with
  | "" => None
  | String c0 rest =>
      if Ascii.eqb c0 "+" then unsigned rest
      else if Ascii.eqb c0 "-" then Z.opp <$> unsigned rest
      else unsigned s
  end.

End literal.

(** The largest [uint32], and the bounds of [int32]. *)
Definition maxUint32 : Z := 2 ^ 32 - 1.
Definition minInt32 : Z := - 2 ^ 31.
Definition maxInt32 : Z := 2 ^ 31 - 1.

(** The [float32] 2.5, the default of the tests. *)
Definition float32_2_5 : strconv.float32 := S754_finite false 10485760 (-22).

(** The instance after a load of the one line [x=1e39]. *)
Definition overflowing : goini.Ini :=
  default goini.zeroIni (goini.LoadFromBytes goini.NewIni "x=1e39").

(** The instance after a load of a line whose value is just above the
    middle of 1 and the next [float32]. *)
Definition halfway : goini.Ini :=
  default goini.zeroIni
    (goini.LoadFromBytes goini.NewIni "y=1.00000005960464477539063").

(** A file system without any file: every read fails with the same error. *)
Definition ENOENT : string := "open: no such file or directory".
Definition noFiles (path : string) : string * option string := ("", Some ENOENT).

Definition loaded : goini.Ini :=
  default goini.zeroIni (goini.LoadFromBytes goini.NewIni content).

(** ** The loop of [parseLines], line by line

    What the body of the loop does with a token depends on the token alone:
    it is skipped, it opens a section, or it assigns a key.  [classify]
    names the three outcomes with the tests of the source, and [step] is
    their effect on the store, a table per section. *)

Module lines.

Inductive Kind :=
| Ignored
| Header (name : string)
| Assignment (key value : string).

(** [line[len(line)-1]]. *)
Definition lastByte (line : string) : option ascii :=
  String.get (String.length line - 1) line.

Definition classify (text : string) : Kind :=
  let line := gostrings.TrimSpace text in
  match line with
  | "" => Ignored
  | String c0 _ =>
      if Ascii.eqb c0 "#" || Ascii.eqb c0 ";" then Ignored
      else if Ascii.eqb c0 "[" then
        match lastByte line with
        | Some cl =>
            if Ascii.eqb cl "]"
            then Header (String.substring 1 (String.length line - 2) line)
            else Ignored
        | None => Ignored
        end
      else
        match gostrings.Split line "=" with
        | [p0; p1] => Assignment (gostrings.TrimSpace p0) (gostrings.TrimSpace p1)
        | _ => Ignored
        end
  end.

(** The section that is current after the tokens [toks], from [cur]. *)
Fixpoint sectionAfter (cur : string) (toks : list string) : string :=
  match toks with
  | [] => cur
  | t :: toks' =>
      sectionAfter (match classify t with Header n => n | _ => cur end) toks'
  end.

(** Whether one of the tokens [toks], read from the current section
    [cur], assigns [key] in [section]. *)
Fixpoint assigns (cur : string) (toks : list string) (section key : string) : bool :=
  match toks with
  | [] => false
  | t :: toks' =>
      match classify t with
      | Ignored => assigns cur toks' section key
      | Header n => assigns n toks' section key
      | Assignment k _ =>
          (String.eqb cur section && String.eqb k key)
          || assigns cur toks' section key
      end
  end.

(** The loop of [parseLines] over the tokens of the scanner, in order. *)
Fixpoint parseTokens (st : goini.Ini * string) (toks : list string)
  : option (goini.Ini * string) :=
  match toks with
  | [] => Some st
  | t :: toks' =>
      st' ← goini.parseLine st t;
      parseTokens st' toks'
  end.

(** The state in which [LoadFromBytes i buffer] enters the loop of
    [parseLines]: the store holds the empty section only, which is current. *)
Definition entryState (i : goini.Ini) (buffer : string) : goini.Ini * string :=
  (goini.mkIni (goini.fileName i) buffer
     (Some {[ "" := goini.mkKeyValue gomap.make ]}), "").

(** The store: section name -> key -> value. *)
Abbreviation Store := (gmap string (gmap string string)).

(** The entry of [key] in [section], if both exist. *)
Definition entry (m : Store) (section key : string) : option string :=
  tbl ← m !! section; tbl !! key.

(** The effect of one token on the store and the current section. *)
Definition step (st : Store * string) (text : string) : Store * string :=
  let '(m, cur) := st in
  match classify text with
  | Ignored => (m, cur)
  | Header n =>
      match m !! n with
      | Some _ => (m, n)
      | None => (<[n:=∅]> m, n)
      end
  | Assignment k v => (<[cur:=<[k:=v]> (default ∅ (m !! cur))]> m, cur)
  end.

Definition run (st : Store * string) (toks : list string) : Store * string :=
  fold_left step toks st.

(** The store after a load of [buffer]. *)
Definition parse (buffer : string) : Store :=
  fst (run ({[ "" := ∅ ]}, "") (bufio.tokens buffer)).

(** The Go value of a store: every section holds an allocated table. *)
Definition toSections (m : Store) : gomap.t goini.KeyValue :=
  Some ((fun tbl => goini.mkKeyValue (Some tbl)) <$> m).

End lines.

(** ** Lines and blanks of an input text *)

Module text.

(** Whether one of the tokens [toks] is a header of [section]. *)
Fixpoint opens (toks : list string) (section : string) : bool :=
  match toks with
  | [] => false
  | t :: toks' =>
      match lines.classify t with
      | lines.Header n => String.eqb n section || opens toks' section
      | _ => opens toks' section
      end
  end.

(** The text whose lines are [ls], each one ended by a line feed. *)
Fixpoint joinLines (ls : list string) : string :=
  match ls with
  | [] => ""
  | l :: ls' => l +:+ String gostr.LF (joinLines ls')
  end.

(** A line that the scanner can deliver: no line feed in it, and shorter
    than [bufio.MaxScanTokenSize]. *)
Definition short (l : string) : Prop :=
  bufio.IndexByte l gostr.LF = None /\ gostr.len l < bufio.MaxScanTokenSize.

(** A string of ASCII white space only: bytes of the table [asciiSpace]. *)
Fixpoint blank (s : string) : bool :=
  match s with
  | "" => true
  | String c s' => gostrings.asciiSpace c && blank s'
  end.

(** An ASCII byte that is not white space. *)
Definition solid (c : ascii) : bool :=
  (gostr.byte c <? utf8.RuneSelf) && negb (gostrings.asciiSpace c).

(** A string that is not empty and whose first and last bytes are ASCII
    and not white space; the bytes between them are free. *)
Definition tight (s : string) : bool :=
  match s, lines.lastByte s with
  | String c _, Some d => solid c && solid d
  | _, _ => false
  end.

(** Whether the last byte of a line is a carriage return. *)
Definition endsWithCR (l : string) : bool :=
  match lines.lastByte l with
  | Some c => Ascii.eqb c gostr.CR
  | None => false
  end.

End text.

(** The strings that [strconv.ParseBool] reads as true, and as false. *)
Definition truthy : list string := ["1"; "t"; "T"; "true"; "TRUE"; "True"].
Definition falsy : list string := ["0"; "f"; "F"; "false"; "FALSE"; "False"].

(** Two short lines, and a line of [bufio.MaxScanTokenSize] bytes. *)
Definition twoLines : list string := ["[s]"; "k = v"].
Definition overlong : string :=
  gostr.replicate (Z.to_nat bufio.MaxScanTokenSize) "a"%char.

(** A file system that holds the test content under [test.ini] and nothing
    else. *)
Definition oneFile (path : string) : string * option string :=
  if String.eqb path "test.ini" then (content, None) else ("", Some ENOENT).

(** * Properties of the models

    ** The models on sample inputs *)

Example gomap_set_get :
  gomap.get (default gomap.nil (gomap.set gomap.make "a" "1")) "a" = Some "1".
Proof. vm_compute. reflexivity. Qed.

Example utf8_decode :
  utf8.DecodeRuneInString (String (ascii_of_nat 226) (String (ascii_of_nat 128)
                            (String (ascii_of_nat 131) "x"))) = (0x2003, 3)
  /\ utf8.DecodeLastRuneInString (String "a" (String (ascii_of_nat 194)
                            (String (ascii_of_nat 160) ""))) = (0xA0, 2)
  /\ utf8.DecodeLastRuneInString (String "a" (String (ascii_of_nat 160) ""))
     = (utf8.RuneError, 1).
Proof. vm_compute. auto. Qed.

Example strings_trim_split :
  gostrings.TrimSpace "  a b  " = "a b"
  /\ gostrings.TrimSpace ("x" +:+ String (ascii_of_nat 194) (String (ascii_of_nat 160) " ")) = "x"
  /\ gostrings.TrimSpace (String (ascii_of_nat 226) (String (ascii_of_nat 128)
                            (String (ascii_of_nat 131) " x "))) = "x"
  /\ gostrings.TrimSpace (String (ascii_of_nat 160) " x") = String (ascii_of_nat 160) " x"
  /\ gostrings.Split "a,b,,c" "," = ["a"; "b"; ""; "c"]
  /\ gostrings.Split "a==b=" "==" = ["a"; "b="]
  /\ gostrings.Split "" "," = [""]
  /\ gostrings.Split "" "" = []
  /\ gostrings.Split "abc" "" = ["a"; "b"; "c"]
  /\ gostrings.Count "aaaa" "aa" = 2.
Proof. vm_compute. repeat split. Qed.

Example strconv_integers :
  strconv.ParseInt "0xff00ff" 0 32 = (16711935, None)
  /\ strconv.ParseInt "-0x80000000" 0 32 = (-2147483648, None)
  /\ strconv.ParseInt "2147483648" 0 32 = (2147483647, Some strconv.ErrRange)
  /\ strconv.ParseInt "017" 0 32 = (15, None)
  /\ strconv.ParseInt "0" 0 32 = (0, None)
  /\ strconv.ParseInt "1_000" 0 32 = (1000, None)
  /\ strconv.ParseInt "1__000" 0 32 = (0, Some strconv.ErrSyntax)
  /\ strconv.ParseInt "0x" 0 32 = (0, Some strconv.ErrSyntax)
  /\ strconv.ParseInt "0_7" 0 32 = (7, None)
  /\ strconv.ParseInt "" 0 32 = (0, Some strconv.ErrSyntax)
  /\ strconv.ParseUint "4294967295" 0 32 = (4294967295, None)
  /\ strconv.ParseUint "4294967296" 0 32 = (4294967295, Some strconv.ErrRange)
  /\ strconv.ParseUint "-1" 0 32 = (0, Some strconv.ErrSyntax)
  /\ bufio.tokens ("a" +:+ gostr.nl +:+ String gostr.CR gostr.nl +:+ "b" +:+ String gostr.CR "")
     = ["a"; ""; "b"].
Proof. vm_compute. repeat split. Qed.

Example TestFromByte :
  goini.GetString loaded "" "info text" "default value"
    = "This is a key/value inside [] empty section"
  /\ goini.GetBool loaded "theme" "use system theme" true = false
  /\ goini.GetInt loaded "theme" "accent color" 1000 = 16711935
  /\ goini.GetStringSlice loaded "gui settings" "valid themes" "NULL" ","
     = ["dark"; "light"; "awaita"; "classic"; "aqua"]
  /\ length (goini.sectionNames loaded) = 3%nat
  /\ goini.GetInt loaded "gui settings" "width" 0 = 1920.
Proof. vm_compute. repeat split. Qed.

(** ** Bytes and slices of a non-empty line *)

Lemma get_length_last (s : string) (c : ascii) :
  exists d, String.get (String.length s) (String c s) = Some d.
Proof.
  revert c. induction s as [|a s IH]; intros c.
  - exists c. reflexivity.
  - destruct (IH a) as [d Hd]. exists d. exact Hd.
Qed.

Lemma len_String (c : ascii) (s : string) :
  gostr.len (String c s) = gostr.len s + 1.
Proof. unfold gostr.len. simpl String.length. lia. Qed.

Lemma len_nonneg (s : string) : 0 <= gostr.len s.
Proof. unfold gostr.len. lia. Qed.

Lemma at_first (c : ascii) (s : string) : gostr.at_ (String c s) 0 = Some c.
Proof. reflexivity. Qed.

Lemma at_last (c : ascii) (s : string) :
  gostr.at_ (String c s) (gostr.len (String c s) - 1)
  = lines.lastByte (String c s).
Proof.
  unfold gostr.at_, lines.lastByte. rewrite len_String.
  replace (gostr.len s + 1 - 1) with (gostr.len s) by lia.
  pose proof (len_nonneg s) as Hn.
  destruct (gostr.len s <? 0) eqn:E; [apply Z.ltb_lt in E; lia|].
  unfold gostr.len. rewrite Nat2Z.id. f_equal.
  simpl String.length. lia.
Qed.

Lemma lastByte_Some (c : ascii) (s : string) :
  exists d, lines.lastByte (String c s) = Some d.
Proof.
  unfold lines.lastByte.
  replace (String.length (String c s) - 1)%nat with (String.length s)
    by (simpl String.length; lia).
  apply get_length_last.
Qed.

Lemma lastByte_single (c : ascii) : lines.lastByte (String c "") = Some c.
Proof. reflexivity. Qed.

Lemma slice_inner (c a : ascii) (s : string) :
  gostr.slice (String c (String a s)) 1 (gostr.len (String c (String a s)) - 1)
  = Some (String.substring 1 (String.length (String c (String a s)) - 2)
            (String c (String a s))).
Proof.
  unfold gostr.slice. rewrite !len_String.
  pose proof (len_nonneg s) as Hn.
  replace (0 <=? 1) with true by reflexivity.
  destruct (1 <=? gostr.len s + 1 + 1 - 1) eqn:E1;
    [|apply Z.leb_gt in E1; lia].
  destruct (gostr.len s + 1 + 1 - 1 <=? gostr.len s + 1 + 1) eqn:E2;
    [|apply Z.leb_gt in E2; lia].
  cbn [andb]. f_equal. f_equal.
  unfold gostr.len. simpl String.length. lia.
Qed.

(** ** The loop body refines [lines.step] *)

Lemma section_of_toSections (i : goini.Ini) (m : lines.Store) (s : string) :
  goini.sections i = lines.toSections m ->
  goini.section_of i s
  = default goini.zeroKeyValue ((fun tbl => goini.mkKeyValue (Some tbl)) <$> m !! s).
Proof.
  intros H. unfold goini.section_of. rewrite H. unfold lines.toSections, gomap.get.
  rewrite lookup_fmap. reflexivity.
Qed.

Lemma setItem_toSections (i : goini.Ini) (m : lines.Store) (cur k v : string) :
  goini.sections i = lines.toSections m ->
  is_Some (m !! cur) ->
  goini.setItem i cur k v
  = Some (goini.mkIni (goini.fileName i) (goini.buffer i)
            (lines.toSections (<[cur:=<[k:=v]> (default ∅ (m !! cur))]> m))).
Proof.
  intros H [tbl Htbl]. unfold goini.setItem.
  rewrite (section_of_toSections i m cur H), Htbl. cbn.
  rewrite H. unfold lines.toSections. cbn.
  rewrite fmap_insert. reflexivity.
Qed.

Lemma parseLine_step (i : goini.Ini) (m : lines.Store) (cur text : string) :
  goini.sections i = lines.toSections m ->
  is_Some (m !! cur) ->
  exists i',
    goini.parseLine (i, cur) text = Some (i', snd (lines.step (m, cur) text))
    /\ goini.sections i' = lines.toSections (fst (lines.step (m, cur) text))
    /\ goini.fileName i' = goini.fileName i
    /\ goini.buffer i' = goini.buffer i
    /\ is_Some (fst (lines.step (m, cur) text) !! snd (lines.step (m, cur) text)).
Proof.
  intros Hs Hcur.
  unfold goini.parseLine, lines.step, lines.classify.
  destruct (gostrings.TrimSpace text) as [|c0 rest] eqn:Hline.
  { exists i. cbn. auto. }
  replace (String.eqb (String c0 rest) "") with false by reflexivity.
  rewrite at_first. cbn [mbind option_bind].
  destruct (Ascii.eqb c0 "#" || Ascii.eqb c0 ";") eqn:Hcomment.
  { exists i. cbn. auto. }
  destruct (Ascii.eqb c0 "[") eqn:Hbracket.
  - rewrite at_last.
    destruct (lastByte_Some c0 rest) as [cl Hlast]. rewrite Hlast.
    cbn [mbind option_bind].
    destruct (Ascii.eqb cl "]") eqn:Hclose; cbn [negb];
      [|exists i; cbn; auto].
    destruct rest as [|a rest].
    { rewrite lastByte_single in Hlast. injection Hlast as Heq. subst cl.
      apply Ascii.eqb_eq in Hbracket. apply Ascii.eqb_eq in Hclose.
      congruence. }
    rewrite slice_inner. cbn [mbind option_bind].
    generalize (String.substring 1 (String.length (String c0 (String a rest)) - 2)
                  (String c0 (String a rest))).
    intros name.
    rewrite Hs. unfold lines.toSections at 1. unfold gomap.get.
    rewrite lookup_fmap.
    destruct (m !! name) as [tbl|] eqn:Hname; cbn [fmap option_fmap option_map].
    + exists i. cbn. auto.
    + unfold lines.toSections, gomap.set. cbn [mbind option_bind].
      eexists. split; [reflexivity|]. cbn.
      rewrite fmap_insert, lookup_insert_eq. auto.
  - destruct (gostrings.Split (String c0 rest) "=") as [|p0 [|p1 [|p2 ps]]] eqn:Hsplit;
      try (exists i; cbn; auto; fail).
    + cbn [length]. replace (Z.of_nat 2 =? 2) with true by reflexivity.
      cbn [negb lookup list_lookup mbind option_bind].
      rewrite (setItem_toSections i m cur _ _ Hs Hcur).
      cbn [mbind option_bind]. eexists. split; [reflexivity|]. cbn.
      rewrite lookup_insert_eq. auto.
    + exists i.
      replace (negb (Z.of_nat (length (p0 :: p1 :: p2 :: ps)) =? 2)) with true.
      * cbn. auto.
      * symmetry. apply negb_true_iff. apply Z.eqb_neq. cbn [length]. lia.
Qed.

(** ** Substrings *)

Lemma length_substring (n m : nat) (s : string) :
  String.length (String.substring n m s) = Nat.min m (String.length s - n).
Proof.
  revert n m. induction s as [|c s IH]; intros [|n] [|m]; simpl; auto;
    rewrite IH; f_equal; lia.
Qed.

Lemma substring_0_ge (m : nat) (s : string) :
  (String.length s <= m)%nat -> String.substring 0 m s = s.
Proof.
  revert m. induction s as [|c s IH]; intros [|m] H; simpl in *; auto; try lia.
  f_equal. apply IH. lia.
Qed.

Lemma substring_0_app (a b : string) :
  String.substring 0 (String.length a) (a +:+ b) = a.
Proof.
  induction a as [|c a IH]; simpl.
  - destruct b; reflexivity.
  - f_equal. exact IH.
Qed.

Lemma substring_skip_app (a b : string) :
  String.substring (String.length a) (String.length b) (a +:+ b) = b.
Proof.
  induction a as [|c a IH]; simpl.
  - apply substring_0_ge. lia.
  - exact IH.
Qed.

Lemma append_cons (c : ascii) (a b : string) :
  String c a +:+ b = String c (a +:+ b).
Proof. reflexivity. Qed.

Lemma append_nil_l (b : string) : "" +:+ b = b.
Proof. reflexivity. Qed.

Lemma append_single_assoc (a b : string) (c : ascii) :
  (a +:+ String c "") +:+ b = a +:+ String c b.
Proof.
  induction a as [|d a IH]; [reflexivity|].
  rewrite !append_cons, IH. reflexivity.
Qed.

Lemma length_app (a b : string) :
  String.length (a +:+ b) = (String.length a + String.length b)%nat.
Proof. induction a as [|c a IH]; simpl; auto. Qed.

(** ** The scanner consumes its input *)

Lemma IndexByte_bound (data : string) (c : ascii) (i : Z) :
  bufio.IndexByte data c = Some i -> 0 <= i < gostr.len data.
Proof.
  revert i. induction data as [|d data IH]; intros i; simpl.
  - discriminate.
  - rewrite len_String. destruct (Ascii.eqb d c).
    + intros [= <-]. pose proof (len_nonneg data). lia.
    + destruct (bufio.IndexByte data c) as [j|]; [|discriminate].
      intros [= <-]. specialize (IH j eq_refl). lia.
Qed.

Lemma Scan_shrinks (s s' : bufio.Scanner) (tok : string) :
  bufio.Scan s = Some (tok, s') ->
  (String.length (bufio.unread s') < String.length (bufio.unread s))%nat.
Proof.
  unfold bufio.Scan. destruct s as [data]. cbn [bufio.unread].
  set (window := String.substring 0 (Z.to_nat bufio.MaxScanTokenSize) data).
  assert (Hw : (String.length window <= String.length data)%nat).
  { unfold window. rewrite length_substring. lia. }
  unfold bufio.ScanLines.
  destruct ((gostr.len data <? bufio.MaxScanTokenSize) && (gostr.len window =? 0))
    eqn:Hempty; [discriminate|].
  destruct (bufio.IndexByte window gostr.LF) as [i|] eqn:Hi.
  - apply IndexByte_bound in Hi. unfold gostr.len in Hi.
    intros [= _ <-]. cbn [bufio.unread]. rewrite length_substring. lia.
  - destruct (gostr.len data <? bufio.MaxScanTokenSize) eqn:Heof; [|discriminate].
    cbn [andb] in Hempty. apply Z.eqb_neq in Hempty. unfold gostr.len in Hempty.
    intros [= _ <-]. cbn [bufio.unread]. rewrite length_substring.
    unfold gostr.len. lia.
Qed.

Lemma tokens_go_fuel (fuel1 fuel2 : nat) (s : bufio.Scanner) :
  (String.length (bufio.unread s) < fuel1)%nat ->
  (String.length (bufio.unread s) < fuel2)%nat ->
  bufio.tokens_go fuel1 s = bufio.tokens_go fuel2 s.
Proof.
  revert fuel2 s. induction fuel1 as [|fuel1 IH]; intros [|fuel2] s H1 H2; try lia.
  simpl. destruct (bufio.Scan s) as [[tok s']|] eqn:Hscan; [|reflexivity].
  apply Scan_shrinks in Hscan. f_equal. apply IH; lia.
Qed.

Lemma scanLoop_parseTokens (fuel : nat) (s : bufio.Scanner) (st : goini.Ini * string) :
  (String.length (bufio.unread s) < fuel)%nat ->
  goini.scanLoop fuel s st = lines.parseTokens st (bufio.tokens_go fuel s).
Proof.
  revert s st. induction fuel as [|fuel IH]; intros s st H; [lia|].
  simpl. destruct (bufio.Scan s) as [[tok s']|] eqn:Hscan; [|reflexivity].
  apply Scan_shrinks in Hscan. simpl.
  destruct (goini.parseLine st tok) as [st'|]; [|reflexivity].
  simpl. apply IH. lia.
Qed.

(** ** A load refines [lines.parse] *)

Lemma parseTokens_run (toks : list string) (i : goini.Ini) (m : lines.Store)
      (cur : string) :
  goini.sections i = lines.toSections m ->
  is_Some (m !! cur) ->
  exists i',
    lines.parseTokens (i, cur) toks = Some (i', snd (lines.run (m, cur) toks))
    /\ goini.sections i' = lines.toSections (fst (lines.run (m, cur) toks))
    /\ goini.fileName i' = goini.fileName i
    /\ goini.buffer i' = goini.buffer i.
Proof.
  revert i m cur. induction toks as [|t toks IH]; intros i m cur Hs Hcur.
  - exists i. cbn. auto.
  - destruct (parseLine_step i m cur t Hs Hcur) as (i1 & Hp & Hs1 & Hf1 & Hb1 & Hc1).
    cbn [lines.parseTokens]. rewrite Hp. cbn [mbind option_bind].
    unfold lines.run. cbn [fold_left].
    destruct (lines.step (m, cur) t) as [m1 cur1] eqn:Hstep. cbn [fst snd] in *.
    destruct (IH i1 m1 cur1 Hs1 Hc1) as (i' & Hp' & Hs' & Hf' & Hb').
    exists i'. unfold lines.run in *. rewrite Hp'.
    repeat split; congruence.
Qed.

Lemma LoadFromBytes_parse (i : goini.Ini) (buffer : string) :
  goini.LoadFromBytes i buffer
  = Some (goini.mkIni (goini.fileName i) buffer (lines.toSections (lines.parse buffer))).
Proof.
  unfold goini.LoadFromBytes, goini.parseLines, goini.clear.
  cbn [goini.fileName goini.buffer goini.sections gomap.set gomap.make
       mbind option_bind].
  rewrite scanLoop_parseTokens by (cbn [bufio.unread]; lia).
  fold (bufio.tokens buffer).
  destruct (parseTokens_run (bufio.tokens buffer)
              (goini.mkIni (goini.fileName i) buffer
                 (Some (<["":=goini.mkKeyValue gomap.make]> ∅)))
              {[ "" := ∅ ]} "") as (i' & Hp & Hs & Hf & Hb).
  - cbn. unfold lines.toSections. f_equal.
  - rewrite lookup_singleton_eq. eauto.
  - rewrite Hp. cbn [fmap option_fmap option_map fst]. f_equal.
    destruct i' as [f b s].
    cbn [goini.sections goini.fileName goini.buffer] in Hs, Hf, Hb.
    unfold lines.parse. congruence.
Qed.

(** ** The loops of the library models end within their fuel

    Every loop below consumes at least one byte of its string in each
    iteration, so a fuel of the length of the string is never used up:
    any larger fuel gives the same result. *)

Lemma DecodeRuneInString_size (s : string) :
  s <> "" ->
  1 <= snd (utf8.DecodeRuneInString s) <= gostr.len s.
Proof.
  intros Hne. unfold utf8.DecodeRuneInString.
  assert (Hlen : 1 <= gostr.len s).
  { destruct s; [congruence|]. rewrite len_String. pose proof (len_nonneg s). lia. }
  destruct (Z.ltb_spec (gostr.len s) 1); [lia|].
  destruct (utf8.byteAt s 0 <? utf8.RuneSelf); [cbn; lia|].
  unfold utf8.first.
  repeat (match goal with
          | |- context [if ?b then _ else _] => destruct b eqn:?
          end; cbv beta iota zeta);
    cbn [snd]; try lia;
    repeat match goal with
           | H : (_ <? _) = false |- _ => apply Z.ltb_ge in H
           end; lia.
Qed.

Lemma length_drop_rune (s : string) :
  s <> "" ->
  (String.length
     (String.substring (Z.to_nat (snd (utf8.DecodeRuneInString s)))
        (String.length s - Z.to_nat (snd (utf8.DecodeRuneInString s))) s)
   < String.length s)%nat.
Proof.
  intros Hne. pose proof (DecodeRuneInString_size s Hne) as Hsize.
  rewrite length_substring. unfold gostr.len in Hsize. lia.
Qed.

Lemma widths_fuel (fuel1 fuel2 : nat) (s : string) :
  (String.length s <= fuel1)%nat -> (String.length s <= fuel2)%nat ->
  utf8.widths fuel1 s = utf8.widths fuel2 s.
Proof.
  revert fuel2 s. induction fuel1 as [|fuel1 IH]; intros fuel2 s H1 H2.
  - destruct s; [|cbn in H1; lia]. destruct fuel2; reflexivity.
  - destruct fuel2 as [|fuel2].
    + destruct s; [reflexivity|cbn in H2; lia].
    + cbn [utf8.widths]. destruct (String.eqb_spec s "") as [->|Hne]; [reflexivity|].
      pose proof (length_drop_rune s Hne) as Hlt.
      destruct (utf8.DecodeRuneInString s) as [r size]. cbn [snd] in Hlt.
      f_equal. apply IH; lia.
Qed.

Lemma indexFunc_go_fuel (fuel1 fuel2 : nat) (s : string) (f : Z -> bool)
      (truth : bool) (off : Z) :
  (String.length s <= fuel1)%nat -> (String.length s <= fuel2)%nat ->
  gostrings.indexFunc_go fuel1 s f truth off = gostrings.indexFunc_go fuel2 s f truth off.
Proof.
  revert fuel2 s off. induction fuel1 as [|fuel1 IH]; intros fuel2 s off H1 H2.
  - destruct s; [|cbn in H1; lia]. destruct fuel2; reflexivity.
  - destruct fuel2 as [|fuel2].
    + destruct s; [reflexivity|cbn in H2; lia].
    + cbn [gostrings.indexFunc_go].
      destruct (String.eqb_spec s "") as [->|Hne]; [reflexivity|].
      pose proof (length_drop_rune s Hne) as Hlt.
      destruct (utf8.DecodeRuneInString s) as [r size]. cbn [snd] in Hlt.
      destruct (Bool.eqb (f r) truth); [reflexivity|]. apply IH; lia.
Qed.

Lemma backtrack_le (fuel : nat) (s : string) (start lim : Z) :
  utf8.backtrack fuel s start lim <= start.
Proof.
  revert start. induction fuel as [|fuel IH]; intros start; cbn [utf8.backtrack].
  - lia.
  - destruct (start <? lim); [lia|].
    destruct (utf8.RuneStart _); [lia|]. specialize (IH (start - 1)). lia.
Qed.

Lemma DecodeLastRuneInString_size (s : string) :
  s <> "" ->
  1 <= snd (utf8.DecodeLastRuneInString s) <= gostr.len s.
Proof.
  intros Hne. unfold utf8.DecodeLastRuneInString.
  assert (Hlen : 1 <= gostr.len s).
  { destruct s; [congruence|]. rewrite len_String. pose proof (len_nonneg s). lia. }
  destruct (Z.eqb_spec (gostr.len s) 0); [lia|].
  destruct (_ <? utf8.RuneSelf); [cbn [snd]; lia|].
  pose proof (backtrack_le 4 s (gostr.len s - 1 - 1)
                (Z.max 0 (gostr.len s - utf8.UTFMax))) as Hb.
  set (start := Z.max 0 (utf8.backtrack 4 s (gostr.len s - 1 - 1) _)) in *.
  destruct (utf8.DecodeRuneInString _) as [r size].
  destruct (Z.eqb_spec (start + size) (gostr.len s)); cbn [negb snd]; lia.
Qed.

Lemma lastIndexFunc_go_fuel (fuel1 fuel2 : nat) (s : string) (f : Z -> bool)
      (truth : bool) (i : Z) :
  0 <= i <= gostr.len s ->
  (Z.to_nat i < fuel1)%nat -> (Z.to_nat i < fuel2)%nat ->
  gostrings.lastIndexFunc_go fuel1 s f truth i
  = gostrings.lastIndexFunc_go fuel2 s f truth i.
Proof.
  revert fuel2 i. induction fuel1 as [|fuel1 IH]; intros fuel2 i Hi H1 H2; [lia|].
  destruct fuel2 as [|fuel2]; [lia|].
  cbn [gostrings.lastIndexFunc_go]. rewrite Z.gtb_ltb.
  destruct (Z.ltb_spec 0 i); [|reflexivity].
  assert (Hsub : String.substring 0 (Z.to_nat i) s <> "").
  { intros Hempty. apply (f_equal String.length) in Hempty.
    rewrite length_substring in Hempty. cbn [String.length] in Hempty.
    unfold gostr.len in Hi. lia. }
  pose proof (DecodeLastRuneInString_size _ Hsub) as Hsize.
  unfold gostr.len in Hsize at 1. rewrite length_substring in Hsize.
  destruct (utf8.DecodeLastRuneInString _) as [r size]. cbn [snd] in Hsize.
  destruct (Bool.eqb (f r) truth); [reflexivity|].
  unfold gostr.len in Hi. apply IH; unfold gostr.len; lia.
Qed.

Lemma Index_bound (s substr : string) (i : Z) :
  gostrings.Index s substr = Some i -> 0 <= i <= gostr.len s.
Proof.
  revert i. induction s as [|c s IH]; intros i; cbn [gostrings.Index].
  - destruct (gostrings.HasPrefix "" substr); [|discriminate].
    intros [= <-]. unfold gostr.len. cbn [String.length]. lia.
  - rewrite len_String. pose proof (len_nonneg s).
    destruct (gostrings.HasPrefix (String c s) substr); [intros [= <-]; lia|].
    destruct (gostrings.Index s substr) as [j|]; [|discriminate].
    intros [= <-]. specialize (IH j eq_refl). lia.
Qed.

Lemma Count_go_fuel (fuel1 fuel2 : nat) (s substr : string) :
  substr <> "" ->
  (String.length s <= fuel1)%nat -> (String.length s <= fuel2)%nat ->
  gostrings.Count_go fuel1 s substr = gostrings.Count_go fuel2 s substr.
Proof.
  intros Hsub.
  assert (Hlen : 1 <= gostr.len substr).
  { destruct substr; [congruence|]. rewrite len_String.
    pose proof (len_nonneg substr). lia. }
  assert (Hnone : gostrings.Index "" substr = None).
  { destruct substr; [congruence|]. reflexivity. }
  revert fuel2 s. induction fuel1 as [|fuel1 IH]; intros fuel2 s H1 H2.
  - destruct s; [|cbn in H1; lia]. destruct fuel2; [reflexivity|].
    cbn [gostrings.Count_go]. rewrite Hnone. reflexivity.
  - destruct fuel2 as [|fuel2].
    + destruct s; [|cbn in H2; lia]. cbn [gostrings.Count_go]. rewrite Hnone.
      reflexivity.
    + cbn [gostrings.Count_go].
      destruct (gostrings.Index s substr) as [i|] eqn:Hi; [|reflexivity].
      apply Index_bound in Hi. f_equal.
      apply IH; rewrite length_substring; unfold gostr.len in *; lia.
Qed.

(** ** Splitting on a one-byte separator *)

Lemma CountString_nonneg (s : string) (c : ascii) : 0 <= gostrings.CountString s c.
Proof.
  induction s as [|d s IH]; simpl; [lia|].
  destruct (Ascii.eqb d c); lia.
Qed.

Lemma CountString_app (a b : string) (c : ascii) :
  gostrings.CountString (a +:+ b) c
  = gostrings.CountString a c + gostrings.CountString b c.
Proof.
  induction a as [|d a IH]; simpl; [reflexivity|].
  rewrite IH. lia.
Qed.

Lemma Index_single_None (s : string) (c : ascii) :
  gostrings.CountString s c = 0 -> gostrings.Index s (String c "") = None.
Proof.
  induction s as [|d s IH]; simpl; intros H; [reflexivity|].
  pose proof (CountString_nonneg s c) as Hn.
  unfold gostrings.HasPrefix. simpl.
  destruct (ascii_dec c d) as [->|Hne].
  - rewrite Ascii.eqb_refl in H. lia.
  - destruct (Ascii.eqb d c) eqn:E; [apply Ascii.eqb_eq in E; congruence|].
    rewrite IH by lia. reflexivity.
Qed.

Lemma Index_single_app (a b : string) (c : ascii) :
  gostrings.CountString a c = 0 ->
  gostrings.Index (a +:+ String c b) (String c "") = Some (gostr.len a).
Proof.
  induction a as [|d a IH]; intros H.
  - simpl. unfold gostrings.HasPrefix. simpl.
    destruct (ascii_dec c c) as [_|Hne]; [|congruence].
    destruct b; reflexivity.
  - simpl in H. pose proof (CountString_nonneg a c) as Hn.
    destruct (Ascii.eqb d c) eqn:E; [lia|].
    simpl. unfold gostrings.HasPrefix. simpl.
    destruct (ascii_dec c d) as [->|Hne]; [rewrite Ascii.eqb_refl in E; discriminate|].
    rewrite IH by lia. rewrite len_String. reflexivity.
Qed.

Lemma CountString_split (s : string) (c : ascii) :
  0 < gostrings.CountString s c ->
  exists a b, s = a +:+ String c b /\ gostrings.CountString a c = 0.
Proof.
  induction s as [|d s IH]; simpl; intros H; [lia|].
  destruct (Ascii.eqb d c) eqn:E.
  - apply Ascii.eqb_eq in E. subst d. exists "", s. auto.
  - destruct IH as (a & b & -> & Ha); [lia|].
    exists (String d a), b. simpl. rewrite E, Ha. auto.
Qed.

Lemma CountString_le_len (s : string) (c : ascii) :
  gostrings.CountString s c <= gostr.len s.
Proof.
  induction s as [|d s IH]; [reflexivity|].
  rewrite len_String. cbn [gostrings.CountString].
  destruct (Ascii.eqb d c); lia.
Qed.

Lemma Split_single_unfold (s : string) (c : ascii) :
  gostrings.Split s (String c "")
  = gostrings.genSplit_go (Z.to_nat (gostrings.CountString s c)) s (String c "").
Proof.
  unfold gostrings.Split, gostrings.Count. cbn [String.eqb].
  pose proof (CountString_le_len s c) as Hle.
  rewrite Z.gtb_ltb.
  destruct (Z.ltb_spec (gostr.len s + 1) (gostrings.CountString s c + 1)); [lia|].
  f_equal. lia.
Qed.

Lemma Split_single_none (s : string) (c : ascii) :
  gostrings.CountString s c = 0 -> gostrings.Split s (String c "") = [s].
Proof.
  intros H. rewrite Split_single_unfold, H. reflexivity.
Qed.

Lemma Split_single_app (a b : string) (c : ascii) :
  gostrings.CountString a c = 0 ->
  gostrings.Split (a +:+ String c b) (String c "")
  = a :: gostrings.Split b (String c "").
Proof.
  intros H. rewrite !Split_single_unfold.
  rewrite CountString_app, H. cbn [gostrings.CountString].
  rewrite Ascii.eqb_refl.
  pose proof (CountString_nonneg b c) as Hn.
  replace (Z.to_nat (0 + (1 + gostrings.CountString b c)))
    with (S (Z.to_nat (gostrings.CountString b c))) by lia.
  cbn [gostrings.genSplit_go]. rewrite (Index_single_app a b c H).
  assert (Hk : Z.to_nat (gostr.len a + gostr.len (String c "")) = S (String.length a)).
  { unfold gostr.len. simpl String.length. lia. }
  rewrite Hk. unfold gostr.len at 1. rewrite Nat2Z.id.
  rewrite substring_0_app. f_equal. f_equal.
  replace (S (String.length a)) with (String.length (a +:+ String c "")).
  2:{ rewrite length_app. simpl. lia. }
  rewrite <- (append_single_assoc a b c).
  replace (String.length ((a +:+ String c "") +:+ b)
           - String.length (a +:+ String c ""))%nat with (String.length b).
  2:{ rewrite (length_app (a +:+ String c "") b). lia. }
  apply substring_skip_app.
Qed.

Lemma length_Split_single (s : string) (c : ascii) :
  Z.of_nat (length (gostrings.Split s (String c "")))
  = gostrings.Count s (String c "") + 1.
Proof.
  cbn [gostrings.Count].
  remember (Z.to_nat (gostrings.CountString s c)) as n eqn:Hn.
  revert s Hn. induction n as [|n IH]; intros s Hn.
  - pose proof (CountString_nonneg s c).
    assert (H0 : gostrings.CountString s c = 0) by lia.
    rewrite Split_single_none by exact H0. rewrite H0. reflexivity.
  - destruct (CountString_split s c) as (a & b & -> & Ha); [lia|].
    rewrite Split_single_app by exact Ha.
    rewrite CountString_app, Ha in *. cbn [gostrings.CountString] in *.
    rewrite Ascii.eqb_refl in *. cbn [length].
    pose proof (CountString_nonneg b c).
    rewrite Nat2Z.inj_succ, IH by lia. lia.
Qed.

Lemma Split_pair (a b : string) (c : ascii) :
  gostrings.CountString a c = 0 ->
  gostrings.CountString b c = 0 ->
  gostrings.Split (a +:+ String c b) (String c "") = [a; b].
Proof.
  intros Ha Hb. rewrite Split_single_app by exact Ha.
  rewrite Split_single_none by exact Hb. reflexivity.
Qed.

(** ** The store, one token at a time *)

Lemma step_section (m : lines.Store) (cur t : string) :
  snd (lines.step (m, cur) t)
  = match lines.classify t with lines.Header n => n | _ => cur end.
Proof.
  unfold lines.step. destruct (lines.classify t) as [|n|k v]; try reflexivity.
  destruct (m !! n); reflexivity.
Qed.

Lemma step_current (m : lines.Store) (cur t : string) :
  is_Some (m !! cur) ->
  is_Some (fst (lines.step (m, cur) t) !! snd (lines.step (m, cur) t)).
Proof.
  intros H. unfold lines.step. destruct (lines.classify t) as [|n|k v]; cbn; auto.
  - destruct (m !! n) eqn:E; cbn; [rewrite E; eauto|].
    rewrite lookup_insert_eq. eauto.
  - rewrite lookup_insert_eq. eauto.
Qed.

Lemma step_dom (m : lines.Store) (cur t s : string) :
  is_Some (m !! s) -> is_Some (fst (lines.step (m, cur) t) !! s).
Proof.
  intros H. unfold lines.step. destruct (lines.classify t) as [|n|k v]; cbn; auto.
  - destruct (m !! n) eqn:E; cbn; auto.
    destruct (decide (n = s)) as [->|Hne].
    + rewrite lookup_insert_eq. eauto.
    + rewrite lookup_insert_ne by exact Hne. exact H.
  - destruct (decide (cur = s)) as [->|Hne].
    + rewrite lookup_insert_eq. eauto.
    + rewrite lookup_insert_ne by exact Hne. exact H.
Qed.

Lemma step_entry (m : lines.Store) (cur t s k : string) :
  is_Some (m !! cur) ->
  lines.entry (fst (lines.step (m, cur) t)) s k
  = match lines.classify t with
    | lines.Assignment k' v =>
        if String.eqb cur s && String.eqb k' k then Some v else lines.entry m s k
    | _ => lines.entry m s k
    end.
Proof.
  intros [tbl Htbl]. unfold lines.step, lines.entry.
  destruct (lines.classify t) as [|n|k' v]; cbn [fst]; auto.
  - destruct (m !! n) eqn:E; cbn [fst]; auto.
    destruct (decide (n = s)) as [->|Hne].
    + rewrite lookup_insert_eq, E. cbn. apply lookup_empty.
    + rewrite lookup_insert_ne by exact Hne. reflexivity.
  - rewrite Htbl. cbn [default].
    destruct (String.eqb_spec cur s) as [->|Hne]; cbn [andb].
    + rewrite lookup_insert_eq. cbn.
      destruct (String.eqb_spec k' k) as [->|Hk].
      * apply lookup_insert_eq.
      * rewrite lookup_insert_ne by exact Hk. rewrite Htbl. reflexivity.
    + rewrite lookup_insert_ne by exact Hne. reflexivity.
Qed.

Lemma run_cons (st : lines.Store * string) (t : string) (toks : list string) :
  lines.run st (t :: toks) = lines.run (lines.step st t) toks.
Proof. reflexivity. Qed.

Lemma run_app (st : lines.Store * string) (a b : list string) :
  lines.run st (a ++ b) = lines.run (lines.run st a) b.
Proof. unfold lines.run. apply fold_left_app. Qed.

Lemma run_section (toks : list string) (m : lines.Store) (cur : string) :
  snd (lines.run (m, cur) toks) = lines.sectionAfter cur toks.
Proof.
  revert m cur. induction toks as [|t toks IH]; intros m cur; [reflexivity|].
  rewrite run_cons. cbn [lines.sectionAfter].
  rewrite <- (step_section m cur t).
  destruct (lines.step (m, cur) t) as [m1 cur1]. apply IH.
Qed.

Lemma run_current (toks : list string) (m : lines.Store) (cur : string) :
  is_Some (m !! cur) ->
  is_Some (fst (lines.run (m, cur) toks) !! snd (lines.run (m, cur) toks)).
Proof.
  revert m cur. induction toks as [|t toks IH]; intros m cur H; [exact H|].
  rewrite run_cons. pose proof (step_current m cur t H) as H1.
  destruct (lines.step (m, cur) t) as [m1 cur1]. apply IH. exact H1.
Qed.

Lemma run_dom (toks : list string) (m : lines.Store) (cur s : string) :
  is_Some (m !! s) -> is_Some (fst (lines.run (m, cur) toks) !! s).
Proof.
  revert m cur. induction toks as [|t toks IH]; intros m cur H; [exact H|].
  rewrite run_cons. pose proof (step_dom m cur t s H) as H1.
  destruct (lines.step (m, cur) t) as [m1 cur1]. apply IH. exact H1.
Qed.

Lemma run_entry_unassigned (toks : list string) (m : lines.Store) (cur s k : string) :
  is_Some (m !! cur) ->
  lines.assigns cur toks s k = false ->
  lines.entry (fst (lines.run (m, cur) toks)) s k = lines.entry m s k.
Proof.
  revert m cur. induction toks as [|t toks IH]; intros m cur H Ha; [reflexivity|].
  rewrite run_cons.
  pose proof (step_current m cur t H) as H1.
  pose proof (step_entry m cur t s k H) as He.
  pose proof (step_section m cur t) as Hc.
  destruct (lines.step (m, cur) t) as [m1 cur1]. cbn [fst snd] in *.
  cbn [lines.assigns] in Ha. subst cur1.
  destruct (lines.classify t) as [|n|k' v].
  - rewrite IH by assumption. exact He.
  - rewrite IH by assumption. exact He.
  - apply orb_false_iff in Ha as [Hk Ha]. rewrite Hk in He.
    rewrite IH by assumption. exact He.
Qed.

Lemma run_entry_kept (toks : list string) (m : lines.Store) (cur s k : string) :
  is_Some (m !! cur) ->
  is_Some (lines.entry m s k) ->
  is_Some (lines.entry (fst (lines.run (m, cur) toks)) s k).
Proof.
  revert m cur. induction toks as [|t toks IH]; intros m cur H Hk; [exact Hk|].
  rewrite run_cons.
  pose proof (step_current m cur t H) as H1.
  pose proof (step_entry m cur t s k H) as He.
  destruct (lines.step (m, cur) t) as [m1 cur1]. cbn [fst snd] in *.
  apply IH; [exact H1|]. rewrite He.
  destruct (lines.classify t) as [|n|k' v]; auto.
  destruct (String.eqb cur s && String.eqb k' k); eauto.
Qed.

(** The entry of a key after the tokens [pre ++ t :: post], [t] being an
    assignment of the key. *)
Lemma run_entry_assigned (pre post : list string) (t : string)
      (m : lines.Store) (cur k v : string) :
  is_Some (m !! cur) ->
  lines.classify t = lines.Assignment k v ->
  let s := lines.sectionAfter cur pre in
  is_Some (lines.entry (fst (lines.run (m, cur) (pre ++ t :: post))) s k)
  /\ (lines.assigns s post s k = false ->
      lines.entry (fst (lines.run (m, cur) (pre ++ t :: post))) s k = Some v).
Proof.
  intros H Hc s. rewrite run_app, run_cons.
  pose proof (run_current pre m cur H) as H1.
  pose proof (run_section pre m cur) as Hs. fold s in Hs.
  destruct (lines.run (m, cur) pre) as [m1 cur1]. cbn [fst snd] in *. subst cur1.
  pose proof (step_current m1 s t H1) as H2.
  pose proof (step_entry m1 s t s k H1) as He.
  pose proof (step_section m1 s t) as Hs2.
  rewrite Hc in He, Hs2. rewrite !String.eqb_refl in He. cbn [andb] in He.
  destruct (lines.step (m1, s) t) as [m2 cur2]. cbn [fst snd] in *. subst cur2.
  split.
  - apply run_entry_kept; [exact H2|]. rewrite He. eauto.
  - intros Ha. rewrite run_entry_unassigned by assumption. exact He.
Qed.

(** ** The accessors read the store *)

Lemma get_Item_entry (i : goini.Ini) (m : lines.Store) (s k : string) :
  goini.sections i = lines.toSections m ->
  gomap.get (goini.Item (goini.section_of i s)) k = lines.entry m s k.
Proof.
  intros H. rewrite (section_of_toSections i m s H). unfold lines.entry.
  destruct (m !! s); reflexivity.
Qed.

Lemma getString_entry (i : goini.Ini) (m : lines.Store) (s k : string) :
  goini.sections i = lines.toSections m ->
  goini.getString i s k = default "" (lines.entry m s k).
Proof. intros H. unfold goini.getString. rewrite (get_Item_entry i m s k H). reflexivity. Qed.

Lemma KeyExists_entry (i : goini.Ini) (m : lines.Store) (s k : string) :
  goini.sections i = lines.toSections m ->
  goini.KeyExists i s k = true <-> is_Some (lines.entry m s k).
Proof.
  intros H. unfold goini.KeyExists. rewrite (get_Item_entry i m s k H).
  destruct (lines.entry m s k); split; intros; eauto; try discriminate.
  destruct H0 as [? ?]. discriminate.
Qed.

Lemma SectionExists_dom (i : goini.Ini) (m : lines.Store) (s : string) :
  goini.sections i = lines.toSections m ->
  goini.SectionExists i s = true <-> is_Some (m !! s).
Proof.
  intros H. unfold goini.SectionExists. rewrite H. unfold lines.toSections, gomap.get.
  rewrite lookup_fmap. destruct (m !! s); cbn; split; intros; eauto; try discriminate.
  destruct H0 as [? ?]. discriminate.
Qed.

Lemma sectionNames_dom (i : goini.Ini) (m : lines.Store) :
  goini.sections i = lines.toSections m ->
  goini.sectionNames i = elements (dom m).
Proof.
  intros H. unfold goini.sectionNames. rewrite H. unfold lines.toSections, gomap.keys.
  rewrite dom_fmap_L. reflexivity.
Qed.

(** ** Classifying a line by its bytes *)

Lemma CountString_zero_append_single (a b : string) (c : ascii) :
  gostrings.CountString (a +:+ String c b) c <> 0.
Proof.
  rewrite CountString_app. cbn [gostrings.CountString]. rewrite Ascii.eqb_refl.
  pose proof (CountString_nonneg a c). pose proof (CountString_nonneg b c). lia.
Qed.

(** A trimmed line [kpart=vpart] with no other ['='], which does not start
    with ['#'], [';'] or ['['], is an assignment. *)
Lemma classify_assignment (raw kpart vpart : string) :
  gostrings.TrimSpace raw = kpart +:+ String "=" vpart ->
  gostrings.CountString kpart "=" = 0 ->
  gostrings.CountString vpart "=" = 0 ->
  String.get 0 (gostrings.TrimSpace raw) <> Some "#"%char ->
  String.get 0 (gostrings.TrimSpace raw) <> Some ";"%char ->
  String.get 0 (gostrings.TrimSpace raw) <> Some "["%char ->
  lines.classify raw
  = lines.Assignment (gostrings.TrimSpace kpart) (gostrings.TrimSpace vpart).
Proof.
  intros Hline Hk Hv H1 H2 H3. unfold lines.classify.
  pose proof (Split_pair kpart vpart "=" Hk Hv) as Hsplit.
  rewrite <- Hline in Hsplit.
  destruct (gostrings.TrimSpace raw) as [|c0 rest] eqn:E.
  { destruct kpart; discriminate. }
  cbn [String.get] in H1, H2, H3.
  destruct (Ascii.eqb_spec c0 "#") as [->|_]; [congruence|].
  destruct (Ascii.eqb_spec c0 ";") as [->|_]; [congruence|].
  destruct (Ascii.eqb_spec c0 "[") as [->|_]; [congruence|].
  cbn [orb]. rewrite Hsplit. reflexivity.
Qed.

(** A line without exactly one ['='] that is neither blank, a comment nor
    a header is skipped. *)
Lemma classify_malformed (raw : string) :
  gostrings.Count (gostrings.TrimSpace raw) "=" <> 1 ->
  String.get 0 (gostrings.TrimSpace raw) <> Some "["%char ->
  lines.classify raw = lines.Ignored.
Proof.
  intros Hcount Hb. unfold lines.classify.
  pose proof (length_Split_single (gostrings.TrimSpace raw) "=") as Hlen.
  destruct (gostrings.TrimSpace raw) as [|c0 rest] eqn:E; [reflexivity|].
  cbn [String.get] in Hb.
  destruct (Ascii.eqb c0 "#" || Ascii.eqb c0 ";"); [reflexivity|].
  destruct (Ascii.eqb_spec c0 "[") as [->|_]; [congruence|].
  destruct (gostrings.Split (String c0 rest) "=") as [|p0 [|p1 [|p2 ps]]];
    try reflexivity.
  cbn [length] in Hlen. lia.
Qed.

(** A skipped token leaves any state as it is, and the body cannot panic
    on it. *)
Lemma parseLine_ignored (st : goini.Ini * string) (text : string) :
  lines.classify text = lines.Ignored -> goini.parseLine st text = Some st.
Proof.
  destruct st as [i cur]. unfold lines.classify, goini.parseLine.
  destruct (gostrings.TrimSpace text) as [|c0 rest] eqn:Hline; [reflexivity|].
  replace (String.eqb (String c0 rest) "") with false by reflexivity.
  rewrite at_first. cbn [mbind option_bind].
  destruct (Ascii.eqb c0 "#" || Ascii.eqb c0 ";"); [reflexivity|].
  destruct (Ascii.eqb c0 "[").
  - rewrite at_last. destruct (lastByte_Some c0 rest) as [cl Hlast]. rewrite Hlast.
    cbn [mbind option_bind]. destruct (Ascii.eqb cl "]"); [discriminate|reflexivity].
  - destruct (gostrings.Split (String c0 rest) "=") as [|p0 [|p1 [|p2 ps]]];
      try reflexivity; [discriminate|].
    intros _.
    replace (negb (Z.of_nat (length (p0 :: p1 :: p2 :: ps)) =? 2)) with true;
      [reflexivity|].
    symmetry. apply negb_true_iff. apply Z.eqb_neq. cbn [length]. lia.
Qed.

(** A header of a section that exists makes it current and changes nothing
    else, whatever the instance. *)
Lemma parseLine_reopen (i : goini.Ini) (cur text name : string) :
  lines.classify text = lines.Header name ->
  goini.SectionExists i name = true ->
  goini.parseLine (i, cur) text = Some (i, name).
Proof.
  unfold lines.classify, goini.parseLine, goini.SectionExists.
  destruct (gostrings.TrimSpace text) as [|c0 rest] eqn:Hline; [discriminate|].
  replace (String.eqb (String c0 rest) "") with false by reflexivity.
  rewrite at_first. cbn [mbind option_bind].
  destruct (Ascii.eqb c0 "#" || Ascii.eqb c0 ";"); [discriminate|].
  destruct (Ascii.eqb c0 "[") eqn:Hbracket.
  - rewrite at_last. destruct (lastByte_Some c0 rest) as [cl Hlast]. rewrite Hlast.
    cbn [mbind option_bind].
    destruct (Ascii.eqb cl "]") eqn:Hclose; [|discriminate].
    cbn [negb]. destruct rest as [|a rest].
    { rewrite lastByte_single in Hlast. injection Hlast as Heq. subst cl.
      apply Ascii.eqb_eq in Hbracket. apply Ascii.eqb_eq in Hclose. congruence. }
    rewrite slice_inner. cbn [mbind option_bind].
    generalize (String.substring 1 (String.length (String c0 (String a rest)) - 2)
                  (String c0 (String a rest))).
    intros nm [= ->] Hex.
    destruct (gomap.get (goini.sections i) name); [reflexivity|discriminate].
  - destruct (gostrings.Split (String c0 rest) "=") as [|p0 [|p1 [|p2 ps]]];
      discriminate.
Qed.

(** ** Loads *)

Lemma entryState_sections (i : goini.Ini) (buffer : string) :
  goini.sections (fst (lines.entryState i buffer)) = lines.toSections {[ "" := ∅ ]}.
Proof.
  cbn. unfold lines.toSections. f_equal.
Qed.

Lemma LoadFromBytes_entryState (i : goini.Ini) (buffer : string) :
  goini.LoadFromBytes i buffer
  = fst <$> lines.parseTokens (lines.entryState i buffer) (bufio.tokens buffer).
Proof.
  unfold goini.LoadFromBytes, goini.parseLines, goini.clear.
  cbn [goini.fileName goini.buffer goini.sections gomap.set gomap.make
       mbind option_bind].
  rewrite scanLoop_parseTokens by (cbn [bufio.unread]; lia).
  reflexivity.
Qed.

Lemma entryState_run (i : goini.Ini) (buffer : string) (toks : list string) :
  exists j,
    lines.parseTokens (lines.entryState i buffer) toks
    = Some (j, lines.sectionAfter "" toks)
    /\ goini.sections j = lines.toSections (fst (lines.run ({[ "" := ∅ ]}, "") toks)).
Proof.
  destruct (parseTokens_run toks (fst (lines.entryState i buffer)) {[ "" := ∅ ]} "")
    as (j & Hp & Hs & _ & _).
  - apply entryState_sections.
  - rewrite lookup_singleton_eq. eauto.
  - exists j. rewrite run_section in Hp. split; [exact Hp|exact Hs].
Qed.

Lemma init_current : is_Some (({[ "" := ∅ ]} : lines.Store) !! "").
Proof. rewrite lookup_singleton_eq. eauto. Qed.

(** ** [strconv.ParseInt] on the literals of the specification *)

Lemma digitVal_digitOf (c : ascii) (d : Z) :
  literal.digitVal c = Some d ->
  strconv.digitOf (gostr.byte c) = Some d
  /\ (gostr.byte c =? 95) = false
  /\ 0 <= d < 36.
Proof.
  intros H.
  destruct c as [b0 b1 b2 b3 b4 b5 b6 b7];
    destruct b0, b1, b2, b3, b4, b5, b6, b7;
    vm_compute in H; try discriminate H;
    injection H as <-; (split; [reflexivity|split; [reflexivity|lia]]).
Qed.

Lemma digits_ge (base : Z) (ds : string) (n v : Z) :
  1 <= base -> 0 <= n -> literal.digits base ds n = Some v -> n <= v.
Proof.
  intros Hb. revert n. induction ds as [|c ds IH]; intros n Hn; cbn [literal.digits].
  - intros [= <-]. lia.
  - destruct (literal.digitVal c) as [d|] eqn:Hd; [|discriminate].
    apply digitVal_digitOf in Hd as (_ & _ & Hd).
    destruct (d <? base); [|discriminate].
    intros H. apply IH in H; nia.
Qed.

Lemma ParseUint_go_digits (base : Z) (ds : string) (n v : Z) :
  2 <= base <= 36 ->
  0 <= n <= maxUint32 ->
  literal.digits base ds n = Some v ->
  strconv.ParseUint_go ds base true (strconv.maxUint64 / base + 1) maxUint32 n false
  = if v <=? maxUint32 then inl (v, false) else inr (maxUint32, strconv.ErrRange).
Proof.
  intros Hb. revert n.
  assert (Hcut : 2 ^ 32 <= strconv.maxUint64 / base + 1).
  { unfold strconv.maxUint64.
    assert (2 ^ 32 * base <= 2 ^ 64 - 1) by (change (2 ^ 64) with (2 ^ 32 * 2 ^ 32); nia).
    pose proof (Z.div_le_lower_bound (2 ^ 64 - 1) base (2 ^ 32)). nia. }
  unfold maxUint32 in *.
  induction ds as [|c ds IH]; intros n Hn; cbn [literal.digits strconv.ParseUint_go].
  - intros [= <-]. destruct (n <=? 2 ^ 32 - 1) eqn:E; [reflexivity|].
    apply Z.leb_gt in E. lia.
  - destruct (literal.digitVal c) as [d|] eqn:Hd; [|discriminate].
    apply digitVal_digitOf in Hd as (Hgo & Hus & Hd). rewrite Hus, Hgo. cbn [andb].
    destruct (d <? base) eqn:Hlt; [|discriminate]. apply Z.ltb_lt in Hlt.
    destruct (d >=? base) eqn:Hge; [apply Z.geb_le in Hge; lia|].
    destruct (n >=? strconv.maxUint64 / base + 1) eqn:Hc; [apply Z.geb_le in Hc; lia|].
    assert (Hmul : (n * base) mod 2 ^ 64 = n * base).
    { apply Z.mod_small. change (2 ^ 64) with (2 ^ 32 * 2 ^ 32). nia. }
    rewrite Hmul.
    assert (Hadd : (n * base + d) mod 2 ^ 64 = n * base + d).
    { apply Z.mod_small. change (2 ^ 64) with (2 ^ 32 * 2 ^ 32). nia. }
    rewrite Hadd.
    destruct (n * base + d <? n * base) eqn:Hwrap; [apply Z.ltb_lt in Hwrap; lia|].
    cbn [orb]. intros Hv.
    destruct (n * base + d >? 2 ^ 32 - 1) eqn:Hover.
    + apply digits_ge in Hv; [|lia|nia].
      apply Z.gtb_lt in Hover.
      destruct (v <=? 2 ^ 32 - 1) eqn:E; [apply Z.leb_le in E; lia|reflexivity].
    + apply IH; [|exact Hv].
      assert (~ (n * base + d > 2 ^ 32 - 1)).
      { intros Hgt. apply Z.gt_lt in Hgt. apply Z.gtb_lt in Hgt. congruence. }
      nia.
Qed.

(** Case analysis on the boolean comparisons of a goal. *)
Ltac zbool :=
  repeat match goal with
         | |- context [?a <=? ?b] => destruct (Z.leb_spec a b)
         | |- context [?a <? ?b] => destruct (Z.ltb_spec a b)
         | |- context [?a =? ?b] => destruct (Z.eqb_spec a b)
         end;
  cbn [andb orb negb]; try reflexivity; try lia.

Lemma byte_eqb (c d : ascii) : (gostr.byte c =? gostr.byte d) = Ascii.eqb c d.
Proof.
  destruct (Ascii.eqb_spec c d) as [->|Hne].
  - apply Z.eqb_refl.
  - apply Z.eqb_neq. intros H. apply Hne. unfold gostr.byte in H.
    apply N2Z.inj in H.
    rewrite <- (ascii_N_embedding c), <- (ascii_N_embedding d), H. reflexivity.
Qed.

Lemma octal_digit_not_prefix (c : ascii) (d : Z) :
  literal.digitVal c = Some d -> d < 8 ->
  (strconv.lower (gostr.byte c) =? 98) = false
  /\ (strconv.lower (gostr.byte c) =? 111) = false
  /\ (strconv.lower (gostr.byte c) =? 120) = false.
Proof.
  intros H Hd.
  destruct c as [b0 b1 b2 b3 b4 b5 b6 b7];
    destruct b0, b1, b2, b3, b4, b5, b6, b7;
    vm_compute in H; try discriminate H;
    injection H as <-; (lia || (repeat split; reflexivity)).
Qed.

Lemma hex_prefix_lower (c : ascii) :
  Ascii.eqb c "x" || Ascii.eqb c "X" = true ->
  (strconv.lower (gostr.byte c) =? 98) = false
  /\ (strconv.lower (gostr.byte c) =? 111) = false
  /\ (strconv.lower (gostr.byte c) =? 120) = true.
Proof.
  intros H. apply orb_true_iff in H as [H|H]; apply Ascii.eqb_eq in H; subst c;
    repeat split; reflexivity.
Qed.

Lemma unsigned_nonneg (s : string) (v : Z) : literal.unsigned s = Some v -> 0 <= v.
Proof.
  unfold literal.unsigned. destruct s as [|c0 rest]; [discriminate|].
  destruct (Ascii.eqb c0 "0").
  - destruct rest as [|c1 [|c2 ds]]; try (apply digits_ge; lia).
    destruct (Ascii.eqb c1 "x" || Ascii.eqb c1 "X"); apply digits_ge; lia.
  - apply digits_ge; lia.
Qed.

Lemma basePrefix_unsigned (s : string) (v : Z) :
  literal.unsigned s = Some v ->
  exists base ds,
    strconv.basePrefix s = (base, ds)
    /\ 2 <= base <= 36
    /\ literal.digits base ds 0 = Some v.
Proof.
  unfold literal.unsigned, strconv.basePrefix.
  destruct s as [|c0 rest]; [discriminate|].
  change 48 with (gostr.byte "0"). rewrite byte_eqb.
  destruct (Ascii.eqb c0 "0").
  - destruct rest as [|c1 [|c2 ds]].
    + intros H. exists 8, "". split; [reflexivity|]. split; [lia|exact H].
    + intros H. exists 8, (String c1 ""). split; [|split; [lia|exact H]].
      replace (gostr.len (String c0 (String c1 "")) >=? 3) with false by reflexivity.
      reflexivity.
    + assert (Hlen : (gostr.len (String c0 (String c1 (String c2 ds))) >=? 3) = true).
      { rewrite !len_String. pose proof (len_nonneg ds).
        apply Z.geb_le. lia. }
      rewrite Hlen. cbn [andb].
      destruct (Ascii.eqb c1 "x" || Ascii.eqb c1 "X") eqn:Hx.
      * intros H. apply hex_prefix_lower in Hx as (-> & -> & ->).
        exists 16, (String c2 ds). split; [reflexivity|]. split; [lia|exact H].
      * intros H. exists 8, (String c1 (String c2 ds)).
        split; [|split; [lia|exact H]].
        cbn [literal.digits] in H.
        destruct (literal.digitVal c1) as [d|] eqn:Hd; [|discriminate].
        destruct (d <? 8) eqn:Hlt; [|discriminate]. apply Z.ltb_lt in Hlt.
        destruct (octal_digit_not_prefix c1 d Hd Hlt) as (-> & -> & ->).
        reflexivity.
  - intros H. exists 10, (String c0 rest). split; [reflexivity|]. split; [lia|exact H].
Qed.

Lemma ParseUint_unsigned (s : string) (v : Z) :
  literal.unsigned s = Some v ->
  strconv.ParseUint s 0 32
  = if v <=? maxUint32 then (v, None) else (maxUint32, Some strconv.ErrRange).
Proof.
  intros H. destruct (basePrefix_unsigned s v H) as (base & ds & Hp & Hb & Hd).
  unfold strconv.ParseUint.
  destruct s as [|c0 rest]; [discriminate|].
  replace (String.eqb (String c0 rest) "") with false by reflexivity.
  cbn match. replace (0 =? 0) with true by reflexivity.
  replace ((2 <=? 0) && (0 <=? 36)) with false by reflexivity.
  rewrite Hp.
  replace ((32 <? 0) || (32 >? 64)) with false by reflexivity.
  replace (((Z.shiftl 1 (if 32 =? 0 then strconv.IntSize else 32)) mod 2 ^ 64 - 1)
             mod 2 ^ 64) with maxUint32 by reflexivity.
  rewrite (ParseUint_go_digits base ds 0 v Hb) by (unfold maxUint32; lia || exact Hd).
  destruct (v <=? maxUint32); reflexivity.
Qed.

Lemma ParseInt_of_unsigned (neg : bool) (s : string) (v : Z) :
  literal.unsigned s = Some v ->
  (let '(un, err) := strconv.ParseUint s 0 32 in
   match err with
   | Some strconv.ErrSyntax | Some strconv.ErrBase | Some strconv.ErrBitSize => (0, err)
   | _ =>
       let bitSize := if 32 =? 0 then strconv.IntSize else 32 in
       let cutoff := Z.shiftl 1 (bitSize - 1) in
       if negb neg && (un >=? cutoff) then (cutoff - 1, Some strconv.ErrRange)
       else if neg && (un >? cutoff) then (- cutoff, Some strconv.ErrRange)
       else (if neg then - un else un, None)
   end)
  = let n := if neg then - v else v in
    if (minInt32 <=? n) && (n <=? maxInt32) then (n, None)
    else (if neg then minInt32 else maxInt32, Some strconv.ErrRange).
Proof.
  intros H. pose proof (unsigned_nonneg s v H) as Hv.
  rewrite (ParseUint_unsigned s v H).
  unfold maxUint32, minInt32, maxInt32. cbv zeta.
  destruct (Z.leb_spec v (2 ^ 32 - 1)); destruct neg; cbn [negb andb];
    change (Z.shiftl 1 ((if 32 =? 0 then strconv.IntSize else 32) - 1)) with (2 ^ 31);
    rewrite ?Z.gtb_ltb, ?Z.geb_leb; zbool.
Qed.

(** [ParseInt] reads a literal of the specification as its value when the
    value fits 32 bits, and fails with [ErrRange] otherwise. *)
Lemma ParseInt_signed (s : string) (n : Z) :
  literal.signed s = Some n ->
  strconv.ParseInt s 0 32
  = if (minInt32 <=? n) && (n <=? maxInt32) then (n, None)
    else (if n <? 0 then minInt32 else maxInt32, Some strconv.ErrRange).
Proof.
  unfold literal.signed, strconv.ParseInt.
  destruct s as [|c0 rest]; [discriminate|].
  change 43 with (gostr.byte "+"). change 45 with (gostr.byte "-").
  rewrite !byte_eqb.
  destruct (Ascii.eqb c0 "+").
  - intros H. pose proof (unsigned_nonneg rest n H) as Hn.
    etransitivity; [exact (ParseInt_of_unsigned false rest n H)|]. cbv zeta.
    destruct (n <? 0) eqn:E; [apply Z.ltb_lt in E; lia|reflexivity].
  - destruct (Ascii.eqb c0 "-").
    + destruct (literal.unsigned rest) as [v|] eqn:Hu; [|discriminate].
      cbn [fmap option_fmap option_map]. intros [= <-].
      pose proof (unsigned_nonneg rest v Hu) as Hv.
      etransitivity; [exact (ParseInt_of_unsigned true rest v Hu)|]. cbv zeta.
      destruct (- v <? 0) eqn:E; [reflexivity|].
      apply Z.ltb_ge in E. assert (v = 0) by lia. subst v. reflexivity.
    + intros H. pose proof (unsigned_nonneg _ n H) as Hn.
      etransitivity; [exact (ParseInt_of_unsigned false _ n H)|]. cbv zeta.
      destruct (n <? 0) eqn:E; [apply Z.ltb_lt in E; lia|reflexivity].
Qed.

Lemma ParseUint_go_nonneg (s : string) (base : Z) (base0 : bool)
      (cutoff maxVal n : Z) (us us' : bool) (v : Z) :
  0 <= n ->
  strconv.ParseUint_go s base base0 cutoff maxVal n us = inl (v, us') ->
  0 <= v.
Proof.
  revert n us. induction s as [|c s IH]; intros n us Hn; cbn [strconv.ParseUint_go].
  - intros [= <- _]. exact Hn.
  - destruct ((gostr.byte c =? 95) && base0); [apply IH; exact Hn|].
    destruct (strconv.digitOf (gostr.byte c)) as [d|]; [|discriminate].
    destruct (d >=? base); [discriminate|].
    destruct (n >=? cutoff); [discriminate|].
    destruct (_ || _); [discriminate|].
    apply IH. apply Z.mod_pos_bound. lia.
Qed.

Lemma ParseUint_nonneg (s : string) (v : Z) :
  strconv.ParseUint s 0 32 = (v, None) -> 0 <= v.
Proof.
  unfold strconv.ParseUint.
  destruct (String.eqb s ""); [discriminate|].
  replace ((2 <=? 0) && (0 <=? 36)) with false by reflexivity.
  replace (0 =? 0) with true by reflexivity.
  destruct (strconv.basePrefix s) as [base ds].
  replace ((32 <? 0) || (32 >? 64)) with false by reflexivity.
  destruct (strconv.ParseUint_go _ _ _ _ _ _ _) as [[n us]|[n e]] eqn:Hgo;
    [|discriminate].
  apply ParseUint_go_nonneg in Hgo; [|lia].
  destruct (us && _); [discriminate|]. intros [= <-]. exact Hgo.
Qed.

Lemma ParseUint_go_ErrRange (s : string) (base : Z) (base0 : bool)
      (cutoff maxVal n : Z) (us : bool) (v : Z) :
  strconv.ParseUint_go s base base0 cutoff maxVal n us = inr (v, strconv.ErrRange) ->
  v = maxVal.
Proof.
  revert n us. induction s as [|c s IH]; intros n us; cbn [strconv.ParseUint_go].
  - discriminate.
  - destruct ((gostr.byte c =? 95) && base0); [apply IH|].
    destruct (strconv.digitOf (gostr.byte c)) as [d|]; [|discriminate].
    destruct (d >=? base); [discriminate|].
    destruct (n >=? cutoff); [intros [= <-]; reflexivity|].
    destruct (_ || _); [intros [= <-]; reflexivity|].
    apply IH.
Qed.

Lemma ParseUint_ErrRange (s : string) (v : Z) :
  strconv.ParseUint s 0 32 = (v, Some strconv.ErrRange) -> v = maxUint32.
Proof.
  unfold strconv.ParseUint.
  destruct (String.eqb s ""); [discriminate|].
  replace ((2 <=? 0) && (0 <=? 36)) with false by reflexivity.
  replace (0 =? 0) with true by reflexivity.
  destruct (strconv.basePrefix s) as [base ds].
  replace ((32 <? 0) || (32 >? 64)) with false by reflexivity.
  destruct (strconv.ParseUint_go _ _ _ _ _ _ _) as [[n us]|[n e]] eqn:Hgo.
  - destruct (us && _); discriminate.
  - intros [= <- ->]. apply ParseUint_go_ErrRange in Hgo. subst n. reflexivity.
Qed.

(** A value that [ParseInt] returns without error fits 32 bits. *)
Lemma ParseInt_range (s : string) (v : Z) :
  strconv.ParseInt s 0 32 = (v, None) -> minInt32 <= v <= maxInt32.
Proof.
  unfold strconv.ParseInt. destruct s as [|c0 rest]; [discriminate|].
  set (sign := if gostr.byte c0 =? 43 then (false, rest)
               else if gostr.byte c0 =? 45 then (true, rest)
               else (false, String c0 rest)).
  destruct sign as [neg s].
  destruct (strconv.ParseUint s 0 32) as [un err] eqn:Hu.
  change (Z.shiftl 1 ((if 32 =? 0 then strconv.IntSize else 32) - 1)) with (2 ^ 31).
  unfold minInt32, maxInt32.
  destruct err as [[| | |]|]; try discriminate.
  - apply ParseUint_ErrRange in Hu. subst un.
    destruct neg; discriminate.
  - apply ParseUint_nonneg in Hu.
    destruct neg; cbn [negb andb]; rewrite ?Z.gtb_ltb, ?Z.geb_leb.
    + destruct (Z.ltb_spec (2 ^ 31) un); [discriminate|]. intros [= <-]. lia.
    + destruct (Z.leb_spec (2 ^ 31) un); [discriminate|]. intros [= <-]. lia.
Qed.

Example strconv_floats :
  strconv.ParseFloat "1.33" 64 = (S754_finite false 5989787504402760 (-52), None)
  /\ strconv.ParseFloat "0.1" 64 = (S754_finite false 7205759403792794 (-56), None)
  /\ strconv.ParseFloat "1" 64 = (S754_finite false 4503599627370496 (-52), None)
  /\ strconv.ParseFloat "1e23" 64 = (S754_finite false 5960464477539062 24, None)
  /\ strconv.ParseFloat "0x1p-2" 64 = (S754_finite false 4503599627370496 (-54), None)
  /\ strconv.ParseFloat "-Inf" 64 = (S754_infinity true, None)
  /\ strconv.ParseFloat "infinit" 64 = (S754_zero false, Some strconv.ErrSyntax)
  /\ strconv.ParseFloat "1e400" 64 = (S754_infinity false, Some strconv.ErrRange)
  /\ strconv.ParseFloat "1e39" 32 = (S754_infinity false, Some strconv.ErrRange)
  /\ strconv.ParseFloat "1e39" 10
     = (S754_finite false 6617444900424221 77, None)
  /\ strconv.ParseFloat "1_0.5" 64 = (S754_finite false 5910974510923776 (-49), None)
  /\ strconv.ParseFloat "1.5e" 64 = (S754_zero false, Some strconv.ErrSyntax)
  /\ strconv.ParseFloat ".5" 64 = (S754_finite false 4503599627370496 (-53), None)
  /\ strconv.ParseFloat "." 64 = (S754_zero false, Some strconv.ErrSyntax)
  /\ strconv.ParseFloat "" 64 = (S754_zero false, Some strconv.ErrSyntax)
  /\ strconv.ParseFloat "4.9e-324" 64 = (S754_finite false 1 (-1074), None)
  /\ strconv.ParseFloat "2e-324" 64 = (S754_zero false, None)
  /\ strconv.ParseFloat "1.7976931348623157e308" 64
     = (S754_finite false 9007199254740991 971, None)
  /\ goini.GetFloat loaded "gui settings" "scale factor" (S754_zero false)
     = S754_finite false 11156849 (-23).
Proof. vm_compute. repeat split. Qed.

(** ** The tokens of the scanner are the lines of the input *)

Lemma IndexByte_app (l x : string) (c : ascii) :
  bufio.IndexByte l c = None ->
  bufio.IndexByte (l +:+ String c x) c = Some (gostr.len l).
Proof.
  induction l as [|d l IH]; intros H.
  - change (bufio.IndexByte (String c x) c = Some 0).
    cbn [bufio.IndexByte]. rewrite Ascii.eqb_refl. reflexivity.
  - rewrite append_cons. cbn [bufio.IndexByte] in *.
    destruct (Ascii.eqb d c); [discriminate|].
    destruct (bufio.IndexByte l c); [discriminate|].
    rewrite IH by reflexivity. rewrite len_String. reflexivity.
Qed.

Lemma substring_0_app_lt (n : nat) (l x : string) (c : ascii) :
  (String.length l < n)%nat ->
  String.substring 0 n (l +:+ String c x)
  = l +:+ String c (String.substring 0 (n - S (String.length l)) x).
Proof.
  revert n. induction l as [|d l IH]; intros n H.
  - destruct n as [|n]; [cbn in H; lia|].
    rewrite !append_nil_l. cbn [String.substring String.length].
    f_equal. f_equal. lia.
  - destruct n as [|n]; [lia|]. rewrite !append_cons. cbn [String.substring].
    rewrite IH by (cbn in H; lia). reflexivity.
Qed.

Lemma Scan_line (l rest : string) :
  bufio.IndexByte l gostr.LF = None ->
  gostr.len l < bufio.MaxScanTokenSize ->
  bufio.Scan (bufio.NewScanner (l +:+ String gostr.LF rest))
  = Some (bufio.dropCR l, bufio.NewScanner rest).
Proof.
  intros Hl Hlen. unfold bufio.Scan. cbn [bufio.unread].
  rewrite substring_0_app_lt by (unfold gostr.len in Hlen; lia).
  set (x := String.substring 0 _ rest).
  unfold bufio.ScanLines.
  assert (Hne : (gostr.len (l +:+ String gostr.LF x) =? 0) = false).
  { apply Z.eqb_neq. unfold gostr.len. rewrite length_app. cbn. lia. }
  rewrite Hne, andb_false_r. rewrite (IndexByte_app l x _ Hl).
  replace (Z.to_nat (gostr.len l)) with (String.length l)
    by (unfold gostr.len; lia).
  rewrite substring_0_app.
  f_equal. f_equal. f_equal.
  replace (Z.to_nat (gostr.len l + 1)) with (String.length (l +:+ String gostr.LF ""))
    by (rewrite length_app; unfold gostr.len; cbn; lia).
  rewrite <- (append_single_assoc l rest gostr.LF).
  replace (String.length ((l +:+ String gostr.LF "") +:+ rest)
           - String.length (l +:+ String gostr.LF ""))%nat with (String.length rest)
    by (rewrite (length_app (l +:+ String gostr.LF "") rest); lia).
  apply substring_skip_app.
Qed.

Lemma tokens_go_S (fuel : nat) (s : bufio.Scanner) :
  bufio.tokens_go (S fuel) s
  = match bufio.Scan s with
    | None => []
    | Some (token, s') => token :: bufio.tokens_go fuel s'
    end.
Proof. reflexivity. Qed.

(** A line shorter than [MaxScanTokenSize] that ends with a line feed is
    the next token, without a carriage return at its end. *)
Lemma tokens_line (l rest : string) :
  bufio.IndexByte l gostr.LF = None ->
  gostr.len l < bufio.MaxScanTokenSize ->
  bufio.tokens (l +:+ String gostr.LF rest) = bufio.dropCR l :: bufio.tokens rest.
Proof.
  intros Hl Hlen. unfold bufio.tokens. rewrite tokens_go_S.
  rewrite (Scan_line l rest Hl Hlen). f_equal.
  apply tokens_go_fuel; cbn [bufio.unread]; rewrite ?length_app; cbn; lia.
Qed.

(** The last line needs no line feed. *)
Lemma tokens_last (l : string) :
  bufio.IndexByte l gostr.LF = None ->
  gostr.len l < bufio.MaxScanTokenSize ->
  l <> "" ->
  bufio.tokens l = [bufio.dropCR l].
Proof.
  intros Hl Hlen Hne. unfold bufio.tokens. rewrite tokens_go_S.
  unfold bufio.Scan. cbn [bufio.unread].
  rewrite substring_0_ge by (unfold gostr.len in Hlen; lia).
  apply Z.ltb_lt in Hlen. rewrite Hlen. unfold bufio.ScanLines.
  assert (H0 : (gostr.len l =? 0) = false).
  { apply Z.eqb_neq. destruct l; [congruence|]. rewrite len_String.
    pose proof (len_nonneg l). lia. }
  rewrite H0, Hl. cbn [andb].
  unfold gostr.len. rewrite Nat2Z.id, Nat.sub_diag.
  destruct (String.length l) eqn:E; [destruct l; [congruence|discriminate]|].
  replace (String.substring (S n) 0 l) with "".
  - destruct l; reflexivity.
  - symmetry. clear -E. revert n E. induction l as [|c l IH]; intros n E; [discriminate|].
    cbn in E. injection E as E. cbn [String.substring]. destruct n as [|n].
    + destruct l; [reflexivity|discriminate].
    + apply IH. exact E.
Qed.

(** ** The limit of the scanner *)

(** A line of [MaxScanTokenSize] bytes stops the scanner: the lines before
    it are delivered, the line and those after it are not. *)
Example scanner_stops_at_long_line :
  let long := gostr.replicate (Z.to_nat bufio.MaxScanTokenSize) "a"%char in
  let buffer := "k=v" +:+ gostr.nl +:+ long +:+ gostr.nl +:+ "z=1" in
  bufio.tokens buffer = ["k=v"]
  /\ goini.GetString (default goini.zeroIni (goini.LoadFromBytes goini.NewIni buffer))
       "" "z" "" = "".
Proof. vm_compute. split; reflexivity. Qed.

(** * Properties of the package *)

(** ** C3: a load replaces the store *)

(** C3.  For all byte sequences [A] and [B] and every instance,
    [LoadFromBytes(A)] followed by [LoadFromBytes(B)] leaves the store that
    [LoadFromBytes(B)] gives on a fresh instance, and the same buffer:
    nothing of [A] survives. *)
Theorem C3_load_replaces (i : goini.Ini) (A B : string) :
  exists iA iAB iB,
    goini.LoadFromBytes i A = Some iA
    /\ goini.LoadFromBytes iA B = Some iAB
    /\ goini.LoadFromBytes goini.NewIni B = Some iB
    /\ goini.sections iAB = goini.sections iB
    /\ goini.buffer iAB = goini.buffer iB.
Proof.
  do 3 eexists. rewrite !LoadFromBytes_parse. repeat split; reflexivity.
Qed.

(** ** C4: the empty section exists after a load *)

Lemma parse_empty_section (buffer : string) :
  is_Some (lines.parse buffer !! "").
Proof. unfold lines.parse. apply run_dom. apply init_current. Qed.

(** C4.  After [LoadFromBytes] of any buffer, the empty one included, and
    after a [LoadFromFile] whose read succeeds, [SectionExists("")] is true
    and every result of [GetSectionValues] holds [""]; such a result
    exists. *)
Theorem C4_empty_section_after_load (i : goini.Ini) (buffer : string) :
  exists i',
    goini.LoadFromBytes i buffer = Some i'
    /\ (forall (error : Type) (ReadFile : string -> string * option error) path,
           ReadFile path = (buffer, None) ->
           goini.LoadFromFile ReadFile i path = Some (i', None))
    /\ goini.SectionExists i' "" = true
    /\ (forall result, goini.GetSectionValues i' result -> "" ∈ result)
    /\ goini.GetSectionValues i' (goini.sectionNames i').
Proof.
  eexists. split; [apply LoadFromBytes_parse|].
  set (i' := goini.mkIni _ _ _).
  assert (Hs : goini.sections i' = lines.toSections (lines.parse buffer)) by reflexivity.
  split; [|split; [|split]].
  - intros error ReadFile path Hread. unfold goini.LoadFromFile.
    rewrite Hread, LoadFromBytes_parse. reflexivity.
  - apply (SectionExists_dom i' _ "" Hs). apply parse_empty_section.
  - intros result Hperm. unfold goini.GetSectionValues in Hperm.
    rewrite Hperm, (sectionNames_dom i' _ Hs).
    apply elem_of_elements, elem_of_dom, parse_empty_section.
  - unfold goini.GetSectionValues. reflexivity.
Qed.

Lemma C4_witness :
  goini.SectionExists (default goini.zeroIni (goini.LoadFromBytes goini.NewIni "")) ""
  = true
  /\ "" ∈ goini.sectionNames loaded.
Proof.
  split.
  - destruct (C4_empty_section_after_load goini.NewIni "") as (i' & Hl & _ & Hex & _).
    rewrite Hl. exact Hex.
  - destruct (C4_empty_section_after_load goini.NewIni content)
      as (i' & Hl & _ & _ & Hall & Hone).
    unfold loaded. rewrite Hl. apply Hall. exact Hone.
Defined.

(** ** C9: a failed read leaves the instance alone *)

Section LoadFromFile.

(** The environment: the error type of the platform and [os.ReadFile]. *)
Context {error : Type} (ReadFile : string -> string * option error).

(** C9.  If [LoadFromFile] returns an error, the instance is the one before
    the call; and it returns the error of the read whenever the read
    fails. *)
Theorem C9_failed_read_keeps_store (i i' : goini.Ini) (path : string) (e : error) :
  goini.LoadFromFile ReadFile i path = Some (i', Some e) ->
  i' = i
  /\ snd (ReadFile path) = Some e
  /\ (forall j, goini.LoadFromFile ReadFile j path = Some (j, Some e)).
Proof.
  unfold goini.LoadFromFile. destruct (ReadFile path) as [data [e0|]]; cbn [snd].
  - intros [= <- <-]. auto.
  - rewrite LoadFromBytes_parse. cbn [mbind option_bind]. discriminate.
Qed.

End LoadFromFile.

Lemma C9_witness :
  goini.LoadFromFile noFiles loaded "test.ini" = Some (loaded, Some ENOENT)
  /\ loaded = loaded
  /\ snd (noFiles "test.ini") = Some ENOENT
  /\ (forall j, goini.LoadFromFile noFiles j "test.ini" = Some (j, Some ENOENT)).
Proof.
  assert (H : goini.LoadFromFile noFiles loaded "test.ini"
              = Some (loaded, Some ENOENT)) by reflexivity.
  split; [exact H|].
  exact (C9_failed_read_keeps_store noFiles loaded loaded "test.ini" _ H).
Defined.

(** ** C1: an assignment is read back *)

(** The store after a load holds, for the key of an assignment line, an
    entry; it is the value of that line unless a later line assigns the key
    in the same section. *)
Lemma load_assignment (i : goini.Ini) (buffer : string) (pre post : list string)
      (raw k v : string) :
  bufio.tokens buffer = (pre ++ raw :: post)%list ->
  lines.classify raw = lines.Assignment k v ->
  exists i',
    goini.LoadFromBytes i buffer = Some i'
    /\ goini.KeyExists i' (lines.sectionAfter "" pre) k = true
    /\ (lines.assigns (lines.sectionAfter "" pre) post
          (lines.sectionAfter "" pre) k = false ->
        goini.getString i' (lines.sectionAfter "" pre) k = v).
Proof.
  intros Htok Hc. eexists. split; [apply LoadFromBytes_parse|].
  set (i' := goini.mkIni _ _ _).
  assert (Hs : goini.sections i' = lines.toSections (lines.parse buffer)) by reflexivity.
  destruct (run_entry_assigned pre post raw {[ "" := ∅ ]} "" k v init_current Hc)
    as [Hkept Hlast].
  unfold lines.parse in Hs. rewrite Htok in Hs. split.
  - apply (KeyExists_entry i' _ _ _ Hs). exact Hkept.
  - intros Ha. rewrite (getString_entry i' _ _ _ Hs), (Hlast Ha). reflexivity.
Qed.

Lemma GetString_empty_default (i : goini.Ini) (s k : string) :
  goini.GetString i s k "" = goini.getString i s k.
Proof.
  unfold goini.GetString.
  destruct (String.eqb_spec (goini.getString i s k) ""); congruence.
Qed.

(** C1, for the last assignment of a key.  Let the scanner deliver the line
    [raw] of the input, after the lines [pre] and before the lines [post],
    and let [raw] trimmed be [kpart=vpart] with no other ['='], not starting
    with ['#'], [';'] or ['['].  If none of the lines [post] assigns the
    trimmed key in the section current at [raw], then after [LoadFromBytes]
    [GetString] of that section and the trimmed key, with the default [""],
    is the trimmed value. *)
Theorem C1_last_assignment_is_read (i : goini.Ini) (buffer : string)
        (pre post : list string) (raw kpart vpart : string) :
  bufio.tokens buffer = (pre ++ raw :: post)%list ->
  gostrings.TrimSpace raw = kpart +:+ String "=" vpart ->
  gostrings.CountString kpart "=" = 0 ->
  gostrings.CountString vpart "=" = 0 ->
  String.get 0 (gostrings.TrimSpace raw) <> Some "#"%char ->
  String.get 0 (gostrings.TrimSpace raw) <> Some ";"%char ->
  String.get 0 (gostrings.TrimSpace raw) <> Some "["%char ->
  lines.assigns (lines.sectionAfter "" pre) post
    (lines.sectionAfter "" pre) (gostrings.TrimSpace kpart) = false ->
  exists i',
    goini.LoadFromBytes i buffer = Some i'
    /\ goini.GetString i' (lines.sectionAfter "" pre) (gostrings.TrimSpace kpart) ""
       = gostrings.TrimSpace vpart.
Proof.
  intros Htok Hline Hk Hv H1 H2 H3 Hlast.
  pose proof (classify_assignment raw kpart vpart Hline Hk Hv H1 H2 H3) as Hc.
  destruct (load_assignment i buffer pre post raw _ _ Htok Hc) as (i' & Hl & _ & Hget).
  exists i'. split; [exact Hl|].
  rewrite GetString_empty_default. apply Hget. exact Hlast.
Qed.

Lemma C1_witness :
  exists i',
    goini.LoadFromBytes goini.NewIni
      ("[s]" +:+ gostr.nl +:+ " k = v " +:+ gostr.nl +:+ "[t]" +:+ gostr.nl +:+ "k=w")
    = Some i'
    /\ goini.GetString i' "s" "k" "" = "v".
Proof.
  apply (C1_last_assignment_is_read goini.NewIni
           ("[s]" +:+ gostr.nl +:+ " k = v " +:+ gostr.nl +:+ "[t]" +:+ gostr.nl +:+ "k=w")
           ["[s]"] ["[t]"; "k=w"] " k = v " "k " " v");
    try (vm_compute; reflexivity); vm_compute; discriminate.
Defined.

(** Without the condition on the later lines the statement fails on the
    input of two lines [a=1] and [a=2]: the first line is a valid assignment
    in the empty section, and [GetString("", "a", "")] is ["2"]. *)
Lemma C1_counterexample :
  ~ (forall (i : goini.Ini) (buffer : string) (pre post : list string)
            (raw kpart vpart : string),
        bufio.tokens buffer = (pre ++ raw :: post)%list ->
        gostrings.TrimSpace raw = kpart +:+ String "=" vpart ->
        gostrings.CountString kpart "=" = 0 ->
        gostrings.CountString vpart "=" = 0 ->
        String.get 0 (gostrings.TrimSpace raw) <> Some "#"%char ->
        String.get 0 (gostrings.TrimSpace raw) <> Some ";"%char ->
        String.get 0 (gostrings.TrimSpace raw) <> Some "["%char ->
        exists i',
          goini.LoadFromBytes i buffer = Some i'
          /\ goini.GetString i' (lines.sectionAfter "" pre)
               (gostrings.TrimSpace kpart) ""
             = gostrings.TrimSpace vpart).
Proof.
  intros H.
  destruct (H goini.NewIni ("a=1" +:+ gostr.nl +:+ "a=2") [] ["a=2"] "a=1" "a" "1")
    as (i' & Hl & Hg);
    try (vm_compute; reflexivity); try (vm_compute; discriminate).
  rewrite LoadFromBytes_parse in Hl. injection Hl as <-.
  vm_compute in Hg. discriminate.
Qed.

(** ** C2: a line without exactly one ['='] adds nothing *)

(** C2.  A line which, once trimmed, does not hold exactly one ['='] and is
    not a section header line (it does not start with ['[']) leaves the
    instance and the current section as they are, whatever they are; and a
    load of an input in which the scanner delivers this line gives the same
    store as a load of an input with the same lines but this one. *)
Theorem C2_malformed_line_adds_nothing (raw : string) :
  gostrings.Count (gostrings.TrimSpace raw) "=" <> 1 ->
  String.get 0 (gostrings.TrimSpace raw) <> Some "["%char ->
  (forall st, goini.parseLine st raw = Some st)
  /\ (forall i buffer buffer' pre post,
         bufio.tokens buffer = (pre ++ raw :: post)%list ->
         bufio.tokens buffer' = (pre ++ post)%list ->
         exists i1 i2,
           goini.LoadFromBytes i buffer = Some i1
           /\ goini.LoadFromBytes i buffer' = Some i2
           /\ goini.sections i1 = goini.sections i2).
Proof.
  intros Hcount Hb. pose proof (classify_malformed raw Hcount Hb) as Hc. split.
  - intros st. apply parseLine_ignored. exact Hc.
  - intros i buffer buffer' pre post Htok Htok'.
    do 2 eexists. rewrite !LoadFromBytes_parse.
    split; [reflexivity|]. split; [reflexivity|].
    cbn [goini.sections]. f_equal. unfold lines.parse.
    rewrite Htok, Htok', !run_app, run_cons. f_equal. f_equal.
    destruct (lines.run _ pre) as [m cur]. unfold lines.step. rewrite Hc.
    reflexivity.
Qed.

Lemma C2_witness :
  (forall st, goini.parseLine st "a=b=c" = Some st)
  /\ (forall i buffer buffer' pre post,
         bufio.tokens buffer = (pre ++ "a=b=c" :: post)%list ->
         bufio.tokens buffer' = (pre ++ post)%list ->
         exists i1 i2,
           goini.LoadFromBytes i buffer = Some i1
           /\ goini.LoadFromBytes i buffer' = Some i2
           /\ goini.sections i1 = goini.sections i2).
Proof.
  apply (C2_malformed_line_adds_nothing "a=b=c"); vm_compute; discriminate.
Defined.

(** ** C5: a repeated header reopens its section *)

(** C5.  First, when the scanner delivers a header of [S] a second time,
    the instance before that line is the instance after it, and [S] is
    current: no key is lost; and every key that [S] holds at that line is
    still in the store after the load.  Second, of two assignments of one
    key in one section, the later one gives the value in the store after
    the load, unless a still later line assigns the key again. *)
Theorem C5_reopen_and_overwrite (i : goini.Ini) (buffer : string) :
  (forall pre mid post hdr1 hdr2 S,
      bufio.tokens buffer = (pre ++ hdr1 :: mid ++ hdr2 :: post)%list ->
      lines.classify hdr1 = lines.Header S ->
      lines.classify hdr2 = lines.Header S ->
      exists j cur i',
        lines.parseTokens (lines.entryState i buffer) (pre ++ hdr1 :: mid)
        = Some (j, cur)
        /\ goini.parseLine (j, cur) hdr2 = Some (j, S)
        /\ goini.LoadFromBytes i buffer = Some i'
        /\ (forall k, goini.KeyExists j S k = true ->
                      goini.KeyExists i' S k = true))
  /\ (forall pre mid post raw1 raw2 k v1 v2,
         bufio.tokens buffer = (pre ++ raw1 :: mid ++ raw2 :: post)%list ->
         lines.classify raw1 = lines.Assignment k v1 ->
         lines.classify raw2 = lines.Assignment k v2 ->
         lines.sectionAfter "" (pre ++ raw1 :: mid) = lines.sectionAfter "" pre ->
         lines.assigns (lines.sectionAfter "" pre) post
           (lines.sectionAfter "" pre) k = false ->
         exists i',
           goini.LoadFromBytes i buffer = Some i'
           /\ goini.KeyExists i' (lines.sectionAfter "" pre) k = true
           /\ goini.getString i' (lines.sectionAfter "" pre) k = v2).
Proof.
  split.
  - intros pre mid post hdr1 hdr2 S Htok H1 H2.
    destruct (entryState_run i buffer (pre ++ hdr1 :: mid)) as (j & Hp & Hs).
    exists j, (lines.sectionAfter "" (pre ++ hdr1 :: mid)).
    eexists. split; [exact Hp|]. split; [|split; [apply LoadFromBytes_parse|]].
    + apply parseLine_reopen; [exact H2|].
      apply (SectionExists_dom j _ S Hs).
      rewrite run_app, run_cons.
      destruct (lines.run _ pre) as [m0 c0].
      assert (Hin : is_Some (fst (lines.step (m0, c0) hdr1) !! S)).
      { unfold lines.step. rewrite H1.
        destruct (m0 !! S) eqn:E; cbn [fst]; [rewrite E; eauto|].
        rewrite lookup_insert_eq. eauto. }
      destruct (lines.step (m0, c0) hdr1) as [m1 c1]. apply run_dom. exact Hin.
    + intros k Hk.
      set (i' := goini.mkIni _ _ _).
      assert (Hs' : goini.sections i' = lines.toSections (lines.parse buffer))
        by reflexivity.
      apply (KeyExists_entry i' _ S k Hs').
      apply (KeyExists_entry j _ S k Hs) in Hk.
      unfold lines.parse. rewrite Htok.
      replace (pre ++ hdr1 :: mid ++ hdr2 :: post)%list
        with ((pre ++ hdr1 :: mid) ++ hdr2 :: post)%list
        by (rewrite <- app_assoc; reflexivity).
      rewrite run_app.
      pose proof (run_current (pre ++ hdr1 :: mid) {[ "" := ∅ ]} "" init_current) as Hc.
      destruct (lines.run _ (pre ++ hdr1 :: mid)) as [m1 c1].
      apply run_entry_kept; assumption.
  - intros pre mid post raw1 raw2 k v1 v2 Htok H1 H2 Hsec Hlast.
    replace (pre ++ raw1 :: mid ++ raw2 :: post)%list
      with ((pre ++ raw1 :: mid) ++ raw2 :: post)%list in Htok
      by (rewrite <- app_assoc; reflexivity).
    destruct (load_assignment i buffer _ post raw2 k v2 Htok H2)
      as (i' & Hl & Hex & Hget).
    rewrite Hsec in Hex, Hget. exists i'. auto.
Qed.

Lemma C5_witness :
  (exists j cur i',
      lines.parseTokens (lines.entryState goini.NewIni reopened)
        ["[s]"; "a=1"; "b=2"; "[t]"] = Some (j, cur)
      /\ goini.parseLine (j, cur) "[s]" = Some (j, "s")
      /\ goini.LoadFromBytes goini.NewIni reopened = Some i'
      /\ (forall k, goini.KeyExists j "s" k = true -> goini.KeyExists i' "s" k = true))
  /\ (exists i',
         goini.LoadFromBytes goini.NewIni reopened = Some i'
         /\ goini.KeyExists i' "s" "a" = true
         /\ goini.getString i' "s" "a" = "3").
Proof.
  destruct (C5_reopen_and_overwrite goini.NewIni reopened) as [Hreopen Hover].
  split.
  - apply (Hreopen [] ["a=1"; "b=2"; "[t]"] ["a=3"] "[s]" "[s]" "s");
      vm_compute; reflexivity.
  - apply (Hover ["[s]"] ["b=2"; "[t]"; "[s]"] [] "a=1" "a=3" "a" "1" "3");
      vm_compute; reflexivity.
Defined.

(** ** C7: the list getter *)

Lemma fillDefaults_spec (def : string) (n i : nat) (result : list string) :
  n = (length result - i)%nat ->
  goini.fillDefaults n i result def
  = (take i result
     ++ map (fun e => if String.eqb e "" then def else e) (drop i result))%list.
Proof.
  revert i result. induction n as [|n IH]; intros i result Hn.
  - cbn [goini.fillDefaults]. rewrite drop_ge by lia. cbn [map].
    rewrite app_nil_r. destruct (decide (i <= length result)%nat).
    + rewrite take_ge by lia. reflexivity.
    + rewrite take_ge by lia. reflexivity.
  - cbn [goini.fillDefaults].
    destruct (lookup_lt_is_Some_2 result i) as [e He]; [lia|]. rewrite He.
    rewrite (drop_S result e i He). cbn [map].
    destruct (String.eqb e "") eqn:Hempty.
    + rewrite IH by (rewrite length_insert; lia).
      rewrite (take_S_r (<[i:=def]> result) i def)
        by (apply list_lookup_insert_eq; lia).
      rewrite take_insert_ge by lia. rewrite drop_insert_lt by lia.
      rewrite <- app_assoc. reflexivity.
    + rewrite IH by lia. rewrite (take_S_r result i e He).
      rewrite <- app_assoc. reflexivity.
Qed.

(** C7.  [GetStringSlice] splits the raw string of the key on the
    separator.  With the empty separator, or when the split gives no
    element, the result is the split as it is; otherwise it is the split in
    which every empty element is replaced by the default and the other
    elements are kept. *)
Theorem C7_GetStringSlice (i : goini.Ini) (section key def sep : string) :
  (sep = "" \/ gostrings.Split (goini.getString i section key) sep = [] ->
   goini.GetStringSlice i section key def sep
   = gostrings.Split (goini.getString i section key) sep)
  /\ (sep <> "" ->
      gostrings.Split (goini.getString i section key) sep <> [] ->
      goini.GetStringSlice i section key def sep
      = map (fun e => if String.eqb e "" then def else e)
          (gostrings.Split (goini.getString i section key) sep)).
Proof.
  unfold goini.GetStringSlice.
  set (result := gostrings.Split (goini.getString i section key) sep).
  split.
  - intros [-> | ->]; [reflexivity|].
    destruct (String.eqb sep ""); reflexivity.
  - intros Hsep Hne. apply String.eqb_neq in Hsep. rewrite Hsep.
    destruct result as [|e result'] eqn:E; [congruence|].
    rewrite <- E.
    replace (Z.of_nat (length result) =? 0) with false
      by (symmetry; apply Z.eqb_neq; rewrite E; cbn [length]; lia).
    cbn [orb]. rewrite fillDefaults_spec by lia.
    rewrite take_0, drop_0. reflexivity.
Qed.

Lemma C7_witness :
  goini.GetStringSlice loaded "gui settings" "valid themes" "NULL" ""
  = gostrings.Split (goini.getString loaded "gui settings" "valid themes") ""
  /\ goini.GetStringSlice
       (default goini.zeroIni (goini.LoadFromBytes goini.NewIni "key=v1,v2,,v4"))
       "" "key" "NULL" ","
     = ["v1"; "v2"; "NULL"; "v4"].
Proof.
  split.
  - apply (proj1 (C7_GetStringSlice loaded "gui settings" "valid themes" "NULL" "")).
    left. reflexivity.
  - rewrite (proj2 (C7_GetStringSlice
                      (default goini.zeroIni
                         (goini.LoadFromBytes goini.NewIni "key=v1,v2,,v4"))
                      "" "key" "NULL" ","));
      vm_compute; [reflexivity|discriminate|discriminate].
Defined.

(** ** C8: the integer getter *)

(** C8.  [GetInt] gives the default when [ParseInt] of the raw string, with
    base 0 and 32 bits, fails, as it does on the empty string, and the
    parsed number otherwise, which fits 32 bits.  On a literal of the
    specification (a sign, then [0x] and hexadecimal digits, [0] and octal
    digits, or decimal digits) it gives the value of the literal when that
    fits 32 bits, and the default when it does not.  After a load in which
    the line [accent color= 0xff00ff] is the last to assign its key in the
    section [theme], [GetInt("theme", "accent color", 1000)] is 16711935. *)
Theorem C8_GetInt (i : goini.Ini) (section key : string) (def : Z) :
  (forall v e, strconv.ParseInt (goini.getString i section key) 0 32 = (v, Some e) ->
               goini.GetInt i section key def = def)
  /\ (forall v, strconv.ParseInt (goini.getString i section key) 0 32 = (v, None) ->
                goini.GetInt i section key def = v /\ minInt32 <= v <= maxInt32)
  /\ (goini.getString i section key = "" -> goini.GetInt i section key def = def)
  /\ (forall n, literal.signed (goini.getString i section key) = Some n ->
                goini.GetInt i section key def
                = if (minInt32 <=? n) && (n <=? maxInt32) then n else def)
  /\ (forall buffer pre post,
         bufio.tokens buffer = (pre ++ "accent color= 0xff00ff" :: post)%list ->
         lines.sectionAfter "" pre = "theme" ->
         lines.assigns "theme" post "theme" "accent color" = false ->
         exists i',
           goini.LoadFromBytes i buffer = Some i'
           /\ goini.GetInt i' "theme" "accent color" 1000 = 16711935).
Proof.
  unfold goini.GetInt. split; [|split; [|split; [|split]]].
  - intros v e H. rewrite H. reflexivity.
  - intros v H. rewrite H. split; [reflexivity|]. apply ParseInt_range in H. exact H.
  - intros ->. reflexivity.
  - intros n Hn. rewrite (ParseInt_signed _ n Hn).
    destruct ((minInt32 <=? n) && (n <=? maxInt32)); reflexivity.
  - intros buffer pre post Htok Hsec Hlast.
    destruct (load_assignment i buffer pre post "accent color= 0xff00ff"
                "accent color" "0xff00ff" Htok) as (i' & Hl & _ & Hget).
    { vm_compute. reflexivity. }
    exists i'. split; [exact Hl|].
    rewrite Hsec in Hget. rewrite (Hget Hlast). vm_compute. reflexivity.
Qed.

Lemma C8_witness :
  goini.GetInt loaded "theme" "accent color" 1000 = 16711935
  /\ goini.GetInt loaded "gui settings" "width" 7 = 1920
  /\ goini.GetInt loaded "gui settings" "scale factor" 7 = 7
  /\ goini.GetInt loaded "gui settings" "no such key" 7 = 7.
Proof.
  destruct (C8_GetInt goini.NewIni "theme" "accent color" 1000)
    as (_ & _ & _ & _ & Hload).
  destruct (Hload content
              (firstn 16 (bufio.tokens content)) (skipn 17 (bufio.tokens content)))
    as (i' & Hl & Hget); try (vm_compute; reflexivity).
  split.
  - unfold loaded. rewrite Hl. exact Hget.
  - destruct (C8_GetInt loaded "gui settings" "width" 7) as (_ & _ & _ & Hlit & _).
    destruct (C8_GetInt loaded "gui settings" "scale factor" 7) as (Herr & _).
    destruct (C8_GetInt loaded "gui settings" "no such key" 7) as (_ & _ & Hempty & _).
    split; [|split].
    + rewrite (Hlit 1920); vm_compute; reflexivity.
    + apply (Herr 0 strconv.ErrSyntax). vm_compute. reflexivity.
    + apply Hempty. vm_compute. reflexivity.
Defined.

(** ** C10: a fresh instance *)

Lemma getString_NewIni (section key : string) :
  goini.getString goini.NewIni section key = "".
Proof.
  unfold goini.getString, goini.section_of, goini.NewIni, goini.clear, gomap.get.
  cbn [goini.sections gomap.make]. rewrite lookup_empty. reflexivity.
Qed.

(** C10.  On the instance that [NewIni] returns, before any load: the empty
    section does not exist and [GetSectionValues] returns the empty
    sequence and nothing else; [KeyExists] is false for every section and
    key, and [GetInt], [GetUint], [GetFloat], [GetBool] and [GetString]
    return their default.  All of these are total functions of the
    instance: the read of a missing section is the zero [KeyValue], whose
    nil map is read without a panic.  [GetStringSlice] returns the default
    as the one element of the list for a separator that is not empty, and
    the empty list for the empty separator. *)
Theorem C10_fresh_instance (section key : string) :
  goini.SectionExists goini.NewIni "" = false
  /\ (forall result, goini.GetSectionValues goini.NewIni result <-> result = [])
  /\ goini.KeyExists goini.NewIni section key = false
  /\ (forall def, goini.GetInt goini.NewIni section key def = def)
  /\ (forall def, goini.GetUint goini.NewIni section key def = def)
  /\ (forall def, goini.GetFloat goini.NewIni section key def = def)
  /\ (forall def, goini.GetBool goini.NewIni section key def = def)
  /\ (forall def, goini.GetString goini.NewIni section key def = def)
  /\ (forall def sep, sep <> "" ->
                      goini.GetStringSlice goini.NewIni section key def sep = [def])
  /\ (forall def, goini.GetStringSlice goini.NewIni section key def "" = []).
Proof.
  split; [reflexivity|]. split.
  { intros result. unfold goini.GetSectionValues.
    change (goini.sectionNames goini.NewIni) with (elements (∅ : gset string)).
    rewrite elements_empty. split.
    - intros H. apply Permutation_nil_r. exact H.
    - intros ->. reflexivity. }
  split.
  { unfold goini.KeyExists, goini.section_of, goini.NewIni, goini.clear, gomap.get.
    cbn [goini.sections gomap.make]. rewrite lookup_empty. reflexivity. }
  unfold goini.GetInt, goini.GetUint, goini.GetFloat, goini.GetBool,
    goini.GetString, goini.GetStringSlice.
  rewrite getString_NewIni.
  repeat split; try reflexivity.
  intros def sep Hsep. apply String.eqb_neq in Hsep. rewrite Hsep.
  assert (Hsplit : gostrings.Split "" sep = [""]).
  { unfold gostrings.Split. rewrite Hsep.
    destruct sep as [|c sep]; [discriminate|].
    assert (Hcount : gostrings.Count "" (String c sep) = 0)
      by (destruct sep; reflexivity).
    rewrite Hcount. reflexivity. }
  rewrite Hsplit. reflexivity.
Qed.

Lemma C10_witness :
  goini.GetStringSlice goini.NewIni "theme" "accent color" "NULL" "," = ["NULL"]
  /\ goini.GetFloat goini.NewIni "gui settings" "scale factor" float32_2_5 = float32_2_5.
Proof.
  destruct (C10_fresh_instance "theme" "accent color")
    as (_ & _ & _ & _ & _ & _ & _ & _ & Hslice & _).
  destruct (C10_fresh_instance "gui settings" "scale factor")
    as (_ & _ & _ & _ & _ & Hfloat & _).
  split; [apply Hslice; discriminate|apply Hfloat].
Defined.

(** ** C6: the float getter *)

(** C6.  [GetFloat] passes the bit size 10 to [ParseFloat], which parses at
    64 bits for every bit size but 32, and converts the result to
    [float32].  After a load of the line [x=1e39], a parse of the raw string
    at 32 bits fails with [ErrRange], but [GetFloat] returns the infinity,
    whatever the default, and not the default 2.5.  After a load of the line
    [y=1.00000005960464477539063], the nearest [float32] is the successor of
    1, which a parse at 32 bits returns, but [GetFloat] returns 1: the
    nearest [float64] is half way between the two. *)
Theorem C6_GetFloat_passes_bitSize_10 :
  goini.getString overflowing "" "x" = "1e39"
  /\ strconv.ParseFloat "1e39" 32 = (S754_infinity false, Some strconv.ErrRange)
  /\ strconv.ParseFloat "1e39" 10 = (S754_finite false 6617444900424221 77, None)
  /\ (forall def, goini.GetFloat overflowing "" "x" def = S754_infinity false)
  /\ goini.GetFloat overflowing "" "x" float32_2_5 <> float32_2_5
  /\ goini.getString halfway "" "y" = "1.00000005960464477539063"
  /\ (exists f, strconv.ParseFloat "1.00000005960464477539063" 32 = (f, None)
                /\ strconv.toFloat32 f = S754_finite false 8388609 (-23))
  /\ (forall def, goini.GetFloat halfway "" "y" def = S754_finite false 8388608 (-23)).
Proof.
  assert (Hraw : goini.getString overflowing "" "x" = "1e39")
    by (vm_compute; reflexivity).
  assert (H10 : strconv.ParseFloat "1e39" 10
                = (S754_finite false 6617444900424221 77, None))
    by (vm_compute; reflexivity).
  assert (Hget : forall def, goini.GetFloat overflowing "" "x" def = S754_infinity false).
  { intros def. unfold goini.GetFloat. rewrite Hraw, H10. vm_compute. reflexivity. }
  assert (Hraw' : goini.getString halfway "" "y" = "1.00000005960464477539063")
    by (vm_compute; reflexivity).
  split; [exact Hraw|]. split; [vm_compute; reflexivity|]. split; [exact H10|].
  split; [exact Hget|]. split; [rewrite Hget; discriminate|].
  split; [exact Hraw'|]. split.
  - eexists. split; vm_compute; reflexivity.
  - intros def. unfold goini.GetFloat. rewrite Hraw'. vm_compute. reflexivity.
Qed.

(** * More properties of the package *)

(** ** Loads never fail *)

(** X1.  [LoadFromBytes] returns an instance for every instance it is
    called on, the zero [Ini] included, and for every buffer: no panic and
    no loop without end.  The instance holds the buffer, keeps its file
    name, and every section in it has an allocated map. *)
Theorem X1_LoadFromBytes_returns (i : goini.Ini) (buffer : string) :
  exists i',
    goini.LoadFromBytes i buffer = Some i'
    /\ goini.buffer i' = buffer
    /\ goini.fileName i' = goini.fileName i
    /\ (forall s, goini.SectionExists i' s = true ->
                  goini.Item (goini.section_of i' s) <> gomap.nil).
Proof.
  eexists. split; [apply LoadFromBytes_parse|].
  split; [reflexivity|]. split; [reflexivity|].
  intros s Hs.
  set (i' := goini.mkIni _ _ _) in *.
  assert (H : goini.sections i' = lines.toSections (lines.parse buffer)) by reflexivity.
  apply (SectionExists_dom i' _ s H) in Hs. destruct Hs as [tbl Htbl].
  rewrite (section_of_toSections i' _ s H), Htbl. discriminate.
Qed.

(** ** The enumeration of the sections *)

(** X2.  For every instance, a result of [GetSectionValues] has no name
    twice, and holds exactly the names for which [SectionExists] is true;
    the section of every key that [KeyExists] finds is among them. *)
Theorem X2_GetSectionValues_SectionExists (i : goini.Ini) (result : list string) :
  goini.GetSectionValues i result ->
  NoDup result
  /\ (forall s, s ∈ result <-> goini.SectionExists i s = true)
  /\ (forall s k, goini.KeyExists i s k = true -> s ∈ result).
Proof.
  unfold goini.GetSectionValues, goini.sectionNames. intros Hperm.
  assert (Hin : forall s, s ∈ result <-> goini.SectionExists i s = true).
  { intros s. rewrite Hperm, elem_of_elements.
    unfold goini.SectionExists, gomap.keys, gomap.get.
    destruct (goini.sections i) as [g|].
    - rewrite elem_of_dom. destruct (g !! s); split; intros H; eauto; try discriminate.
      destruct H as [? ?]; discriminate.
    - rewrite elem_of_empty. split; [tauto|discriminate]. }
  split; [rewrite Hperm; apply NoDup_elements|]. split; [exact Hin|].
  intros s k Hk. apply Hin. unfold goini.KeyExists, goini.SectionExists in *.
  unfold goini.section_of in Hk.
  destruct (gomap.get (goini.sections i) s); [reflexivity|discriminate].
Qed.

Lemma X2_witness :
  NoDup (goini.sectionNames loaded)
  /\ (forall s, s ∈ goini.sectionNames loaded <-> goini.SectionExists loaded s = true)
  /\ (forall s k, goini.KeyExists loaded s k = true -> s ∈ goini.sectionNames loaded).
Proof.
  apply (X2_GetSectionValues_SectionExists loaded (goini.sectionNames loaded)).
  unfold goini.GetSectionValues. reflexivity.
Defined.

(** ** A key that is absent *)

Lemma getString_absent (i : goini.Ini) (section key : string) :
  goini.KeyExists i section key = false -> goini.getString i section key = "".
Proof.
  unfold goini.KeyExists, goini.getString.
  destruct (gomap.get _ key); [discriminate|reflexivity].
Qed.

Lemma Split_empty (sep : string) : sep <> "" -> gostrings.Split "" sep = [""].
Proof.
  intros Hsep. unfold gostrings.Split. apply String.eqb_neq in Hsep. rewrite Hsep.
  destruct sep as [|c sep]; [discriminate|].
  assert (Hcount : gostrings.Count "" (String c sep) = 0) by (destruct sep; reflexivity).
  rewrite Hcount. reflexivity.
Qed.

(** X3.  On every instance, loaded or not, a key that [KeyExists] does not
    find, in a section that exists or not, makes [GetInt], [GetUint],
    [GetFloat], [GetBool] and [GetString] return their default, and
    [GetStringSlice] the list of the default alone when the separator is not
    empty. *)
Theorem X3_absent_key_gives_default (i : goini.Ini) (section key : string) :
  goini.KeyExists i section key = false ->
  (forall def, goini.GetInt i section key def = def)
  /\ (forall def, goini.GetUint i section key def = def)
  /\ (forall def, goini.GetFloat i section key def = def)
  /\ (forall def, goini.GetBool i section key def = def)
  /\ (forall def, goini.GetString i section key def = def)
  /\ (forall def sep, sep <> "" ->
                      goini.GetStringSlice i section key def sep = [def]).
Proof.
  intros Habsent. apply getString_absent in Habsent.
  unfold goini.GetInt, goini.GetUint, goini.GetFloat, goini.GetBool,
    goini.GetString, goini.GetStringSlice.
  rewrite Habsent. repeat split; try reflexivity.
  intros def sep Hsep. rewrite (Split_empty sep Hsep).
  apply String.eqb_neq in Hsep. rewrite Hsep. reflexivity.
Qed.

Lemma X3_witness :
  (forall def, goini.GetInt loaded "theme" "width" def = def)
  /\ (forall def, goini.GetUint loaded "theme" "width" def = def)
  /\ (forall def, goini.GetFloat loaded "theme" "width" def = def)
  /\ (forall def, goini.GetBool loaded "theme" "width" def = def)
  /\ (forall def, goini.GetString loaded "theme" "width" def = def)
  /\ (forall def sep, sep <> "" ->
                      goini.GetStringSlice loaded "theme" "width" def sep = [def]).
Proof.
  apply (X3_absent_key_gives_default loaded "theme" "width").
  vm_compute. reflexivity.
Defined.

(** ** Keys and sections come from the lines, and from nothing else *)

Lemma assigns_split (toks : list string) (cur s k : string) :
  lines.assigns cur toks s k = true ->
  exists pre t post v,
    toks = (pre ++ t :: post)%list
    /\ lines.classify t = lines.Assignment k v
    /\ lines.sectionAfter cur pre = s.
Proof.
  revert cur. induction toks as [|t toks IH]; intros cur; cbn [lines.assigns];
    [discriminate|].
  destruct (lines.classify t) as [|n|k' v] eqn:Hc.
  - intros H. destruct (IH cur H) as (pre & t' & post & v' & -> & Hc' & Hs).
    exists (t :: pre), t', post, v'. cbn [lines.sectionAfter]. rewrite Hc. auto.
  - intros H. destruct (IH n H) as (pre & t' & post & v' & -> & Hc' & Hs).
    exists (t :: pre), t', post, v'. cbn [lines.sectionAfter]. rewrite Hc. auto.
  - intros H. apply orb_true_iff in H as [H|H].
    + apply andb_true_iff in H as [H1 H2].
      apply String.eqb_eq in H1. apply String.eqb_eq in H2. subst.
      exists [], t, toks, v. auto.
    + destruct (IH cur H) as (pre & t' & post & v' & -> & Hc' & Hs).
      exists (t :: pre), t', post, v'. cbn [lines.sectionAfter]. rewrite Hc. auto.
Qed.

(** X4.  After a load, [KeyExists] finds a key in a section exactly when
    one of the lines that the scanner delivered assigns that key while that
    section is current: the loader invents no key, and loses none. *)
Theorem X4_KeyExists_iff_assigned (i : goini.Ini) (buffer section key : string) :
  exists i',
    goini.LoadFromBytes i buffer = Some i'
    /\ goini.KeyExists i' section key
       = lines.assigns "" (bufio.tokens buffer) section key.
Proof.
  eexists. split; [apply LoadFromBytes_parse|].
  set (i' := goini.mkIni _ _ _).
  assert (Hs : goini.sections i' = lines.toSections (lines.parse buffer)) by reflexivity.
  pose proof (KeyExists_entry i' _ section key Hs) as Hiff. unfold lines.parse in Hiff.
  destruct (lines.assigns "" (bufio.tokens buffer) section key) eqn:Ha.
  - apply Hiff. apply assigns_split in Ha as (pre & t & post & v & Htok & Hc & Hsec).
    rewrite Htok, <- Hsec.
    apply (run_entry_assigned pre post t {[ "" := ∅ ]} "" key v init_current Hc).
  - destruct (goini.KeyExists i' section key); [|reflexivity].
    destruct Hiff as [Hk _]. specialize (Hk eq_refl).
    rewrite (run_entry_unassigned _ _ _ _ _ init_current Ha) in Hk.
    unfold lines.entry in Hk.
    destruct (decide (section = "")) as [->|Hne].
    + rewrite lookup_singleton_eq in Hk. cbn in Hk. rewrite lookup_empty in Hk.
      destruct Hk as [? ?]. discriminate.
    + rewrite lookup_singleton_ne in Hk by congruence. destruct Hk as [? ?].
      discriminate.
Qed.

Lemma step_dom_iff (m : lines.Store) (cur t s : string) :
  is_Some (m !! cur) ->
  is_Some (fst (lines.step (m, cur) t) !! s)
  <-> is_Some (m !! s) \/ lines.classify t = lines.Header s.
Proof.
  intros Hcur. unfold lines.step.
  destruct (lines.classify t) as [|n|k v]; cbn [fst].
  - split; [auto|]. intros [H|H]; [exact H|discriminate].
  - destruct (m !! n) eqn:E; cbn [fst].
    + split; [auto|]. intros [H|H]; [exact H|]. injection H as ->. rewrite E. eauto.
    + destruct (decide (n = s)) as [->|Hne].
      * rewrite lookup_insert_eq. split; eauto.
      * rewrite lookup_insert_ne by exact Hne. split; [auto|].
        intros [H|H]; [exact H|congruence].
  - destruct (decide (cur = s)) as [->|Hne].
    + rewrite lookup_insert_eq. split; [auto|]. eauto.
    + rewrite lookup_insert_ne by exact Hne. split; [auto|].
      intros [H|H]; [exact H|discriminate].
Qed.

Lemma run_dom_iff (toks : list string) (m : lines.Store) (cur s : string) :
  is_Some (m !! cur) ->
  is_Some (fst (lines.run (m, cur) toks) !! s)
  <-> is_Some (m !! s) \/ text.opens toks s = true.
Proof.
  revert m cur. induction toks as [|t toks IH]; intros m cur Hcur.
  - cbn. split; [auto|]. intros [H|H]; [exact H|discriminate].
  - rewrite run_cons.
    pose proof (step_current m cur t Hcur) as H1.
    pose proof (step_dom_iff m cur t s Hcur) as Hstep.
    destruct (lines.step (m, cur) t) as [m1 cur1]. cbn [fst snd] in *.
    rewrite (IH m1 cur1 H1), Hstep. cbn [text.opens].
    destruct (lines.classify t) as [|n|k v].
    + split; [intros [[H|H]|H]|intros [H|H]]; auto; discriminate.
    + destruct (String.eqb_spec n s) as [->|Hne]; cbn [orb].
      * split; auto.
      * split; [intros [[H|H]|H]|intros [H|H]]; auto; congruence.
    + split; [intros [[H|H]|H]|intros [H|H]]; auto; discriminate.
Qed.

(** X5.  After a load, a section exists exactly when it is the empty
    section or one of the lines that the scanner delivered is a header of
    it: an assignment never makes a section. *)
Theorem X5_SectionExists_iff_opened (i : goini.Ini) (buffer section : string) :
  exists i',
    goini.LoadFromBytes i buffer = Some i'
    /\ (goini.SectionExists i' section = true
        <-> section = "" \/ text.opens (bufio.tokens buffer) section = true).
Proof.
  eexists. split; [apply LoadFromBytes_parse|].
  set (i' := goini.mkIni _ _ _).
  assert (Hs : goini.sections i' = lines.toSections (lines.parse buffer)) by reflexivity.
  rewrite (SectionExists_dom i' _ section Hs). unfold lines.parse.
  rewrite (run_dom_iff _ _ _ section init_current).
  destruct (decide (section = "")) as [->|Hne].
  - rewrite lookup_singleton_eq. split; eauto.
  - rewrite lookup_singleton_ne by congruence.
    split; (intros [H|H]; [|auto]); [destruct H as [? ?]; discriminate|congruence].
Qed.

(** ** [GetString] and the empty value *)

(** X6.  [GetString] returns the empty string only when the default is
    empty.  A key whose line has nothing after the ['='], when that line is
    the last to assign the key in its section, exists for [KeyExists], yet
    [GetString] returns the default for it, as for an absent key. *)
Theorem X6_GetString_empty_value (i : goini.Ini) (buffer : string)
        (pre post : list string) (raw kpart : string) :
  bufio.tokens buffer = (pre ++ raw :: post)%list ->
  gostrings.TrimSpace raw = kpart +:+ "=" ->
  gostrings.CountString kpart "=" = 0 ->
  String.get 0 (gostrings.TrimSpace raw) <> Some "#"%char ->
  String.get 0 (gostrings.TrimSpace raw) <> Some ";"%char ->
  String.get 0 (gostrings.TrimSpace raw) <> Some "["%char ->
  lines.assigns (lines.sectionAfter "" pre) post
    (lines.sectionAfter "" pre) (gostrings.TrimSpace kpart) = false ->
  (forall j s k def, def <> "" -> goini.GetString j s k def <> "")
  /\ exists i',
      goini.LoadFromBytes i buffer = Some i'
      /\ goini.KeyExists i' (lines.sectionAfter "" pre) (gostrings.TrimSpace kpart)
         = true
      /\ (forall def,
             goini.GetString i' (lines.sectionAfter "" pre)
               (gostrings.TrimSpace kpart) def = def).
Proof.
  intros Htok Hline Hk H1 H2 H3 Hlast. split.
  { intros j s k def Hdef. unfold goini.GetString.
    destruct (String.eqb_spec (goini.getString j s k) ""); assumption. }
  pose proof (classify_assignment raw kpart "" Hline Hk eq_refl H1 H2 H3) as Hc.
  change (gostrings.TrimSpace "") with "" in Hc.
  destruct (load_assignment i buffer pre post raw _ _ Htok Hc) as (i' & Hl & Hex & Hget).
  exists i'. split; [exact Hl|]. split; [exact Hex|].
  intros def. unfold goini.GetString. rewrite (Hget Hlast). reflexivity.
Qed.

Lemma X6_witness :
  (forall j s k def, def <> "" -> goini.GetString j s k def <> "")
  /\ exists i',
      goini.LoadFromBytes goini.NewIni ("[s]" +:+ gostr.nl +:+ "name =  ") = Some i'
      /\ goini.KeyExists i' "s" "name" = true
      /\ (forall def, goini.GetString i' "s" "name" def = def).
Proof.
  apply (X6_GetString_empty_value goini.NewIni
           ("[s]" +:+ gostr.nl +:+ "name =  ") ["[s]"] [] "name =  " "name ");
    try (vm_compute; reflexivity); vm_compute; discriminate.
Defined.

(** ** The unsigned getter *)

Lemma ParseUint_go_le (s : string) (base : Z) (base0 : bool)
      (cutoff maxVal n : Z) (us us' : bool) (v : Z) :
  n <= maxVal ->
  strconv.ParseUint_go s base base0 cutoff maxVal n us = inl (v, us') ->
  v <= maxVal.
Proof.
  revert n us. induction s as [|c s IH]; intros n us Hn; cbn [strconv.ParseUint_go].
  - intros [= <- _]. exact Hn.
  - destruct ((gostr.byte c =? 95) && base0); [apply IH; exact Hn|].
    destruct (strconv.digitOf (gostr.byte c)) as [d|]; [|discriminate].
    destruct (d >=? base); [discriminate|].
    destruct (n >=? cutoff); [discriminate|].
    destruct (_ <? _) eqn:E1; [discriminate|]. cbn [orb].
    rewrite Z.gtb_ltb.
    destruct (Z.ltb_spec maxVal ((n * base mod 2 ^ 64 + d) mod 2 ^ 64)); [discriminate|].
    apply IH. assumption.
Qed.

Lemma ParseUint_range (s : string) (v : Z) :
  strconv.ParseUint s 0 32 = (v, None) -> 0 <= v <= maxUint32.
Proof.
  intros H. split; [exact (ParseUint_nonneg s v H)|]. revert H.
  unfold strconv.ParseUint.
  destruct (String.eqb s ""); [discriminate|].
  replace ((2 <=? 0) && (0 <=? 36)) with false by reflexivity.
  replace (0 =? 0) with true by reflexivity.
  destruct (strconv.basePrefix s) as [base ds].
  replace ((32 <? 0) || (32 >? 64)) with false by reflexivity.
  replace (((Z.shiftl 1 (if 32 =? 0 then strconv.IntSize else 32)) mod 2 ^ 64 - 1)
             mod 2 ^ 64) with maxUint32 by reflexivity.
  destruct (strconv.ParseUint_go _ _ _ _ _ _ _) as [[n us]|[n e]] eqn:Hgo;
    [|discriminate].
  apply ParseUint_go_le in Hgo; [|unfold maxUint32; lia].
  destruct (us && _); [discriminate|]. intros [= <-]. exact Hgo.
Qed.

(** [ParseUint] takes no sign. *)
Lemma ParseUint_sign (c : ascii) (rest : string) :
  Ascii.eqb c "+" || Ascii.eqb c "-" = true ->
  strconv.ParseUint (String c rest) 0 32 = (0, Some strconv.ErrSyntax).
Proof.
  intros H. apply orb_true_iff in H as [H|H]; apply Ascii.eqb_eq in H; subst c;
    reflexivity.
Qed.

(** X7.  [GetUint] returns either the default or a number between 0 and
    [2^32 - 1].  On an unsigned literal ([0x] and hexadecimal digits, [0] and
    octal digits, or decimal digits) it returns the value when that is at
    most [2^32 - 1] and the default otherwise.  A raw string that starts
    with a sign, ['+'] as well as ['-'], always gives the default. *)
Theorem X7_GetUint (i : goini.Ini) (section key : string) (def : Z) :
  (goini.GetUint i section key def = def
   \/ 0 <= goini.GetUint i section key def <= maxUint32)
  /\ (forall v, literal.unsigned (goini.getString i section key) = Some v ->
                goini.GetUint i section key def
                = if v <=? maxUint32 then v else def)
  /\ (forall c rest,
         goini.getString i section key = String c rest ->
         Ascii.eqb c "+" || Ascii.eqb c "-" = true ->
         goini.GetUint i section key def = def).
Proof.
  unfold goini.GetUint. split; [|split].
  - destruct (strconv.ParseUint _ 0 32) as [v [e|]] eqn:H; [left; reflexivity|].
    right. exact (ParseUint_range _ v H).
  - intros v Hv. rewrite (ParseUint_unsigned _ v Hv).
    destruct (v <=? maxUint32); reflexivity.
  - intros c rest -> Hsign. rewrite (ParseUint_sign c rest Hsign). reflexivity.
Qed.

Lemma X7_witness :
  goini.GetUint loaded "theme" "accent color" 7 = 16711935
  /\ goini.GetUint (default goini.zeroIni (goini.LoadFromBytes goini.NewIni "n=+5"))
       "" "n" 7 = 7.
Proof.
  split.
  - destruct (X7_GetUint loaded "theme" "accent color" 7) as (_ & Hlit & _).
    rewrite (Hlit 16711935); vm_compute; reflexivity.
  - destruct (X7_GetUint (default goini.zeroIni
                            (goini.LoadFromBytes goini.NewIni "n=+5")) "" "n" 7)
      as (_ & _ & Hsign).
    apply (Hsign "+"%char "5"); vm_compute; reflexivity.
Defined.

(** X8.  Whenever [GetUint] can parse the raw string of a key, [GetInt]
    parses it to the same number, unless the number is above [2^31 - 1], for
    which [GetInt] gives its default. *)
Theorem X8_GetInt_agrees_with_GetUint (i : goini.Ini) (section key : string)
        (v defi defu : Z) :
  strconv.ParseUint (goini.getString i section key) 0 32 = (v, None) ->
  goini.GetUint i section key defu = v
  /\ goini.GetInt i section key defi = if v <=? maxInt32 then v else defi.
Proof.
  intros H. unfold goini.GetUint, goini.GetInt. rewrite H. split; [reflexivity|].
  pose proof (ParseUint_nonneg _ v H) as Hv.
  destruct (goini.getString i section key) as [|c0 rest] eqn:Hraw; [discriminate|].
  unfold strconv.ParseInt.
  change 43 with (gostr.byte "+"). change 45 with (gostr.byte "-").
  rewrite !byte_eqb.
  destruct (Ascii.eqb c0 "+") eqn:Hplus.
  { rewrite (ParseUint_sign c0 rest) in H by (rewrite Hplus; reflexivity).
    discriminate. }
  destruct (Ascii.eqb c0 "-") eqn:Hminus.
  { rewrite (ParseUint_sign c0 rest) in H by (rewrite Hminus, orb_true_r; reflexivity).
    discriminate. }
  rewrite H.
  change (Z.shiftl 1 ((if 32 =? 0 then strconv.IntSize else 32) - 1)) with (2 ^ 31).
  unfold maxInt32. cbn [negb andb]. rewrite Z.geb_leb.
  destruct (Z.leb_spec (2 ^ 31) v); destruct (Z.leb_spec v (2 ^ 31 - 1));
    try lia; reflexivity.
Qed.

Lemma X8_witness :
  goini.GetUint loaded "gui settings" "width" 0 = 1920
  /\ goini.GetInt loaded "gui settings" "width" 0 = 1920.
Proof.
  apply (X8_GetInt_agrees_with_GetUint loaded "gui settings" "width" 1920 0 0).
  vm_compute. reflexivity.
Defined.

(** ** The boolean getter *)

Lemma truthy_eqb (raw : string) :
  String.eqb raw "1" || String.eqb raw "t" || String.eqb raw "T"
  || String.eqb raw "true" || String.eqb raw "TRUE" || String.eqb raw "True" = true
  <-> raw ∈ truthy.
Proof.
  unfold truthy. rewrite !elem_of_cons, elem_of_nil, !orb_true_iff, !String.eqb_eq.
  tauto.
Qed.

Lemma falsy_eqb (raw : string) :
  String.eqb raw "0" || String.eqb raw "f" || String.eqb raw "F"
  || String.eqb raw "false" || String.eqb raw "FALSE" || String.eqb raw "False" = true
  <-> raw ∈ falsy.
Proof.
  unfold falsy. rewrite !elem_of_cons, elem_of_nil, !orb_true_iff, !String.eqb_eq.
  tauto.
Qed.

Lemma truthy_not_falsy (raw : string) : raw ∈ truthy -> raw ∈ falsy -> False.
Proof.
  unfold truthy, falsy. rewrite !elem_of_cons, !elem_of_nil.
  intros Ht Hf. decompose [or] Ht; try contradiction; subst raw;
    decompose [or] Hf; try contradiction; discriminate.
Qed.

(** X9.  [GetBool] returns true against the default false exactly on the
    raw strings [1], [t], [T], [true], [TRUE] and [True], and false against
    the default true exactly on [0], [f], [F], [false], [FALSE] and [False];
    on every other raw string, such as [yes] or [tRUE], it returns the
    default. *)
Theorem X9_GetBool (i : goini.Ini) (section key : string) :
  (goini.GetBool i section key false = true
   <-> goini.getString i section key ∈ truthy)
  /\ (goini.GetBool i section key true = false
      <-> goini.getString i section key ∈ falsy)
  /\ (goini.getString i section key ∉ truthy ->
      goini.getString i section key ∉ falsy ->
      forall def, goini.GetBool i section key def = def).
Proof.
  unfold goini.GetBool, strconv.ParseBool.
  generalize (goini.getString i section key). intros raw.
  pose proof (truthy_eqb raw) as Ht. pose proof (falsy_eqb raw) as Hf.
  pose proof (truthy_not_falsy raw) as Hdisj.
  destruct (String.eqb raw "1" || String.eqb raw "t" || String.eqb raw "T"
            || String.eqb raw "true" || String.eqb raw "TRUE"
            || String.eqb raw "True").
  - assert (Hin : raw ∈ truthy) by (apply Ht; reflexivity).
    split; [tauto|]. split; [|tauto].
    split; [discriminate|]. intros Hin'. exfalso. exact (Hdisj Hin Hin').
  - assert (Hnt : raw ∉ truthy) by (intros Hin; apply Ht in Hin; discriminate).
    destruct (String.eqb raw "0" || String.eqb raw "f" || String.eqb raw "F"
              || String.eqb raw "false" || String.eqb raw "FALSE"
              || String.eqb raw "False").
    + assert (Hin : raw ∈ falsy) by (apply Hf; reflexivity).
      split; [split; [discriminate|tauto]|]. split; [tauto|tauto].
    + assert (Hnf : raw ∉ falsy) by (intros Hin; apply Hf in Hin; discriminate).
      split; [split; [discriminate|tauto]|].
      split; [split; [discriminate|tauto]|]. reflexivity.
Qed.

Lemma X9_witness :
  goini.GetBool loaded "theme" "use system theme" true = false
  /\ goini.GetBool loaded "gui settings" "width" true = true.
Proof.
  destruct (X9_GetBool loaded "theme" "use system theme") as (_ & Hfalse & _).
  destruct (X9_GetBool loaded "gui settings" "width") as (_ & _ & Hdef).
  assert (H0 : goini.getString loaded "theme" "use system theme" = "0")
    by (vm_compute; reflexivity).
  assert (H1 : goini.getString loaded "gui settings" "width" = "1920")
    by (vm_compute; reflexivity).
  rewrite H0 in Hfalse. rewrite H1 in Hdef. split.
  - apply Hfalse. unfold falsy. apply list_elem_of_here.
  - apply Hdef; unfold truthy, falsy; rewrite !elem_of_cons, elem_of_nil;
      intros H; decompose [or] H; try contradiction; discriminate.
Defined.

(** ** Lines that the loader skips *)

(** A skipped line can be taken out of the input: the loaded store is the
    same. *)
Lemma ignored_line_removable (raw : string) :
  lines.classify raw = lines.Ignored ->
  forall i buffer buffer' pre post,
    bufio.tokens buffer = (pre ++ raw :: post)%list ->
    bufio.tokens buffer' = (pre ++ post)%list ->
    exists i1 i2,
      goini.LoadFromBytes i buffer = Some i1
      /\ goini.LoadFromBytes i buffer' = Some i2
      /\ goini.sections i1 = goini.sections i2.
Proof.
  intros Hc i buffer buffer' pre post Htok Htok'.
  do 2 eexists. rewrite !LoadFromBytes_parse.
  split; [reflexivity|]. split; [reflexivity|].
  cbn [goini.sections]. f_equal. unfold lines.parse.
  rewrite Htok, Htok', !run_app, run_cons. f_equal. f_equal.
  destruct (lines.run _ pre) as [m cur]. unfold lines.step. rewrite Hc.
  reflexivity.
Qed.

(** X10.  A line that is blank once trimmed, or whose first byte is then
    ['#'] or [';'], changes neither the instance nor the current section,
    whatever follows on the line, an ['='] included; the input without the
    line loads to the same store. *)
Theorem X10_comment_or_blank_is_skipped (raw : string) :
  gostrings.TrimSpace raw = ""
  \/ String.get 0 (gostrings.TrimSpace raw) = Some "#"%char
  \/ String.get 0 (gostrings.TrimSpace raw) = Some ";"%char ->
  (forall st, goini.parseLine st raw = Some st)
  /\ (forall i buffer buffer' pre post,
         bufio.tokens buffer = (pre ++ raw :: post)%list ->
         bufio.tokens buffer' = (pre ++ post)%list ->
         exists i1 i2,
           goini.LoadFromBytes i buffer = Some i1
           /\ goini.LoadFromBytes i buffer' = Some i2
           /\ goini.sections i1 = goini.sections i2).
Proof.
  intros H.
  assert (Hc : lines.classify raw = lines.Ignored).
  { unfold lines.classify.
    destruct (gostrings.TrimSpace raw) as [|c0 rest]; [reflexivity|].
    destruct H as [H|[H|H]]; [discriminate| |]; cbn in H; injection H as ->;
      reflexivity. }
  split; [intros st; apply parseLine_ignored; exact Hc|].
  apply ignored_line_removable. exact Hc.
Qed.

Lemma X10_witness :
  (forall st, goini.parseLine st "  ; width = 1" = Some st)
  /\ (forall i buffer buffer' pre post,
         bufio.tokens buffer = (pre ++ "  ; width = 1" :: post)%list ->
         bufio.tokens buffer' = (pre ++ post)%list ->
         exists i1 i2,
           goini.LoadFromBytes i buffer = Some i1
           /\ goini.LoadFromBytes i buffer' = Some i2
           /\ goini.sections i1 = goini.sections i2).
Proof.
  apply (X10_comment_or_blank_is_skipped "  ; width = 1").
  right. right. vm_compute. reflexivity.
Defined.

(** X11.  A line that starts with ['['] once trimmed but does not end with
    [']'] is skipped whole: the current section stays, no section is made,
    and the line is not read as an assignment even when it holds one ['='].
    The input without the line loads to the same store. *)
Theorem X11_unclosed_header_is_skipped (raw : string) :
  String.get 0 (gostrings.TrimSpace raw) = Some "["%char ->
  lines.lastByte (gostrings.TrimSpace raw) <> Some "]"%char ->
  (forall st, goini.parseLine st raw = Some st)
  /\ (forall i buffer buffer' pre post,
         bufio.tokens buffer = (pre ++ raw :: post)%list ->
         bufio.tokens buffer' = (pre ++ post)%list ->
         exists i1 i2,
           goini.LoadFromBytes i buffer = Some i1
           /\ goini.LoadFromBytes i buffer' = Some i2
           /\ goini.sections i1 = goini.sections i2).
Proof.
  intros Hfirst Hlast.
  assert (Hc : lines.classify raw = lines.Ignored).
  { unfold lines.classify.
    destruct (gostrings.TrimSpace raw) as [|c0 rest]; [reflexivity|].
    cbn in Hfirst. injection Hfirst as ->. cbn [Ascii.eqb orb].
    replace (Ascii.eqb "[" "#" || Ascii.eqb "[" ";") with false by reflexivity.
    replace (Ascii.eqb "[" "[") with true by reflexivity.
    destruct (lines.lastByte (String "[" rest)) as [cl|]; [|reflexivity].
    destruct (Ascii.eqb_spec cl "]") as [->|_]; [congruence|reflexivity]. }
  split; [intros st; apply parseLine_ignored; exact Hc|].
  apply ignored_line_removable. exact Hc.
Qed.

Lemma X11_witness :
  (forall st, goini.parseLine st "[theme] ; colours = 2" = Some st)
  /\ (forall i buffer buffer' pre post,
         bufio.tokens buffer = (pre ++ "[theme] ; colours = 2" :: post)%list ->
         bufio.tokens buffer' = (pre ++ post)%list ->
         exists i1 i2,
           goini.LoadFromBytes i buffer = Some i1
           /\ goini.LoadFromBytes i buffer' = Some i2
           /\ goini.sections i1 = goini.sections i2).
Proof.
  apply (X11_unclosed_header_is_skipped "[theme] ; colours = 2");
    vm_compute; [reflexivity|discriminate].
Defined.

(** ** Headers *)

Lemma get_app_r (a b : string) (n : nat) :
  String.get (String.length a + n) (a +:+ b) = String.get n b.
Proof.
  induction a as [|c a IH]; [reflexivity|].
  rewrite append_cons. cbn [String.length Nat.add String.get]. exact IH.
Qed.

Lemma lastByte_app_single (a : string) (c : ascii) :
  lines.lastByte (a +:+ String c "") = Some c.
Proof.
  unfold lines.lastByte. rewrite length_app. cbn [String.length].
  replace (String.length a + 1 - 1)%nat with (String.length a + 0)%nat by lia.
  rewrite get_app_r. reflexivity.
Qed.

(** A trimmed line [[name]] is a header of [name], whatever bytes the name
    holds. *)
Lemma classify_header (raw name : string) :
  gostrings.TrimSpace raw = String "[" (name +:+ "]") ->
  lines.classify raw = lines.Header name.
Proof.
  intros Hline. unfold lines.classify. rewrite Hline.
  replace (Ascii.eqb "[" "#" || Ascii.eqb "[" ";") with false by reflexivity.
  replace (Ascii.eqb "[" "[") with true by reflexivity.
  change (String "[" (name +:+ "]")) with (String "[" name +:+ "]").
  rewrite lastByte_app_single. rewrite Ascii.eqb_refl. f_equal.
  rewrite length_app. cbn [String.length].
  replace (S (String.length name) + 1 - 2)%nat with (String.length name) by lia.
  rewrite append_cons. cbn [String.substring]. apply substring_0_app.
Qed.

(** X12.  A trimmed line [[name]] makes [name] a section, with the bytes
    between the brackets as they are: blanks inside are kept, and an ['=']
    inside does not make the line an assignment.  An assignment on the next
    line goes to that section. *)
Theorem X12_header_opens_section (i : goini.Ini) (buffer : string)
        (pre post : list string) (hdr asg name k v : string) :
  bufio.tokens buffer = (pre ++ hdr :: asg :: post)%list ->
  gostrings.TrimSpace hdr = String "[" (name +:+ "]") ->
  lines.classify asg = lines.Assignment k v ->
  lines.assigns name post name k = false ->
  exists i',
    goini.LoadFromBytes i buffer = Some i'
    /\ goini.SectionExists i' name = true
    /\ goini.KeyExists i' name k = true
    /\ goini.getString i' name k = v.
Proof.
  intros Htok Hhdr Hasg Hlast.
  pose proof (classify_header hdr name Hhdr) as Hc.
  assert (Hsec : lines.sectionAfter "" (pre ++ [hdr]) = name).
  { rewrite <- (run_section (pre ++ [hdr]) {[ "" := ∅ ]} ""), run_app.
    destruct (lines.run _ pre) as [m c]. unfold lines.run. cbn [fold_left].
    rewrite step_section, Hc. reflexivity. }
  replace (pre ++ hdr :: asg :: post)%list
    with ((pre ++ [hdr]) ++ asg :: post)%list in Htok
    by (rewrite <- app_assoc; reflexivity).
  destruct (load_assignment i buffer _ post asg k v Htok Hasg) as (i' & Hl & Hex & Hget).
  rewrite Hsec in Hex, Hget. exists i'. split; [exact Hl|].
  split; [|split; [exact Hex|exact (Hget Hlast)]].
  unfold goini.KeyExists, goini.SectionExists, goini.section_of in *.
  destruct (gomap.get (goini.sections i') name); [reflexivity|discriminate].
Qed.

Lemma X12_witness :
  exists i',
    goini.LoadFromBytes goini.NewIni ("[ a=b ]" +:+ gostr.nl +:+ "k=v") = Some i'
    /\ goini.SectionExists i' " a=b " = true
    /\ goini.KeyExists i' " a=b " "k" = true
    /\ goini.getString i' " a=b " "k" = "v".
Proof.
  apply (X12_header_opens_section goini.NewIni
           ("[ a=b ]" +:+ gostr.nl +:+ "k=v") [] [] "[ a=b ]" "k=v" " a=b " "k" "v");
    vm_compute; reflexivity.
Defined.

(** ** Trimming ASCII blanks *)

Lemma append_assoc_s (a b c : string) : (a +:+ b) +:+ c = a +:+ (b +:+ c).
Proof.
  induction a as [|d a IH]; [reflexivity|]. rewrite !append_cons, IH. reflexivity.
Qed.

Lemma append_nil_r (a : string) : a +:+ "" = a.
Proof.
  induction a as [|d a IH]; [reflexivity|]. rewrite append_cons, IH. reflexivity.
Qed.

Lemma get_app_l (a b : string) (n : nat) :
  (n < String.length a)%nat -> String.get n (a +:+ b) = String.get n a.
Proof.
  revert n. induction a as [|c a IH]; intros n Hn; [cbn in Hn; lia|].
  rewrite append_cons. destruct n as [|n]; [reflexivity|].
  cbn [String.get]. apply IH. cbn in Hn. lia.
Qed.

Lemma asciiSpace_below (c : ascii) :
  gostrings.asciiSpace c = true -> (gostr.byte c >=? utf8.RuneSelf) = false.
Proof.
  unfold gostrings.asciiSpace, utf8.RuneSelf. rewrite Z.geb_leb. intros H.
  apply Z.leb_gt.
  repeat (apply orb_true_iff in H as [H|H]); apply Z.eqb_eq in H; lia.
Qed.

Lemma solid_spec (c : ascii) :
  text.solid c = true ->
  (gostr.byte c >=? utf8.RuneSelf) = false /\ gostrings.asciiSpace c = false.
Proof.
  unfold text.solid. intros H. apply andb_true_iff in H as [H1 H2].
  apply Z.ltb_lt in H1. apply negb_true_iff in H2. split; [|exact H2].
  rewrite Z.geb_leb. apply Z.leb_gt. exact H1.
Qed.

Lemma blank_get (ws : string) (n : nat) (c : ascii) :
  text.blank ws = true -> String.get n ws = Some c -> gostrings.asciiSpace c = true.
Proof.
  revert n. induction ws as [|d ws IH]; intros n Hb; [discriminate|].
  cbn [text.blank] in Hb. apply andb_true_iff in Hb as [Hd Hb].
  destruct n as [|n]; cbn [String.get].
  - intros [= <-]. exact Hd.
  - apply IH. exact Hb.
Qed.

Lemma get_Some_lt (s : string) (n : nat) :
  (n < String.length s)%nat -> exists c, String.get n s = Some c.
Proof.
  revert n. induction s as [|d s IH]; intros n Hn; [cbn in Hn; lia|].
  destruct n as [|n]; [exists d; reflexivity|]. cbn [String.get]. apply IH.
  cbn in Hn. lia.
Qed.

Lemma TrimSpace_blank_l (ws t : string) :
  text.blank ws = true -> gostrings.TrimSpace (ws +:+ t) = gostrings.TrimSpace t.
Proof.
  induction ws as [|c ws IH]; intros Hb; [reflexivity|].
  cbn [text.blank] in Hb. apply andb_true_iff in Hb as [Hc Hb].
  rewrite append_cons. cbn [gostrings.TrimSpace].
  rewrite (asciiSpace_below c Hc), Hc. apply IH. exact Hb.
Qed.

Lemma TrimSpace_blank (ws : string) :
  text.blank ws = true -> gostrings.TrimSpace ws = "".
Proof.
  intros Hb. rewrite <- (append_nil_r ws). rewrite (TrimSpace_blank_l ws "" Hb).
  reflexivity.
Qed.

Lemma tight_inv (s : string) :
  text.tight s = true ->
  exists c rest d,
    s = String c rest /\ lines.lastByte s = Some d
    /\ text.solid c = true /\ text.solid d = true.
Proof.
  unfold text.tight. destruct s as [|c rest]; [discriminate|].
  destruct (lines.lastByte (String c rest)) as [d|]; [|discriminate].
  intros H. apply andb_true_iff in H as [Hc Hd]. exists c, rest, d. auto.
Qed.

Lemma TrimSpace_stop_blank (s ws : string) (j : nat) :
  text.tight s = true -> text.blank ws = true -> (j <= String.length ws)%nat ->
  gostrings.TrimSpace_stop (s +:+ ws) (String.length s + j) = s.
Proof.
  intros Ht Hb. destruct (tight_inv s Ht) as (c & rest & d & Hs & Hlast & Hc & Hd).
  induction j as [|j IH]; intros Hj.
  - rewrite Nat.add_0_r. unfold lines.lastByte in Hlast.
    assert (Hlen : String.length s = S (String.length s - 1))
      by (rewrite Hs; cbn [String.length]; lia).
    rewrite Hlen. cbn [gostrings.TrimSpace_stop].
    rewrite get_app_l by lia. rewrite Hlast.
    destruct (solid_spec d Hd) as [-> ->]. rewrite <- Hlen.
    apply substring_0_app.
  - rewrite Nat.add_succ_r. cbn [gostrings.TrimSpace_stop].
    rewrite get_app_r.
    destruct (get_Some_lt ws j) as [b Hget]; [lia|]. rewrite Hget.
    pose proof (blank_get ws j b Hb Hget) as Hspace.
    rewrite (asciiSpace_below b Hspace), Hspace. apply IH. lia.
Qed.

(** [TrimSpace] takes the ASCII blanks off both ends of a string whose own
    ends are ASCII and not blank. *)
Lemma TrimSpace_padded (ws1 s ws2 : string) :
  text.blank ws1 = true -> text.tight s = true -> text.blank ws2 = true ->
  gostrings.TrimSpace (ws1 +:+ s +:+ ws2) = s.
Proof.
  intros H1 Hs H2. rewrite (TrimSpace_blank_l ws1 _ H1).
  destruct (tight_inv s Hs) as (c & rest & d & Heq & _ & Hc & _).
  pose proof (TrimSpace_stop_blank s ws2 (String.length ws2) Hs H2 (le_n _)) as Hstop.
  rewrite <- length_app in Hstop. rewrite Heq in *. rewrite append_cons in *.
  cbn [gostrings.TrimSpace]. destruct (solid_spec c Hc) as [-> ->]. exact Hstop.
Qed.

Lemma blank_CountString (ws : string) :
  text.blank ws = true -> gostrings.CountString ws "=" = 0.
Proof.
  induction ws as [|c ws IH]; intros Hb; [reflexivity|].
  cbn [text.blank] in Hb. apply andb_true_iff in Hb as [Hc Hb].
  cbn [gostrings.CountString]. rewrite (IH Hb).
  destruct (Ascii.eqb_spec c "=") as [->|_]; [discriminate|reflexivity].
Qed.

Lemma lastByte_app (a b : string) :
  b <> "" -> lines.lastByte (a +:+ b) = lines.lastByte b.
Proof.
  intros Hb. unfold lines.lastByte. rewrite length_app.
  assert (0 < String.length b)%nat by (destruct b; [congruence|cbn; lia]).
  replace (String.length a + String.length b - 1)%nat
    with (String.length a + (String.length b - 1))%nat by lia.
  apply get_app_r.
Qed.

Lemma tight_app (a m b : string) :
  text.tight a = true -> text.tight b = true -> text.tight (a +:+ m +:+ b) = true.
Proof.
  intros Ha Hb.
  destruct (tight_inv a Ha) as (c & rest & _ & Heqa & _ & Hc & _).
  destruct (tight_inv b Hb) as (c' & rest' & d & Heqb & Hlast & _ & Hd).
  unfold text.tight. rewrite Heqa, append_cons. cbv iota.
  change (String c (rest +:+ m +:+ b)) with (String c rest +:+ (m +:+ b)).
  rewrite <- (append_assoc_s (String c rest) m b), (lastByte_app _ b)
    by (rewrite Heqb; discriminate).
  rewrite Hlast, Hc, Hd. reflexivity.
Qed.

(** ** A padded assignment is read back as written *)

(** X13.  Let a line be [key=value] with ASCII blanks (space, tab, carriage
    return and the like) before the key, around the ['='] and after the
    value, where key and value hold no ['='] and start and end with an ASCII
    byte that is not blank, and the key does not start with ['#'], [';'] or
    ['['].  If no later line assigns the key in the same section, the load
    stores the value as written between its ends, inner blanks and case
    kept, and [GetString] returns it whatever the default. *)
Theorem X13_padded_assignment_round_trip (i : goini.Ini) (buffer : string)
        (pre post : list string) (ws1 k ws2 ws3 v ws4 : string) :
  bufio.tokens buffer
  = (pre ++ (ws1 +:+ k +:+ ws2 +:+ String "=" (ws3 +:+ v +:+ ws4)) :: post)%list ->
  text.blank ws1 = true -> text.blank ws2 = true ->
  text.blank ws3 = true -> text.blank ws4 = true ->
  text.tight k = true -> text.tight v = true ->
  gostrings.CountString k "=" = 0 -> gostrings.CountString v "=" = 0 ->
  String.get 0 k <> Some "#"%char ->
  String.get 0 k <> Some ";"%char ->
  String.get 0 k <> Some "["%char ->
  lines.assigns (lines.sectionAfter "" pre) post (lines.sectionAfter "" pre) k = false ->
  exists i',
    goini.LoadFromBytes i buffer = Some i'
    /\ goini.KeyExists i' (lines.sectionAfter "" pre) k = true
    /\ (forall def, goini.GetString i' (lines.sectionAfter "" pre) k def = v).
Proof.
  intros Htok Hw1 Hw2 Hw3 Hw4 Hk Hv Hck Hcv Hf1 Hf2 Hf3 Hlast.
  set (raw := ws1 +:+ k +:+ ws2 +:+ String "=" (ws3 +:+ v +:+ ws4)) in *.
  set (kpart := k +:+ ws2). set (vpart := ws3 +:+ v).
  assert (Hraw : raw = ws1 +:+ (kpart +:+ String "=" vpart) +:+ ws4).
  { unfold raw, kpart, vpart.
    repeat (rewrite !append_assoc_s || rewrite !append_cons). reflexivity. }
  assert (Htight : text.tight (kpart +:+ String "=" vpart) = true).
  { unfold kpart, vpart. rewrite append_assoc_s.
    replace (ws2 +:+ String "=" (ws3 +:+ v))
      with ((ws2 +:+ String "=" ws3) +:+ v)
      by (rewrite append_assoc_s, append_cons; reflexivity).
    apply tight_app; assumption. }
  assert (Hline : gostrings.TrimSpace raw = kpart +:+ String "=" vpart).
  { rewrite Hraw. apply TrimSpace_padded; assumption. }
  assert (Hkp : gostrings.TrimSpace kpart = k).
  { unfold kpart. apply (TrimSpace_padded "" k ws2); auto. }
  assert (Hvp : gostrings.TrimSpace vpart = v).
  { unfold vpart. rewrite <- (append_nil_r v) at 1.
    apply (TrimSpace_padded ws3 v ""); auto. }
  assert (Hfirst : String.get 0 (gostrings.TrimSpace raw) = String.get 0 k).
  { rewrite Hline. unfold kpart.
    destruct (tight_inv k Hk) as (c & rest & _ & -> & _). reflexivity. }
  assert (Hc : lines.classify raw = lines.Assignment k v).
  { rewrite <- Hkp, <- Hvp. apply classify_assignment; rewrite ?Hfirst; try assumption.
    - unfold kpart. rewrite CountString_app, Hck, (blank_CountString ws2 Hw2).
      reflexivity.
    - unfold vpart. rewrite CountString_app, Hcv, (blank_CountString ws3 Hw3).
      reflexivity. }
  destruct (load_assignment i buffer pre post raw k v Htok Hc) as (i' & Hl & Hex & Hget).
  exists i'. split; [exact Hl|]. split; [exact Hex|].
  intros def. unfold goini.GetString. rewrite (Hget Hlast).
  destruct (tight_inv v Hv) as (c & rest & _ & -> & _). reflexivity.
Qed.

Lemma X13_witness :
  exists i',
    goini.LoadFromBytes goini.NewIni
      ("[gui]" +:+ gostr.nl +:+ "  Scale Factor = 1.33 x" +:+ String gostr.CR "")
    = Some i'
    /\ goini.KeyExists i' "gui" "Scale Factor" = true
    /\ (forall def, goini.GetString i' "gui" "Scale Factor" def = "1.33 x").
Proof.
  apply (X13_padded_assignment_round_trip goini.NewIni
           ("[gui]" +:+ gostr.nl +:+ "  Scale Factor = 1.33 x" +:+ String gostr.CR "")
           ["[gui]"] [] "  " "Scale Factor" " " " " "1.33 x" "");
    try (vm_compute; reflexivity); vm_compute; discriminate.
Defined.

(** ** The lines of the input text *)

Lemma tokens_joinLines (ls : list string) (rest : string) :
  Forall text.short ls ->
  bufio.tokens (text.joinLines ls +:+ rest)
  = (map bufio.dropCR ls ++ bufio.tokens rest)%list.
Proof.
  induction 1 as [|l ls [Hl Hlen] _ IH]; [reflexivity|].
  cbn [text.joinLines map app]. rewrite append_assoc_s, append_cons.
  rewrite (tokens_line l _ Hl Hlen), IH. reflexivity.
Qed.

Lemma sections_of_tokens (i j : goini.Ini) (b1 b2 : string) :
  bufio.tokens b1 = bufio.tokens b2 ->
  exists i1 i2,
    goini.LoadFromBytes i b1 = Some i1
    /\ goini.LoadFromBytes j b2 = Some i2
    /\ goini.sections i1 = goini.sections i2.
Proof.
  intros H. do 2 eexists. rewrite !LoadFromBytes_parse.
  split; [reflexivity|]. split; [reflexivity|].
  cbn [goini.sections]. unfold lines.parse. rewrite H. reflexivity.
Qed.

(** X14.  In a text of lines that each end with a line feed, hold no other
    line feed and are shorter than 65536 bytes, the loader reads every line,
    in order, without one carriage return at its end.  The line feed of the
    last line can be left out: the store is the same. *)
Theorem X14_lines_are_read_in_order (i : goini.Ini) (ls : list string) (l : string) :
  Forall text.short ls -> text.short l -> l <> "" ->
  bufio.tokens (text.joinLines ls) = map bufio.dropCR ls
  /\ bufio.tokens (text.joinLines ls +:+ l) = map bufio.dropCR (ls ++ [l])
  /\ exists i1 i2,
      goini.LoadFromBytes i (text.joinLines ls +:+ l) = Some i1
      /\ goini.LoadFromBytes i (text.joinLines (ls ++ [l])) = Some i2
      /\ goini.sections i1 = goini.sections i2.
Proof.
  intros Hls [Hl Hlen] Hne.
  assert (H1 : bufio.tokens (text.joinLines ls) = map bufio.dropCR ls).
  { rewrite <- (append_nil_r (text.joinLines ls)), tokens_joinLines by exact Hls.
    change (bufio.tokens "") with (@nil string). apply app_nil_r. }
  assert (H2 : bufio.tokens (text.joinLines ls +:+ l) = map bufio.dropCR (ls ++ [l])).
  { rewrite tokens_joinLines by exact Hls.
    rewrite (tokens_last l Hl Hlen Hne), map_app. reflexivity. }
  split; [exact H1|]. split; [exact H2|].
  apply sections_of_tokens. rewrite H2.
  rewrite <- (append_nil_r (text.joinLines (ls ++ [l]))), tokens_joinLines.
  - change (bufio.tokens "") with (@nil string). rewrite app_nil_r. reflexivity.
  - apply Forall_app. split; [exact Hls|]. constructor; [split; assumption|constructor].
Qed.

Lemma short_compute (l : string) :
  bufio.IndexByte l gostr.LF = None ->
  (gostr.len l <? bufio.MaxScanTokenSize) = true ->
  text.short l.
Proof. intros H1 H2. split; [exact H1|]. apply Z.ltb_lt. exact H2. Qed.

Lemma X14_witness :
  bufio.tokens (text.joinLines twoLines) = map bufio.dropCR twoLines
  /\ bufio.tokens (text.joinLines twoLines +:+ "z=1")
     = map bufio.dropCR (twoLines ++ ["z=1"])
  /\ exists i1 i2,
      goini.LoadFromBytes goini.NewIni (text.joinLines twoLines +:+ "z=1") = Some i1
      /\ goini.LoadFromBytes goini.NewIni (text.joinLines (twoLines ++ ["z=1"]))
         = Some i2
      /\ goini.sections i1 = goini.sections i2.
Proof.
  apply (X14_lines_are_read_in_order goini.NewIni twoLines "z=1").
  - repeat constructor; apply short_compute; vm_compute; reflexivity.
  - apply short_compute; vm_compute; reflexivity.
  - discriminate.
Defined.

(** *** Carriage returns *)

Lemma dropCR_spec (data : string) :
  bufio.dropCR data
  = if text.endsWithCR data
    then String.substring 0 (String.length data - 1) data
    else data.
Proof.
  unfold bufio.dropCR, text.endsWithCR, lines.lastByte.
  destruct (String.length data) as [|n] eqn:E.
  - destruct data; [reflexivity|discriminate].
  - replace (S n - 1)%nat with n by lia.
    destruct (String.get n data) as [c|]; reflexivity.
Qed.

Lemma dropCR_app_CR (l : string) : bufio.dropCR (l +:+ String gostr.CR "") = l.
Proof.
  rewrite dropCR_spec. unfold text.endsWithCR. rewrite lastByte_app_single.
  rewrite Ascii.eqb_refl, length_app. cbn [String.length].
  replace (String.length l + 1 - 1)%nat with (String.length l) by lia.
  apply substring_0_app.
Qed.

Lemma IndexByte_app_None (a b : string) (c : ascii) :
  bufio.IndexByte (a +:+ b) c = None -> bufio.IndexByte a c = None.
Proof.
  induction a as [|d a IH]; [reflexivity|].
  rewrite append_cons. cbn [bufio.IndexByte].
  destruct (Ascii.eqb d c); [discriminate|].
  destruct (bufio.IndexByte (a +:+ b) c) eqn:E; [discriminate|].
  intros _. rewrite IH; reflexivity.
Qed.

(** X15.  A text with the line ending CR LF loads to the same store as the
    text with the same lines ended by LF alone, for lines that hold no line
    feed, do not themselves end with a carriage return, and are shorter
    than 65535 bytes. *)
Theorem X15_CRLF_loads_like_LF (i : goini.Ini) (ls : list string) :
  Forall (fun l => text.short (l +:+ String gostr.CR "")) ls ->
  Forall (fun l => text.endsWithCR l = false) ls ->
  exists i1 i2,
    goini.LoadFromBytes i
      (text.joinLines (map (fun l => l +:+ String gostr.CR "") ls)) = Some i1
    /\ goini.LoadFromBytes i (text.joinLines ls) = Some i2
    /\ goini.sections i1 = goini.sections i2.
Proof.
  intros Hshort Hcr. apply sections_of_tokens.
  rewrite <- (append_nil_r (text.joinLines (map _ ls))).
  rewrite <- (append_nil_r (text.joinLines ls)).
  rewrite !tokens_joinLines.
  - f_equal. rewrite map_map. apply map_ext_Forall.
    eapply Forall_impl; [exact Hcr|]. intros l Hl. cbv beta.
    rewrite dropCR_app_CR, dropCR_spec, Hl. reflexivity.
  - eapply Forall_impl; [exact Hshort|]. intros l [Hl Hlen]. split.
    + exact (IndexByte_app_None _ _ _ Hl).
    + unfold gostr.len in *. rewrite length_app in Hlen. lia.
  - apply Forall_map. exact Hshort.
Qed.

Lemma X15_witness :
  exists i1 i2,
    goini.LoadFromBytes goini.NewIni
      (text.joinLines (map (fun l => l +:+ String gostr.CR "") twoLines)) = Some i1
    /\ goini.LoadFromBytes goini.NewIni (text.joinLines twoLines) = Some i2
    /\ goini.sections i1 = goini.sections i2.
Proof.
  apply (X15_CRLF_loads_like_LF goini.NewIni twoLines).
  - repeat constructor; apply short_compute; vm_compute; reflexivity.
  - repeat constructor.
Defined.

(** *** A line that is too long *)

Lemma substring_0_app_ge (n : nat) (a b : string) :
  (n <= String.length a)%nat ->
  String.substring 0 n (a +:+ b) = String.substring 0 n a.
Proof.
  revert n. induction a as [|c a IH]; intros n Hn.
  - cbn in Hn. assert (n = 0%nat) by lia. subst n. destruct b; reflexivity.
  - rewrite append_cons. destruct n as [|n]; [reflexivity|].
    cbn [String.substring]. rewrite IH by (cbn in Hn; lia). reflexivity.
Qed.

Lemma IndexByte_substring_None (n : nat) (a : string) (c : ascii) :
  bufio.IndexByte a c = None -> bufio.IndexByte (String.substring 0 n a) c = None.
Proof.
  revert n. induction a as [|d a IH]; intros n H.
  - destruct n; reflexivity.
  - destruct n as [|n]; [reflexivity|]. cbn [String.substring bufio.IndexByte] in *.
    destruct (Ascii.eqb d c); [discriminate|].
    destruct (bufio.IndexByte a c); [discriminate|].
    rewrite IH; reflexivity.
Qed.

Lemma Scan_overlong (l rest : string) :
  bufio.IndexByte l gostr.LF = None ->
  bufio.MaxScanTokenSize <= gostr.len l ->
  bufio.Scan (bufio.NewScanner (l +:+ rest)) = None.
Proof.
  intros Hl Hlen. unfold bufio.Scan. cbn [bufio.unread].
  rewrite substring_0_app_ge by (unfold gostr.len in Hlen; lia).
  unfold bufio.ScanLines.
  assert (Heof : (gostr.len (l +:+ rest) <? bufio.MaxScanTokenSize) = false).
  { apply Z.ltb_ge. unfold gostr.len in *. rewrite length_app. lia. }
  rewrite Heof. cbn [andb].
  rewrite (IndexByte_substring_None _ l _ Hl). reflexivity.
Qed.

(** X16.  A line of 65536 bytes or more ends the load without any error:
    the lines before it are loaded, and the store is the one of the text cut
    before that line, whatever follows it. *)
Theorem X16_overlong_line_ends_the_load (i : goini.Ini) (ls : list string)
        (l rest : string) :
  Forall text.short ls ->
  bufio.IndexByte l gostr.LF = None ->
  bufio.MaxScanTokenSize <= gostr.len l ->
  bufio.tokens (text.joinLines ls +:+ l +:+ rest) = map bufio.dropCR ls
  /\ exists i1 i2,
      goini.LoadFromBytes i (text.joinLines ls +:+ l +:+ rest) = Some i1
      /\ goini.LoadFromBytes i (text.joinLines ls) = Some i2
      /\ goini.sections i1 = goini.sections i2.
Proof.
  intros Hls Hl Hlen.
  assert (H1 : bufio.tokens (text.joinLines ls +:+ l +:+ rest) = map bufio.dropCR ls).
  { rewrite tokens_joinLines by exact Hls.
    unfold bufio.tokens at 1. rewrite tokens_go_S, (Scan_overlong l rest Hl Hlen).
    apply app_nil_r. }
  split; [exact H1|]. apply sections_of_tokens. rewrite H1.
  rewrite <- (append_nil_r (text.joinLines ls)), tokens_joinLines by exact Hls.
  change (bufio.tokens "") with (@nil string). rewrite app_nil_r. reflexivity.
Qed.

Lemma X16_witness :
  bufio.tokens (text.joinLines twoLines +:+ overlong +:+ (gostr.nl +:+ "z=1"))
  = map bufio.dropCR twoLines
  /\ exists i1 i2,
      goini.LoadFromBytes goini.NewIni
        (text.joinLines twoLines +:+ overlong +:+ (gostr.nl +:+ "z=1")) = Some i1
      /\ goini.LoadFromBytes goini.NewIni (text.joinLines twoLines) = Some i2
      /\ goini.sections i1 = goini.sections i2.
Proof.
  apply (X16_overlong_line_ends_the_load goini.NewIni twoLines overlong
           (gostr.nl +:+ "z=1")).
  - repeat constructor; apply short_compute; vm_compute; reflexivity.
  - vm_compute. reflexivity.
  - apply Z.leb_le. vm_compute. reflexivity.
Defined.

(** ** Loading again *)

(** X17.  The instance that a load returns keeps the bytes it was loaded
    from, and a load of those bytes into it returns the same instance:
    loading is idempotent. *)
Theorem X17_reload_is_identity (i i' : goini.Ini) (buffer : string) :
  goini.LoadFromBytes i buffer = Some i' ->
  goini.buffer i' = buffer
  /\ goini.LoadFromBytes i' (goini.buffer i') = Some i'.
Proof.
  rewrite LoadFromBytes_parse. intros [= <-]. split; [reflexivity|].
  rewrite LoadFromBytes_parse. reflexivity.
Qed.

Lemma X17_witness :
  goini.buffer loaded = content
  /\ goini.LoadFromBytes loaded (goini.buffer loaded) = Some loaded.
Proof.
  apply (X17_reload_is_identity goini.NewIni loaded content).
  unfold loaded. rewrite LoadFromBytes_parse. reflexivity.
Defined.

(** ** The elements of a list value *)

Lemma GetStringSlice_map (i : goini.Ini) (section key def sep : string) :
  sep <> "" ->
  goini.GetStringSlice i section key def sep
  = map (fun e => if String.eqb e "" then def else e)
      (gostrings.Split (goini.getString i section key) sep).
Proof.
  intros Hsep. unfold goini.GetStringSlice. apply String.eqb_neq in Hsep.
  rewrite Hsep. cbn [orb].
  destruct (gostrings.Split (goini.getString i section key) sep) as [|e l] eqn:E;
    [reflexivity|].
  replace (Z.of_nat (length (e :: l)) =? 0) with false
    by (symmetry; apply Z.eqb_neq; cbn [length]; lia).
  rewrite fillDefaults_spec by lia. rewrite take_0, drop_0. reflexivity.
Qed.

Lemma Split_single_elements (s : string) (c : ascii) (e : string) :
  e ∈ gostrings.Split s (String c "") -> gostrings.CountString e c = 0.
Proof.
  remember (Z.to_nat (gostrings.CountString s c)) as n eqn:Hn.
  revert s Hn. induction n as [|n IH]; intros s Hn.
  - pose proof (CountString_nonneg s c).
    assert (H0 : gostrings.CountString s c = 0) by lia.
    rewrite Split_single_none by exact H0.
    intros He. apply list_elem_of_singleton in He. subst e. exact H0.
  - destruct (CountString_split s c) as (a & b & -> & Ha); [lia|].
    rewrite Split_single_app by exact Ha.
    rewrite CountString_app, Ha in Hn. cbn [gostrings.CountString] in Hn.
    rewrite Ascii.eqb_refl in Hn. pose proof (CountString_nonneg b c).
    intros He. apply elem_of_cons in He as [->|He]; [exact Ha|].
    apply (IH b); [lia|exact He].
Qed.

(** X18.  For a separator of one byte, [GetStringSlice] returns one element
    more than the raw string holds separators, so at least one; every
    element is the default or a piece that is not empty and holds no
    separator.  For any separator that is not empty and a default that is
    not empty, no element of the result is empty. *)
Theorem X18_GetStringSlice_elements (i : goini.Ini) (section key def : string)
        (c : ascii) :
  Z.of_nat (length (goini.GetStringSlice i section key def (String c "")))
  = gostrings.CountString (goini.getString i section key) c + 1
  /\ (forall e, e ∈ goini.GetStringSlice i section key def (String c "") ->
                e = def \/ (e <> "" /\ gostrings.CountString e c = 0))
  /\ (forall sep, sep <> "" -> def <> "" ->
                  "" ∉ goini.GetStringSlice i section key def sep).
Proof.
  split; [|split].
  - rewrite GetStringSlice_map by discriminate. rewrite length_map.
    apply length_Split_single.
  - intros e. rewrite GetStringSlice_map by discriminate.
    rewrite list_elem_of_In, in_map_iff. intros (x & Hx & Hin).
    apply list_elem_of_In in Hin.
    destruct (String.eqb x "") eqn:E; [left; congruence|].
    apply String.eqb_neq in E.
    right. subst e. split; [exact E|]. exact (Split_single_elements _ c x Hin).
  - intros sep Hsep Hdef. rewrite GetStringSlice_map by exact Hsep.
    rewrite list_elem_of_In, in_map_iff. intros (x & Hx & _).
    destruct (String.eqb x "") eqn:E; [congruence|].
    apply String.eqb_neq in E. congruence.
Qed.

Lemma X18_witness :
  Z.of_nat (length (goini.GetStringSlice loaded "gui settings" "valid themes"
                      "NULL" ","))
  = 5
  /\ "" ∉ goini.GetStringSlice loaded "gui settings" "valid themes" "NULL" ", ".
Proof.
  destruct (X18_GetStringSlice_elements loaded "gui settings" "valid themes" "NULL" ",")
    as (Hlen & _ & Hne).
  split.
  - rewrite Hlen. vm_compute. reflexivity.
  - apply Hne; discriminate.
Defined.

(** ** The empty key *)

(** X19.  A line that starts with ['='] once trimmed is an assignment of
    the empty key: when it is the last one in its section, the key [""]
    exists there and holds the trimmed rest of the line. *)
Theorem X19_empty_key_is_assigned (i : goini.Ini) (buffer : string)
        (pre post : list string) (raw vpart : string) :
  bufio.tokens buffer = (pre ++ raw :: post)%list ->
  gostrings.TrimSpace raw = String "=" vpart ->
  gostrings.CountString vpart "=" = 0 ->
  lines.assigns (lines.sectionAfter "" pre) post (lines.sectionAfter "" pre) "" = false ->
  exists i',
    goini.LoadFromBytes i buffer = Some i'
    /\ goini.KeyExists i' (lines.sectionAfter "" pre) "" = true
    /\ goini.getString i' (lines.sectionAfter "" pre) "" = gostrings.TrimSpace vpart.
Proof.
  intros Htok Hline Hv Hlast.
  assert (Hc : lines.classify raw = lines.Assignment "" (gostrings.TrimSpace vpart)).
  { change "" with (gostrings.TrimSpace "") at 1.
    apply classify_assignment; rewrite ?Hline; try reflexivity; try assumption;
      cbn; discriminate. }
  destruct (load_assignment i buffer pre post raw _ _ Htok Hc) as (i' & Hl & Hex & Hget).
  exists i'. split; [exact Hl|]. split; [exact Hex|exact (Hget Hlast)].
Qed.

Lemma X19_witness :
  exists i',
    goini.LoadFromBytes goini.NewIni " = no key " = Some i'
    /\ goini.KeyExists i' "" "" = true
    /\ goini.getString i' "" "" = "no key".
Proof.
  apply (X19_empty_key_is_assigned goini.NewIni " = no key " [] [] " = no key "
           " no key"); vm_compute; reflexivity.
Defined.

(** ** Loading from a file *)

Section LoadFromFileSuccess.

Context {error : Type} (ReadFile : string -> string * option error).

(** X20.  When the read succeeds, [LoadFromFile] returns no error and
    leaves the instance that [LoadFromBytes] makes of the bytes read; the
    path is not recorded: [fileName] stays what it was.  And
    [LoadFromFile] returns an error exactly when the read does. *)
Theorem X20_LoadFromFile_loads_bytes_read (i : goini.Ini) (path data : string) :
  ReadFile path = (data, None) ->
  exists i',
    goini.LoadFromFile ReadFile i path = Some (i', None)
    /\ goini.LoadFromBytes i data = Some i'
    /\ goini.fileName i' = goini.fileName i
    /\ goini.buffer i' = data.
Proof.
  intros Hread. unfold goini.LoadFromFile. rewrite Hread.
  rewrite LoadFromBytes_parse. cbn [mbind option_bind].
  eexists. split; [reflexivity|]. split; [reflexivity|]. split; reflexivity.
Qed.

End LoadFromFileSuccess.

Lemma X20_witness :
  exists i',
    goini.LoadFromFile oneFile goini.NewIni "test.ini" = Some (i', None)
    /\ goini.LoadFromBytes goini.NewIni content = Some i'
    /\ goini.fileName i' = goini.fileName goini.NewIni
    /\ goini.buffer i' = content.
Proof.
  apply (X20_LoadFromFile_loads_bytes_read oneFile goini.NewIni "test.ini" content).
  reflexivity.
Defined.
